(** * rag-journal: the agentic retrieval orchestrator

    A shallow embedding of [rag_journal/rag/agentic_rag.py],
    [rag_journal/embeddings/embedder.py], [rag_journal/llm/llm_client.py] and
    [rag_journal/database/mongodb_client.py], and the properties of the
    orchestration loop, the retrieval tools, the similarity ranker and the
    conversation history that the specification states.

    Python values are modelled as the code has them: embeddings and scores are
    IEEE-754 binary64 numbers (numpy float64 and Python float), integers are
    [Z], JSON values coming from the model are [pyval], an exception that is
    raised is an explicit outcome. *)

From Stdlib Require Import List ZArith String Ascii Bool Lia Floats Arith PeanoNat.
From Stdlib Require Import Permutation.
Import ListNotations.

Set Implicit Arguments.
Set Warnings "-register-all,-inexact-float".

(** ** Python values, exceptions and outcomes *)

Module Py.

(** Instances of (subclasses of) Python's [Exception] that the modelled code
    can meet.  [ExternalError] is an exception raised by an external service
    (OpenAI, Anthropic, MongoDB, the embedding model): [message] is its
    [.message] attribute when it has one, [text] is [str(e)]. *)
Inductive exception : Type :=
| KeyError (key : string)
| ValueError (msg : string)
| TypeError (msg : string)
| AttributeError (msg : string)
| IndexError (msg : string)
| ExternalError (message : option string) (text : string).

Definition squote : string := String (ascii_of_nat 39) EmptyString.

(** [str(e)]: a [KeyError] prints the repr of its key; the keys used by the
    code are literals without quotes or backslashes, whose repr is the key
    between single quotes. *)
Definition str (e : exception) : string :=
  match e with
  | KeyError k => squote ++ k ++ squote
  | ValueError m | TypeError m | AttributeError m | IndexError m => m
  | ExternalError _ t => t
  end.

(** [e.message]: only some external exceptions carry the attribute; on every
    other exception the attribute access itself raises [AttributeError]. *)
Definition message_attr (e : exception) : option string :=
  match e with
  | ExternalError m _ => m
  | _ => None
  end.

(** What a call can do: return, raise an [Exception], or leave through
    [sys.exit(code)] ([SystemExit] derives from [BaseException], so a handler
    [except Exception] does not catch it). *)
Inductive outcome (A : Type) : Type :=
| Return (a : A)
| Raise (e : exception)
| SysExit (code : Z).

Arguments Return {A} a.
Arguments Raise {A} e.
Arguments SysExit {A} code.

Definition bind {A B} (m : outcome A) (k : A -> outcome B) : outcome B :=
  match m with
  | Return a => k a
  | Raise e => Raise e
  | SysExit c => SysExit c
  end.

(** [try: body except Exception as e: handler(e)] *)
Definition try_except {A} (body : outcome A) (handler : exception -> outcome A)
  : outcome A :=
  match body with
  | Raise e => handler e
  | other => other
  end.

(** Calls that can only return or raise an [Exception] (no process exit). *)
Inductive result (A : Type) : Type :=
| Done (a : A)
| Fail (e : exception).

Arguments Done {A} a.
Arguments Fail {A} e.

Definition lift {A} (r : result A) : outcome A :=
  match r with
  | Done a => Return a
  | Fail e => Raise e
  end.

Definition rbind {A B} (m : result A) (k : A -> result B) : result B :=
  match m with
  | Done a => k a
  | Fail e => Fail e
  end.

(** JSON-like values: tool parameters produced by the model and the result
    dictionaries of the tools.  A dict is an association list in insertion
    order. *)
Inductive pyval : Type :=
| PNone
| PBool (b : bool)
| PInt (z : Z)
| PFloat (f : float)
| PStr (s : string)
| PList (l : list pyval)
| PDict (d : list (string * pyval)).

(** Truth value of an object, as [if x] and [x and y] test it. *)
Definition truthy (v : pyval) : bool :=
  match v with
  | PNone => false
  | PBool b => b
  | PInt z => negb (Z.eqb z 0)
  | PFloat f => negb (PrimFloat.eqb f 0%float)
  | PStr s => negb (String.eqb s EmptyString)
  | PList l => match l with [] => false | _ => true end
  | PDict d => match d with [] => false | _ => true end
  end.

Fixpoint assoc (k : string) (d : list (string * pyval)) : option pyval :=
  match d with
  | [] => None
  | (k', v) :: d' => if String.eqb k k' then Some v else assoc k d'
  end.

Fixpoint is_prefix (p s : string) : bool :=
  match p, s with
  | EmptyString, _ => true
  | String a p', String b s' => Ascii.eqb a b && is_prefix p' s'
  | String _ _, EmptyString => false
  end.

Fixpoint is_substring (p s : string) : bool :=
  is_prefix p s ||
  match s with
  | EmptyString => false
  | String _ s' => is_substring p s'
  end.

(** [key in obj] for a string literal [key]. *)
Definition contains (key : string) (obj : pyval) : result bool :=
  match obj with
  | PDict d => Done (match assoc key d with Some _ => true | None => false end)
  | PList l =>
      Done (existsb (fun v => match v with PStr s => String.eqb s key | _ => false end) l)
  | PStr s => Done (is_substring key s)
  | _ => Fail (TypeError "argument is not iterable")
  end.

(** [obj[key]] for a string literal [key]. *)
Definition getitem (obj : pyval) (key : string) : result pyval :=
  match obj with
  | PDict d => match assoc key d with Some v => Done v | None => Fail (KeyError key) end
  | PList _ => Fail (TypeError "list indices must be integers or slices, not str")
  | PStr _ => Fail (TypeError "string indices must be integers, not 'str'")
  | _ => Fail (TypeError "object is not subscriptable")
  end.

Definition is_dict (v : pyval) : Prop := exists d, v = PDict d.

(** [l[:k]] *)
Definition slice_to {A} (k : Z) (l : list A) : list A :=
  if (0 <=? k)%Z then firstn (Z.to_nat k) l
  else firstn (List.length l - Z.to_nat (- k)) l.

(** [l[-k:]] for a positive literal or attribute [k]; [l[-0:]] is [l[0:]]. *)
Definition slice_last {A} (k : Z) (l : list A) : list A :=
  if (k <=? 0)%Z then skipn (Z.to_nat (- k)) l
  else skipn (List.length l - Z.to_nat k) l.

(** [l[:-k]] for a positive literal [k]. *)
Definition slice_but_last {A} (k : Z) (l : list A) : list A :=
  slice_to (- k) l.

(** [range(n)] *)
Definition range (n : Z) : list Z :=
  map Z.of_nat (seq 0 (Z.to_nat n)).

End Py.

(** ** The similarity ranker ([embeddings/embedder.py]) *)

Module Ranker.
Import Py.

(** A numpy 1-D float64 array built from a list of floats. *)
Definition vector : Type := list float.

(** [np.dot(a, b)] on 1-D arrays: the sum of the products, accumulated here
    from the left (a BLAS kernel may associate the sum differently; on sums
    that are exact, as in the examples below, and on zero vectors every order
    gives the same value); arrays of different lengths are a [ValueError]. *)
Definition np_dot (a b : vector) : result float :=
  if Nat.eqb (List.length a) (List.length b)
  then Done (fold_left (fun acc p => (acc + fst p * snd p)%float) (combine a b) 0%float)
  else Fail (ValueError "shapes not aligned").

(** [np.linalg.norm(a)] on a 1-D real array is [sqrt(a.dot(a))]. *)
Definition np_linalg_norm (a : vector) : float :=
  PrimFloat.sqrt (fold_left (fun acc x => (acc + x * x)%float) a 0%float).

(** [ArticleEmbedder.cosine_similarity]: float64 division follows IEEE-754
    (numpy issues a warning, not an exception, on a zero divisor). *)
Definition cosine_similarity (embedding1 embedding2 : vector) : result float :=
  rbind (np_dot embedding1 embedding2) (fun d =>
  Done (d / (np_linalg_norm embedding1 * np_linalg_norm embedding2))%float).

(** [scored.sort(key=lambda x: x[2], reverse=True)]: Python's sort is stable
    and compares keys with [<] only.  It is modelled by a stable insertion
    sort on the same comparison, which returns the same list whenever [<] is
    a strict weak order on the keys that occur, that is when no key is NaN.
    With a NaN among the keys the result of CPython's sort is still a
    permutation of the list, but it depends on the runs and merges of its
    algorithm and can differ from the one below on lists of three or more
    entries; on a list of two entries both swap the entries exactly when the
    first key is below the second.  The properties below that speak of the
    order of a ranking assume scores without NaN or a list of two entries;
    the others use the sort as a permutation only. *)
Section Sort.
Variable A : Type.
Variable key : A -> float.

Fixpoint insert_desc (x : A) (l : list A) : list A :=
    match l with
    | [] => [x]
    | y :: l' =>
        if PrimFloat.ltb (key x) (key y) then y :: insert_desc x l'
        else x :: y :: l'
    end.

Definition sort_desc (l : list A) : list A :=
    fold_right insert_desc [] l.
End Sort.

(** A score that is a number. *)
Definition not_nan (x : float) : Prop := PrimFloat.is_nan x = false.

(** A binary64 number mapped to a triple of integers on which the IEEE order
    of the numbers that are not NaN is the lexicographic one. *)
Definition order_key (f : spec_float) : Z * Z * Z :=
  match f with
  | S754_infinity true => (0, 0, 0)
  | S754_finite true m e => (1, - e, - Zpos m)
  | S754_zero _ => (2, 0, 0)
  | S754_nan => (2, 0, 0)
  | S754_finite false m e => (3, e, Zpos m)
  | S754_infinity false => (4, 0, 0)
  end%Z.

Definition lex_lt (a b : Z * Z * Z) : Prop :=
  let '(a1, a2, a3) := a in
  let '(b1, b2, b3) := b in
  (a1 < b1 \/ (a1 = b1 /\ (a2 < b2 \/ (a2 = b2 /\ a3 < b3))))%Z.

(** A number that is a zero or NaN: what sums and products of zeros are. *)
Definition zero_or_nan (x : float) : Prop :=
  (exists s, Prim2SF x = S754_zero s) \/ Prim2SF x = S754_nan.

(** A list in descending order of its keys: no element is below a later
    one. *)
Inductive descending {A : Type} (key : A -> float) : list A -> Prop :=
| descending_nil : descending key []
| descending_cons x l :
    Forall (fun y => PrimFloat.ltb (key x) (key y) = false) l ->
    descending key l ->
    descending key (x :: l).

(** [ArticleEmbedder.rank_by_similarity] *)
Fixpoint score_all {D : Type} (query_embedding : vector)
  (article_embeddings : list (D * vector)) : result (list (D * vector * float)) :=
  match article_embeddings with
  | [] => Done []
  | (article_data, embedding) :: rest =>
      rbind (cosine_similarity query_embedding embedding) (fun score =>
      rbind (score_all query_embedding rest) (fun scored =>
      Done ((article_data, embedding, score) :: scored)))
  end.

Definition rank_by_similarity {D : Type} (query_embedding : vector)
  (article_embeddings : list (D * vector)) : result (list (D * vector * float)) :=
  rbind (score_all query_embedding article_embeddings) (fun scored =>
  Done (sort_desc (fun x => snd x) scored)).

End Ranker.

(** ** Data model of the agent ([rag/agentic_rag.py], [models/article.py]) *)

Module Model.
Import Py Ranker.

(** [datetime.datetime] *)
Record datetime : Type := {
  year : Z; month : Z; day : Z;
  hour : Z; minute : Z; second : Z; microsecond : Z
}.

(** A document of the MongoDB collection, as [Article.to_dict] stores it.
    [publication_date], [embedding], [url] and [source] are the fields the
    tools read with [.get] or test for presence. *)
Record article_metadata : Type := {
  title : string;
  author : string;
  publication_date : option datetime;
  categories : list string
}.

Record article : Type := {
  article_id : string;
  metadata : article_metadata;
  embedding : option vector;
  url : option string;
  source : option string;
  full_text : string
}.

(** The filter dictionaries the tools build:
    [{"metadata.author": {"$regex": a, "$options": "i"},
      "metadata.publication_date": {"$gte": d1, "$lte": d2},
      "metadata.categories": {"$in": cs}, "article_id": {"$in": ids}}],
    each key present or absent. *)
Record mongo_filter : Type := {
  author_regex_i : option pyval;
  publication_date_gte : option datetime;
  publication_date_lte : option datetime;
  categories_in : option pyval;
  article_id_in : option pyval
}.

Definition empty_filter : mongo_filter :=
  {| author_regex_i := None; publication_date_gte := None;
     publication_date_lte := None; categories_in := None;
     article_id_in := None |}.

(** Tool calls, provider responses and conversation turns. *)
Record tool_call : Type := {
  tc_id : string;
  tc_name : string;
  tc_parameters : pyval
}.

Record response : Type := {
  content : string;
  tool_calls : list tool_call;
  finish_reason : string
}.

(** The three shapes of message dictionaries:
    [{"role": r, "content": c}],
    [{"role": "assistant", "content": c, "tool_calls": tcs}] and
    [{"role": "tool", "tool_call_id": i, "name": n, "content": c}]. *)
Inductive message : Type :=
| Turn (role : string) (content : string)
| AssistantToolCalls (content : string) (tool_calls : list tool_call)
| ToolTurn (tool_call_id : string) (name : string) (content : string).

Definition role (m : message) : string :=
  match m with
  | Turn r _ => r
  | AssistantToolCalls _ _ => "assistant"
  | ToolTurn _ _ _ => "tool"
  end.

Definition content_of (m : message) : string :=
  match m with
  | Turn _ c => c
  | AssistantToolCalls c _ => c
  | ToolTurn _ _ c => c
  end.

(** The turns of a tool exchange: the assistant turn echoing the request
    and the tool turn carrying the result. *)
Definition is_tool_exchange (m : message) : Prop :=
  match m with
  | Turn _ _ => False
  | AssistantToolCalls _ _ | ToolTurn _ _ _ => True
  end.

(** An entry of [tool_results]: [{"tool": .., "parameters": .., "result": ..}] *)
Record tool_record : Type := {
  tool : string;
  parameters : pyval;
  result_payload : pyval
}.

(** The dictionary [query] and [chat] return. *)
Record run_result : Type := {
  answer : string;
  executed_tool_calls : list tool_record;
  iterations : Z
}.

(** An entry of the tool catalogue. *)
Record param_spec : Type := {
  param_type : string;
  param_description : string;
  optional : option bool
}.

Record tool_spec : Type := {
  tool_name : string;
  tool_description : string;
  tool_parameters : list (string * param_spec)
}.

(** The calls made to the completion provider with what each answered, in
    order (ghost state: the code keeps no such log). *)
Inductive llm_call : Type :=
| CallGenerateWithTools (messages : list message) (tools : list tool_spec)
    (reply : outcome response)
| CallGenerate (prompt : string) (max_tokens : Z) (reply : result string).

(** The external collaborators: pymongo's collection, the embedding model,
    the LLM client and the library functions the tools call.  [documents] is
    the state of the collection, [mongo_match] MongoDB's matching of a filter
    against a document and [mongo_error] the failure of a query, if any. *)
Record services (PS : Type) : Type := {
  documents : list article;
  mongo_match : mongo_filter -> article -> bool;
  mongo_error : mongo_filter -> option exception;
  embed_text : pyval -> result vector;
  fromisoformat : pyval -> result datetime;
  strftime_ymd : datetime -> string;
  round3 : float -> float;
  json_dumps : pyval -> string;
  generate_with_tools :
    list message -> list tool_spec -> PS -> outcome response * PS;
  generate : string -> Z -> PS -> result string * PS
}.

(** [CONFIG['retrieval']] and [CONFIG['chat']] as [__init__] reads them. *)
Record config : Type := {
  max_results : Z;
  semantic_top_k : Z;
  max_history_turns : Z;
  auto_compress : bool;
  compression_strategy : string
}.

(** The mutable part of an [AgenticRAG] object and of its provider. *)
Record state (PS : Type) : Type := {
  conversation_history : list message;
  llm : PS;
  calls : list llm_call
}.

End Model.

(** ** The document store client ([database/mongodb_client.py]) *)

Module MongoDBClient.
Import Py Model.

Section Client.
Variable PS : Type.
Variable sv : services PS.

  (** pymongo's [collection.find(filter)], listed in full. *)
Definition collection_find (filter_dict : mongo_filter) : result (list article) :=
    match mongo_error sv filter_dict with
    | Some e => Fail e
    | None => Done (filter (mongo_match sv filter_dict) (documents sv))
    end.

  (** pymongo's [collection.count_documents(filter)]: the number of documents
    of the same collection that match the filter. *)
Definition collection_count_documents (filter_dict : mongo_filter) : result Z :=
    match mongo_error sv filter_dict with
    | Some e => Fail e
    | None =>
        Done (Z.of_nat (List.length (filter (mongo_match sv filter_dict) (documents sv))))
    end.

Definition find_by_filter (filter_dict : mongo_filter) (limit : Z)
    : result (list article) :=
    rbind (collection_find filter_dict) (fun cursor =>
    Done (if (0 <? limit)%Z then firstn (Z.to_nat limit) cursor else cursor)).

Definition count_by_filter (filter_dict : mongo_filter) : result Z :=
    collection_count_documents filter_dict.

Definition get_all_articles : result (list article) :=
    collection_find empty_filter.
End Client.

End MongoDBClient.

(** ** The retrieval tools and their dispatch ([rag/agentic_rag.py]) *)

Module Tools.
Import Py Ranker Model MongoDBClient.
Local Open Scope string_scope.

Section Tools.
Variable PS : Type.
Variable sv : services PS.
Variable cfg : config.

  (** [d.strftime('%Y-%m-%d') if d else 'N/A'] *)
Definition date_or_na (d : option datetime) : pyval :=
    match d with
    | Some d => PStr (strftime_ymd sv d)
    | None => PStr "N/A"
    end.

  (** [a.get(key, 'N/A')] *)
Definition get_or_na (v : option string) : pyval :=
    match v with
    | Some s => PStr s
    | None => PStr "N/A"
    end.

  (** [key in params and params[key]], as a condition. *)
Definition in_and_truthy (key : string) (params : pyval) : result bool :=
    rbind (contains key params) (fun present =>
    if present then rbind (getitem params key) (fun v => Done (truthy v))
    else Done false).

  (** The similarity threshold of [_tool_search_by_content]. *)
Definition threshold : float := 0.3%float.

Definition content_entry (x : article * vector * float) : pyval :=
    let '(art, _, score) := x in
    PDict [("article_id", PStr (article_id art));
           ("title", PStr (title (metadata art)));
           ("author", PStr (author (metadata art)));
           ("date", date_or_na (publication_date (metadata art)));
           ("url", get_or_na (url art));
           ("source", get_or_na (source art));
           ("similarity_score", PFloat (round3 sv score))].

  (** [[(art, art['embedding']) for art in all_articles
        if 'embedding' in art and art['embedding']]] *)
Definition with_embeddings (all_articles : list article)
    : list (article * vector) :=
    flat_map (fun art =>
      match embedding art with
      | Some (x :: e) => [(art, x :: e)]
      | _ => []
      end) all_articles.

Definition _tool_search_by_content (params : pyval) : result pyval :=
    rbind (getitem params "query") (fun query =>
    rbind (embed_text sv query) (fun query_embedding =>
    rbind (get_all_articles sv) (fun all_articles =>
    let articles_with_embeddings := with_embeddings all_articles in
    match articles_with_embeddings with
    | [] => Done (PDict [("articles", PList []);
                         ("message", PStr "No articles with embeddings found")])
    | _ :: _ =>
        rbind (rank_by_similarity query_embedding articles_with_embeddings)
          (fun ranked =>
        let top_articles :=
          map content_entry
            (filter (fun x => PrimFloat.ltb threshold (snd x))
               (slice_to (semantic_top_k cfg) ranked)) in
        Done (PDict [("total_found", PInt (Z.of_nat (List.length top_articles)));
                     ("articles", PList top_articles)]))
    end))).

  (** The selection of [search_by_content] in the words of the
      specification: the threshold is applied to the full ranking, and the
      entries that qualify are then cut to the top K. *)
Definition spec_selection (ranked : list (article * vector * float))
    : list (article * vector * float) :=
    slice_to (semantic_top_k cfg)
      (filter (fun x => PrimFloat.ltb threshold (snd x)) ranked).

Definition spec_search_by_content (params : pyval) : result pyval :=
    rbind (getitem params "query") (fun query =>
    rbind (embed_text sv query) (fun query_embedding =>
    rbind (get_all_articles sv) (fun all_articles =>
    match with_embeddings all_articles with
    | [] => Done (PDict [("articles", PList []);
                         ("message", PStr "No articles with embeddings found")])
    | _ :: _ =>
        rbind (rank_by_similarity query_embedding (with_embeddings all_articles))
          (fun ranked =>
        let top_articles := map content_entry (spec_selection ranked) in
        Done (PDict [("total_found", PInt (Z.of_nat (List.length top_articles)));
                     ("articles", PList top_articles)]))
    end))).

Definition author_entry (a : article) : pyval :=
    PDict [("article_id", PStr (article_id a));
           ("title", PStr (title (metadata a)));
           ("author", PStr (author (metadata a)));
           ("date", date_or_na (publication_date (metadata a)));
           ("url", get_or_na (url a))].

Definition _tool_search_by_author (params : pyval) : result pyval :=
    rbind (getitem params "author") (fun author =>
    rbind (find_by_filter sv
             {| author_regex_i := Some author; publication_date_gte := None;
                publication_date_lte := None; categories_in := None;
                article_id_in := None |} 50) (fun articles =>
    Done (PDict [("total_found", PInt (Z.of_nat (List.length articles)));
                 ("articles", PList (map author_entry articles))]))).

Definition metadata_entry (a : article) : pyval :=
    PDict [("article_id", PStr (article_id a));
           ("title", PStr (title (metadata a)));
           ("author", PStr (author (metadata a)));
           ("date", date_or_na (publication_date (metadata a)))].

  (** The filter construction of [_tool_search_by_metadata] (its first
      eighteen lines). *)
Definition search_filters (params : pyval) : result mongo_filter :=
    let filters := empty_filter in
    rbind (in_and_truthy "author" params) (fun c1 =>
    rbind (if c1 then rbind (getitem params "author") (fun a =>
                 Done {| author_regex_i := Some a;
                         publication_date_gte := publication_date_gte filters;
                         publication_date_lte := publication_date_lte filters;
                         categories_in := categories_in filters;
                         article_id_in := article_id_in filters |})
           else Done filters) (fun filters =>
    rbind (in_and_truthy "date_from" params) (fun c2 =>
    rbind (if c2 then rbind (getitem params "date_from") (fun s =>
                      rbind (fromisoformat sv s) (fun d =>
                 Done {| author_regex_i := author_regex_i filters;
                         publication_date_gte := Some d;
                         publication_date_lte := publication_date_lte filters;
                         categories_in := categories_in filters;
                         article_id_in := article_id_in filters |}))
           else Done filters) (fun filters =>
    rbind (in_and_truthy "date_to" params) (fun c3 =>
    rbind (if c3 then rbind (getitem params "date_to") (fun s =>
                      rbind (fromisoformat sv s) (fun d =>
                 Done {| author_regex_i := author_regex_i filters;
                         publication_date_gte := publication_date_gte filters;
                         publication_date_lte := Some d;
                         categories_in := categories_in filters;
                         article_id_in := article_id_in filters |}))
           else Done filters) (fun filters =>
    rbind (in_and_truthy "categories" params) (fun c4 =>
    if c4 then rbind (getitem params "categories") (fun cs =>
                 Done {| author_regex_i := author_regex_i filters;
                         publication_date_gte := publication_date_gte filters;
                         publication_date_lte := publication_date_lte filters;
                         categories_in := Some cs;
                         article_id_in := article_id_in filters |})
    else Done filters))))))).

Definition _tool_search_by_metadata (params : pyval) : result pyval :=
    rbind (search_filters params) (fun filters =>
    rbind (find_by_filter sv filters 100) (fun articles =>
    Done (PDict [("total_found", PInt (Z.of_nat (List.length articles)));
                 ("filters_used", params);
                 ("articles", PList (map metadata_entry (slice_to 50 articles)))]))).

  (** The filter construction of [_tool_count_articles]. *)
Definition count_filters (params : pyval) : result mongo_filter :=
    let filters := empty_filter in
    rbind (in_and_truthy "author" params) (fun c1 =>
    rbind (if c1 then rbind (getitem params "author") (fun a =>
                 Done {| author_regex_i := Some a;
                         publication_date_gte := publication_date_gte filters;
                         publication_date_lte := publication_date_lte filters;
                         categories_in := categories_in filters;
                         article_id_in := article_id_in filters |})
           else Done filters) (fun filters =>
    rbind (in_and_truthy "date_from" params) (fun c2 =>
    rbind (if c2 then rbind (getitem params "date_from") (fun s =>
                      rbind (fromisoformat sv s) (fun d =>
                 Done {| author_regex_i := author_regex_i filters;
                         publication_date_gte := Some d;
                         publication_date_lte := publication_date_lte filters;
                         categories_in := categories_in filters;
                         article_id_in := article_id_in filters |}))
           else Done filters) (fun filters =>
    rbind (in_and_truthy "date_to" params) (fun c3 =>
    rbind (if c3 then rbind (getitem params "date_to") (fun s =>
                      rbind (fromisoformat sv s) (fun d =>
                 Done {| author_regex_i := author_regex_i filters;
                         publication_date_gte := publication_date_gte filters;
                         publication_date_lte := Some d;
                         categories_in := categories_in filters;
                         article_id_in := article_id_in filters |}))
           else Done filters) (fun filters =>
    rbind (in_and_truthy "categories" params) (fun c4 =>
    if c4 then rbind (getitem params "categories") (fun cs =>
                 Done {| author_regex_i := author_regex_i filters;
                         publication_date_gte := publication_date_gte filters;
                         publication_date_lte := publication_date_lte filters;
                         categories_in := Some cs;
                         article_id_in := article_id_in filters |})
    else Done filters))))))).

Definition _tool_count_articles (params : pyval) : result pyval :=
    rbind (count_filters params) (fun filters =>
    rbind (count_by_filter sv filters) (fun count =>
    Done (PDict [("count", PInt count); ("filters_used", params)]))).

Definition details_entry (a : article) : pyval :=
    PDict [("article_id", PStr (article_id a));
           ("title", PStr (title (metadata a)));
           ("author", PStr (author (metadata a)));
           ("date", date_or_na (publication_date (metadata a)));
           ("url", get_or_na (url a));
           ("source", get_or_na (source a));
           ("content", PStr (full_text a))].

Definition _tool_get_article_details (params : pyval) : result pyval :=
    rbind (getitem params "article_ids") (fun article_ids =>
    rbind (find_by_filter sv
             {| author_regex_i := None; publication_date_gte := None;
                publication_date_lte := None; categories_in := None;
                article_id_in := Some article_ids |} 0) (fun articles =>
    Done (PDict [("total_found", PInt (Z.of_nat (List.length articles)));
                 ("articles", PList (map details_entry articles))]))).

Definition error_payload (msg : string) : pyval :=
    PDict [("error", PStr msg)].

(** The body of the [try] of [_execute_tool]: the [if]/[elif] chain on the
    tool name. *)
Definition dispatch (tool_name : string) (parameters : pyval) : outcome pyval :=
  if String.eqb tool_name "search_by_content"
  then lift (_tool_search_by_content parameters)
  else if String.eqb tool_name "search_by_author"
  then lift (_tool_search_by_author parameters)
  else if String.eqb tool_name "search_by_metadata"
  then lift (_tool_search_by_metadata parameters)
  else if String.eqb tool_name "count_articles"
  then lift (_tool_count_articles parameters)
  else if String.eqb tool_name "get_article_details"
  then lift (_tool_get_article_details parameters)
  else Return (error_payload ("Unknown tool: " ++ tool_name)).

(** [AgenticRAG._execute_tool]:
    [try: ... except Exception as e: return {"error": str(e)}]. *)
Definition _execute_tool (tool_name : string) (parameters : pyval)
  : outcome pyval :=
  try_except (dispatch tool_name parameters)
    (fun e => Return (error_payload (str e))).
End Tools.

End Tools.

(** ** The agent: catalogue, loop and conversation history
       ([rag/agentic_rag.py]) *)

Module Agent.
Import Py Ranker Model MongoDBClient Tools.
Local Open Scope string_scope.

Definition nl : string := String (ascii_of_nat 10) EmptyString.
Definition dq : string := String (ascii_of_nat 34) EmptyString.

(** [sep.join(parts)] *)
Fixpoint join (sep : string) (parts : list string) : string :=
  match parts with
  | [] => EmptyString
  | [x] => x
  | x :: rest => x ++ sep ++ join sep rest
  end.

(** [s[:n]]; a character of the string stands for a code point. *)
Definition str_prefix (n : nat) (s : string) : string := substring 0 n s.

(** [a or b] on strings. *)
Definition str_or (a b : string) : string :=
  if String.eqb a EmptyString then b else a.

(** [AgenticRAG._get_system_prompt] *)
Definition _get_system_prompt : string :=
    "Sei un assistente intelligente che aiuta a rispondere a domande su una collezione di articoli giornalistici politici italiani." ++ nl
    ++ nl
    ++ "Hai accesso a vari strumenti per cercare e analizzare gli articoli. Usali in modo intelligente e strategico:" ++ nl
    ++ nl
    ++ "**Strategie di ricerca:**" ++ nl
    ++ "- Per domande sul CONTENUTO (" ++ dq ++ "cosa dice X su Y?" ++ dq ++ ", " ++ dq ++ "qual è il pensiero di Z?" ++ dq ++ "): usa `search_by_content` per trovare articoli rilevanti, poi `get_article_details` per leggere i contenuti completi" ++ nl
    ++ "- Per domande su CHI ha scritto cosa: usa `search_by_author` o `search_by_metadata`" ++ nl
    ++ "- Per CONTARE articoli: usa `count_articles`" ++ nl
    ++ "- Puoi fare MULTIPLE chiamate agli strumenti se necessario" ++ nl
    ++ "- Combina risultati da più strumenti per risposte complete" ++ nl
    ++ nl
    ++ "**Regole importanti:**" ++ nl
    ++ "1. Basa le risposte SOLO sugli articoli trovati - MAI inventare informazioni" ++ nl
    ++ "2. Se non trovi informazioni pertinenti negli articoli, dillo chiaramente" ++ nl
    ++ "3. Cita SEMPRE titolo e autore degli articoli che usi come fonte" ++ nl
    ++ "4. Se trovi molti articoli rilevanti, seleziona i più pertinenti (massimo 5-7) e leggili completamente" ++ nl
    ++ "5. Per domande su persone menzionate negli articoli (non autori), usa search_by_content" ++ nl
    ++ nl
    ++ "**Formato risposta:**" ++ nl
    ++ "- Rispondi in italiano, in modo chiaro e strutturato" ++ nl
    ++ "- Usa le informazioni degli articoli per costruire una risposta completa" ++ nl
    ++ "- Termina sempre citando le fonti".

Definition string_param (d : string) (o : option bool) : param_spec :=
  {| param_type := "string"; param_description := d; optional := o |}.

Definition array_param (d : string) (o : option bool) : param_spec :=
  {| param_type := "array"; param_description := d; optional := o |}.

(** [AgenticRAG._define_tools] *)
Definition _define_tools : list tool_spec :=
  [ {| tool_name := "search_by_content";
       tool_description := "Cerca articoli per contenuto semantico. Usa questo quando la domanda riguarda COSA dicono gli articoli su un argomento specifico.";
       tool_parameters :=
         [("query", string_param "Query di ricerca semantica (es: 'guerra Ucraina', 'politica energetica')" None)] |};
    {| tool_name := "search_by_author";
       tool_description := "Trova tutti gli articoli scritti da un autore specifico.";
       tool_parameters :=
         [("author", string_param "Nome dell'autore da cercare" None)] |};
    {| tool_name := "search_by_metadata";
       tool_description := "Filtra articoli usando metadati (autore, data, categorie). Usa questo per query complesse con più filtri.";
       tool_parameters :=
         [("author", string_param "Nome autore (opzionale)" (Some true));
          ("date_from", string_param "Data inizio nel formato YYYY-MM-DD (opzionale)" (Some true));
          ("date_to", string_param "Data fine nel formato YYYY-MM-DD (opzionale)" (Some true));
          ("categories", array_param "Lista di categorie (opzionale)" (Some true))] |};
    {| tool_name := "count_articles";
       tool_description := "Conta quanti articoli corrispondono a determinati criteri. Usa questo per domande tipo 'quanti articoli...'";
       tool_parameters :=
         [("author", string_param "Nome autore (opzionale)" (Some true));
          ("date_from", string_param "Data inizio (opzionale)" (Some true));
          ("date_to", string_param "Data fine (opzionale)" (Some true));
          ("categories", array_param "Categorie (opzionale)" (Some true))] |};
    {| tool_name := "get_article_details";
       tool_description := "Recupera il contenuto completo di articoli specifici. Usa questo dopo aver trovato articoli rilevanti per leggerne il contenuto.";
       tool_parameters :=
         [("article_ids", array_param "Lista di article_id da recuperare" None)] |} ].

(** The names of the catalogue, and the parameters of a tool that are not
    marked optional. *)
Definition registered (name : string) : bool :=
  existsb (fun t => String.eqb name (tool_name t)) _define_tools.

Definition required_parameters (t : tool_spec) : list string :=
  map fst
    (filter (fun kv => negb (match optional (snd kv) with
                             | Some b => b
                             | None => false
                             end))
       (tool_parameters t)).

(** The answer of a run that used up its iterations. *)
Definition fallback_answer : string :=
  "Ho raggiunto il limite di iterazioni. Prova a riformulare la domanda.".

Section Agent.
Variable PS : Type.
Variable sv : services PS.
Variable cfg : config.

Definition set_history (h : list message) (s : state PS) : state PS :=
    {| conversation_history := h; llm := llm s; calls := calls s |}.

  (** [self.llm.generate_with_tools(conversation, self.tools)] *)
Definition call_generate_with_tools (conversation : list message) (s : state PS)
    : outcome response * state PS :=
    let (r, ps) := generate_with_tools sv conversation _define_tools (llm s) in
    (r, {| conversation_history := conversation_history s;
           llm := ps;
           calls := calls s ++ [CallGenerateWithTools conversation _define_tools r] |}).

  (** [self.llm.generate(prompt, max_tokens=n)] *)
Definition call_generate (prompt : string) (max_tokens : Z) (s : state PS)
    : result string * state PS :=
    let (r, ps) := generate sv prompt max_tokens (llm s) in
    (r, {| conversation_history := conversation_history s;
           llm := ps;
           calls := calls s ++ [CallGenerate prompt max_tokens r] |}).

  (** The body of [for tool_call in response['tool_calls']], the same in
      [query] and in [chat]: execute, record the result, and append the
      assistant turn and the tool turn to the conversation of this run. *)
Fixpoint run_tool_calls (resp : response) (pending : list tool_call)
    (conversation : list message) (tool_results : list tool_record)
    : outcome (list message * list tool_record) :=
    match pending with
    | [] => Return (conversation, tool_results)
    | tool_call :: rest =>
        bind (_execute_tool sv cfg (tc_name tool_call) (tc_parameters tool_call))
          (fun result =>
        run_tool_calls resp rest
          (conversation ++
             [AssistantToolCalls (str_or (content resp) EmptyString) (tool_calls resp);
              ToolTurn (tc_id tool_call) (tc_name tool_call) (json_dumps sv result)])
          (tool_results ++
             [{| tool := tc_name tool_call;
                 parameters := tc_parameters tool_call;
                 result_payload := result |}]))
    end.

  (** An entry of [tool_results] is the record of a tool call: its name, its
    parameters and what [_execute_tool] returned for them. *)
Definition executed (tc : tool_call) (rec : tool_record) : Prop :=
  tool rec = tc_name tc /\
  parameters rec = tc_parameters tc /\
  _execute_tool sv cfg (tc_name tc) (tc_parameters tc) = Return (result_payload rec).

(** The handler of [query] (and of [OpenAIClient.generate_with_tools]):
      [except Exception as e: logger.error(f"... {e.message}"); sys.exit(1)] *)
Definition log_and_exit {A} (e : exception) : outcome A :=
    match message_attr e with
    | Some _ => SysExit 1
    | None => Raise (AttributeError "object has no attribute 'message'")
    end.

  (** [for iteration in range(max_iterations)] of [query]; [its] is what is
      left of the range. *)
Fixpoint query_loop (its : list Z) (max_iterations : Z)
    (conversation : list message) (tool_results : list tool_record)
    (s : state PS) : outcome run_result * state PS :=
    match its with
    | [] =>
        (Return {| answer := fallback_answer;
                   executed_tool_calls := tool_results;
                   iterations := max_iterations |}, s)
    | iteration :: rest =>
        let (r, s1) := call_generate_with_tools conversation s in
        match try_except r log_and_exit with
        | Return resp =>
            match tool_calls resp with
            | [] =>
                (Return {| answer := content resp;
                           executed_tool_calls := tool_results;
                           iterations := iteration + 1 |}, s1)
            | _ :: _ =>
                match run_tool_calls resp (tool_calls resp) conversation tool_results with
                | Return (conversation', tool_results') =>
                    query_loop rest max_iterations conversation' tool_results' s1
                | Raise e => (Raise e, s1)
                | SysExit c => (SysExit c, s1)
                end
            end
        | Raise e => (Raise e, s1)
        | SysExit c => (SysExit c, s1)
        end
    end.

  (** [AgenticRAG.query] *)
Definition query (user_query : string) (max_iterations : Z) (s : state PS)
    : outcome run_result * state PS :=
    query_loop (range max_iterations) max_iterations
      [Turn "system" _get_system_prompt; Turn "user" user_query] [] s.

  (** The prompt [_compress_history_with_summary] builds from the messages it
    is about to drop. *)
Definition summary_prompt (old_messages : list message) : string :=
  let history_text :=
    join nl
      (map (fun msg => role msg ++ ": " ++ str_prefix 500 (content_of msg))
         (filter (fun msg => String.eqb (role msg) "user"
                             || String.eqb (role msg) "assistant")
            old_messages)) in
  "Riassumi brevemente questa conversazione precedente in 2-3 frasi:"
  ++ nl ++ nl ++ history_text ++ nl ++ nl ++ "Riassunto conciso:".

(** The turn that holds the summary. *)
Definition summary_turn (summary : string) : message :=
  Turn "system" ("[Contesto conversazione precedente: " ++ summary ++ "]").

(** [AgenticRAG._compress_history_with_summary]; none of the clients'
    [generate] leaves the process, so the call returns or raises. *)
Definition _compress_history_with_summary (s : state PS)
  : outcome unit * state PS :=
  let keep_recent := 6%Z in
  if (Z.of_nat (List.length (conversation_history s)) <=? keep_recent)%Z
  then (Return tt, s)
  else
    let old_messages := slice_but_last keep_recent (conversation_history s) in
    let recent_messages := slice_last keep_recent (conversation_history s) in
    let (r, s1) := call_generate (summary_prompt old_messages) 200 s in
    match r with
    | Done summary =>
        (Return tt, set_history (summary_turn summary :: recent_messages) s1)
    | Fail e => (* except Exception as e *)
        (Return tt, set_history recent_messages s1)
    end.

(** [AgenticRAG._truncate_history] *)
Definition _truncate_history (s : state PS) : outcome unit * state PS :=
    let keep := (max_history_turns cfg * 2)%Z in
    if (keep <? Z.of_nat (List.length (conversation_history s)))%Z
    then (Return tt, set_history (slice_last keep (conversation_history s)) s)
    else (Return tt, s).

  (** The compression step at the head of [chat]. *)
Definition maybe_compress (s : state PS) : outcome unit * state PS :=
    if auto_compress cfg
       && (max_history_turns cfg * 2 <? Z.of_nat (List.length (conversation_history s)))%Z
    then
      if String.eqb (compression_strategy cfg) "summary"
      then _compress_history_with_summary s
      else if String.eqb (compression_strategy cfg) "truncate"
      then _truncate_history s
      else (Return tt, s)
    else (Return tt, s).

  (** [for iteration in range(max_iterations)] of [chat], and what follows
      the loop. *)
Fixpoint chat_loop (its : list Z) (max_iterations : Z)
    (conversation : list message) (tool_results : list tool_record)
    (s : state PS) : outcome run_result * state PS :=
    match its with
    | [] =>
        let answer := fallback_answer in
        (Return {| answer := answer;
                   executed_tool_calls := tool_results;
                   iterations := max_iterations |},
         set_history (conversation_history s ++ [Turn "assistant" answer]) s)
    | iteration :: rest =>
        let (r, s1) := call_generate_with_tools conversation s in
        match r with
        | Return resp =>
            match tool_calls resp with
            | [] =>
                (Return {| answer := content resp;
                           executed_tool_calls := tool_results;
                           iterations := iteration + 1 |},
                 set_history
                   (conversation_history s1 ++ [Turn "assistant" (content resp)]) s1)
            | _ :: _ =>
                match run_tool_calls resp (tool_calls resp) conversation tool_results with
                | Return (conversation', tool_results') =>
                    chat_loop rest max_iterations conversation' tool_results' s1
                | Raise e => (Raise e, s1)
                | SysExit c => (SysExit c, s1)
                end
            end
        | Raise e => (Raise e, s1)
        | SysExit c => (SysExit c, s1)
        end
    end.

  (** [AgenticRAG.chat] *)
Definition chat (user_query : string) (max_iterations : Z) (s : state PS)
    : outcome run_result * state PS :=
    let (r0, s0) := maybe_compress s in
    match r0 with
    | Return _ =>
        let s1 := set_history (conversation_history s0 ++ [Turn "user" user_query]) s0 in
        let conversation := Turn "system" _get_system_prompt :: conversation_history s1 in
        chat_loop (range max_iterations) max_iterations conversation [] s1
    | Raise e => (Raise e, s0)
    | SysExit c => (SysExit c, s0)
    end.


(** The tool calls a logged provider call asked for. *)
Definition reply_tool_calls (c : llm_call) : list tool_call :=
  match c with
  | CallGenerateWithTools _ _ (Return resp) => tool_calls resp
  | _ => []
  end.

Definition is_tools_call (c : llm_call) : Prop :=
  match c with
  | CallGenerateWithTools _ tools _ => tools = _define_tools
  | CallGenerate _ _ _ => False
  end.

(** [AgenticRAG.reset_chat] *)
Definition reset_chat (s : state PS) : state PS := set_history [] s.
End Agent.

End Agent.

(** ** The OpenAI client ([llm/llm_client.py]) *)

Module OpenAIClient.
Import Py Model Agent.
Local Open Scope string_scope.

(** What [client.chat.completions.create] receives and returns. *)
Record openai_tool : Type := {
  function_name : string;
  function_description : string;
  properties : list (string * param_spec);
  required : list string
}.

Record api_tool_call : Type := {
  api_id : string;
  api_function_name : string;
  api_function_arguments : string
}.

Record api_message : Type := {
  api_content : option string;
  api_tool_calls : option (list api_tool_call)
}.

Record choice : Type := {
  choice_message : api_message;
  choice_finish_reason : string
}.

Record completion : Type := { choices : list choice }.

Section Client.
Variable PS : Type.
  (** [self.client.chat.completions.create(...)] and [json.loads]. *)
Variable create : list message -> list openai_tool -> PS -> result completion * PS.
Variable json_loads : string -> result pyval.

Definition to_openai_tool (t : tool_spec) : openai_tool :=
    {| function_name := tool_name t;
       function_description := tool_description t;
       properties := tool_parameters t;
       required :=
         map fst
           (filter (fun kv => negb (match optional (snd kv) with
                                    | Some b => b
                                    | None => false
                                    end))
              (tool_parameters t)) |}.

Fixpoint convert_tool_calls (tcs : list api_tool_call) : result (list tool_call) :=
    match tcs with
    | [] => Done []
    | tc :: rest =>
        rbind (json_loads (api_function_arguments tc)) (fun args =>
        rbind (convert_tool_calls rest) (fun rest' =>
        Done ({| tc_id := api_id tc;
                 tc_name := api_function_name tc;
                 tc_parameters := args |} :: rest')))
    end.

  (** [OpenAIClient.generate_with_tools]: the API call sits in
      [try: ... except Exception as e: logger.error(f"... {e.message}");
      sys.exit(1)]. *)
Definition generate_with_tools (messages : list message) (tools : list tool_spec)
    (ps : PS) : outcome response * PS :=
    let openai_tools := map to_openai_tool tools in
    let (r, ps') := create messages openai_tools ps in
    (bind (try_except (lift r) (fun e => log_and_exit e)) (fun resp =>
       match choices resp with
       | [] => Raise (IndexError "list index out of range")
       | c :: _ =>
           let message := choice_message c in
           bind (lift (convert_tool_calls
                         (match api_tool_calls message with
                          | Some tcs => tcs
                          | None => []
                          end)))
             (fun tcs =>
           Return {| content := match api_content message with
                                | Some text => str_or text EmptyString
                                | None => EmptyString
                                end;
                     tool_calls := tcs;
                     finish_reason := choice_finish_reason c |})
       end), ps').
End Client.

End OpenAIClient.

(** ** Object identity: the history list and the turn objects it holds

    [get_chat_history] returns [self.conversation_history.copy()], a new list
    object whose items are the same dict objects.  Lists and dicts live in a
    store of objects; a list holds references. *)

Module Heap.
Import Py Model.
Local Open Scope string_scope.

Definition loc : Type := nat.

Inductive object : Type :=
| OList (items : list loc)
| OTurn (turn : message).

Record heap : Type := {
  objects : loc -> option object;
  next : loc
}.

Definition store (l : loc) (o : object) (h : heap) : heap :=
  {| objects := fun l' => if Nat.eqb l' l then Some o else objects h l';
     next := next h |}.

Definition alloc (o : object) (h : heap) : loc * heap :=
  (next h,
   {| objects := fun l' => if Nat.eqb l' (next h) then Some o else objects h l';
      next := S (next h) |}).

(** [list.copy()] *)
Definition list_copy (l : loc) (h : heap) : option (loc * heap) :=
  match objects h l with
  | Some (OList items) => Some (alloc (OList items) h)
  | _ => None
  end.

(** [AgenticRAG.get_chat_history], [self_history] being the reference held by
    [self.conversation_history]. *)
Definition get_chat_history (self_history : loc) (h : heap) : option (loc * heap) :=
  list_copy self_history h.

(** The turns a list object holds, read through the references. *)
Fixpoint read_turns (h : heap) (items : list loc) : option (list message) :=
  match items with
  | [] => Some []
  | l :: rest =>
      match objects h l, read_turns h rest with
      | Some (OTurn t), Some ts => Some (t :: ts)
      | _, _ => None
      end
  end.

Definition read_history (h : heap) (l : loc) : option (list message) :=
  match objects h l with
  | Some (OList items) => read_turns h items
  | _ => None
  end.

(** What a caller can do to the list [r] it received. The first five
    mutate the list object, the last two mutate a turn object the list
    holds. *)
Inductive mutation : Type :=
| Append (turn : message)                 (* r.append({...}) *)
| SetItem (i : nat) (turn : message)      (* r[i] = {...} *)
| DelItem (i : nat)                       (* del r[i] *)
| Clear                                   (* r.clear() *)
| Reverse                                 (* r.reverse() *)
| SetContent (i : nat) (c : string)       (* r[i]['content'] = c *)
| SetRole (i : nat) (c : string).         (* r[i]['role'] = c *)

Definition is_list_mutation (m : mutation) : bool :=
  match m with
  | SetContent _ _ | SetRole _ _ => false
  | _ => true
  end.

Fixpoint set_nth {A} (i : nat) (x : A) (l : list A) : list A :=
  match l, i with
  | [], _ => []
  | _ :: l', O => x :: l'
  | y :: l', S i' => y :: set_nth i' x l'
  end.

Fixpoint del_nth {A} (i : nat) (l : list A) : list A :=
  match l, i with
  | [], _ => []
  | _ :: l', O => l'
  | y :: l', S i' => y :: del_nth i' l'
  end.

Definition set_content (c : string) (t : message) : message :=
  match t with
  | Turn r _ => Turn r c
  | AssistantToolCalls _ tcs => AssistantToolCalls c tcs
  | ToolTurn i n _ => ToolTurn i n c
  end.

Definition set_role (r : string) (t : message) : message :=
  match t with
  | Turn _ c => Turn r c
  | other => other
  end.

(** One mutation through the reference [r]; an index out of range or a
    dangling reference raises in Python and leaves the store as it is. *)
Definition mutate (r : loc) (m : mutation) (h : heap) : heap :=
  match objects h r with
  | Some (OList items) =>
      match m with
      | Append t => let (l, h') := alloc (OTurn t) h in store r (OList (items ++ [l])) h'
      | SetItem i t =>
          if Nat.ltb i (List.length items)
          then let (l, h') := alloc (OTurn t) h in store r (OList (set_nth i l items)) h'
          else h
      | DelItem i => store r (OList (del_nth i items)) h
      | Clear => store r (OList []) h
      | Reverse => store r (OList (rev items)) h
      | SetContent i c =>
          match nth_error items i with
          | Some l =>
              match objects h l with
              | Some (OTurn t) => store l (OTurn (set_content c t)) h
              | _ => h
              end
          | None => h
          end
      | SetRole i c =>
          match nth_error items i with
          | Some l =>
              match objects h l with
              | Some (OTurn t) => store l (OTurn (set_role c t)) h
              | _ => h
              end
          | None => h
          end
      end
  | _ => h
  end.

Definition mutate_all (r : loc) (ms : list mutation) (h : heap) : heap :=
  fold_left (fun h m => mutate r m h) ms h.

(** A store in which every reference in use is below [next]. *)
Definition allocated (h : heap) (l : loc) : Prop :=
  l < next h.

Definition well_formed (h : heap) : Prop :=
  forall l, next h <= l -> objects h l = None.

(** [h'] extends [h] without touching what [h] holds below [n], and has
    [n] itself allocated. *)
Definition agrees_below (n : loc) (h h' : heap) : Prop :=
  n < next h' /\ forall l, l < n -> objects h' l = objects h l.

(** A store holding a history of the given turns: the turn objects at
    [0 .. n-1], the list object at [n]. *)
Definition heap_of (turns : list message) : heap :=
  {| objects := fun l =>
       if Nat.ltb l (List.length turns) then option_map OTurn (nth_error turns l)
       else if Nat.eqb l (List.length turns) then Some (OList (seq 0 (List.length turns)))
       else None;
     next := S (List.length turns) |}.

End Heap.

(** ** Concrete collaborators, for examples *)

Module Examples.
Import Py Ranker Model MongoDBClient Tools Agent.
Local Open Scope string_scope.

Definition new_year : datetime :=
  {| year := 2024; month := 1; day := 1;
     hour := 0; minute := 0; second := 0; microsecond := 0 |}.

Definition doc (id : string) (e : vector) : article :=
  {| article_id := id;
     metadata := {| title := id; author := "Rossi";
                    publication_date := Some new_year; categories := ["politica"] |};
     embedding := Some e; url := None; source := None; full_text := "testo" |}.

(** Documents whose similarity to the query embedding [[1, 0, 0, 0]] is
    0.5, 0.2, 0.9 and undefined. *)
Definition docA : article := doc "A" [1; 1; 1; 1]%float.
Definition docB : article := doc "B" [1; 2; 2; 4]%float.
Definition docC : article := doc "C" [9; 3; 3; 1]%float.
Definition docZ : article := doc "Z" [0; 0; 0; 0]%float.

Definition parse_date (v : pyval) : result datetime :=
  match v with
  | PStr s => if String.eqb s "2024-01-01" then Done new_year
              else Fail (ValueError "Invalid isoformat string")
  | _ => Fail (TypeError "fromisoformat: argument must be str")
  end.

(** Services over a provider whose state counts the calls it has answered. *)
Definition services_of (docs : list article)
  (gwt : list message -> nat -> outcome response)
  (gen : string -> nat -> result string) : services nat :=
  {| documents := docs;
     mongo_match := fun _ _ => true;
     mongo_error := fun _ => None;
     embed_text := fun _ => Done [1; 0; 0; 0]%float;
     fromisoformat := parse_date;
     strftime_ymd := fun _ => "2024-01-01";
     round3 := fun x => x;
     json_dumps := fun _ => "{}";
     generate_with_tools := fun messages _ n => (gwt messages n, S n);
     generate := fun prompt _ n => (gen prompt n, S n) |}.

Definition one_call : tool_call :=
  {| tc_id := "call_1"; tc_name := "search_by_content";
     tc_parameters := PDict [("query", PStr "energia")] |}.

(** A provider that always asks for one tool call. *)
Definition always_tool (_ : list message) (_ : nat) : outcome response :=
  Return {| content := EmptyString; tool_calls := [one_call];
            finish_reason := "tool_calls" |}.

(** A provider that answers at once. *)
Definition answers_X (_ : list message) (_ : nat) : outcome response :=
  Return {| content := "X"; tool_calls := []; finish_reason := "stop" |}.

Definition api_down : exception := ExternalError (Some "Connection error.") "Connection error.".

(** A provider whose every call fails. *)
Definition unreachable (_ : list message) (_ : nat) : outcome response :=
  Raise api_down.

Definition summary_ok (_ : string) (_ : nat) : result string := Done "riassunto".
Definition summary_fails (_ : string) (_ : nat) : result string := Fail api_down.

(** The store behind a provider that cannot be reached. *)
Definition down_services : services nat :=
  services_of [docA; docB; docC] unreachable summary_ok.

(** The store of the example of the specification, and a query. *)
Definition abc_services : services nat :=
  services_of [docA; docB; docC] answers_X summary_ok.

Definition energia : pyval := PDict [("query", PStr "energia")].

(** The same store behind a provider that always asks for a tool. *)
Definition stub_services : services nat :=
  services_of [docA; docB; docC] always_tool summary_ok.

Definition cfg_of (k : Z) (strategy : string) : config :=
  {| max_results := 10; semantic_top_k := k; max_history_turns := 10;
     auto_compress := true; compression_strategy := strategy |}.

Definition start (h : list message) : state nat :=
  {| conversation_history := h; llm := 0; calls := [] |}.

(** A history of [n] alternating user and assistant turns. *)
Fixpoint turns (n : nat) : list message :=
  match n with
  | O => []
  | S n' => turns n' ++ [Turn (if Nat.even n' then "user" else "assistant") "ciao"]
  end.

End Examples.

(** ** Shapes used to state what the loop and the history do *)

Module Shapes.
Import Py Ranker Model MongoDBClient Tools Agent.
Local Open Scope string_scope.

(** The turns one reply adds to the conversation of a run, given the tool
    calls it asked for paired with their records: before the tool turn of
    each call, an assistant turn that echoes the whole batch. *)
Definition exchange {PS : Type} (sv : services PS) (resp : response)
  (pairs : list (tool_call * tool_record)) : list message :=
  flat_map (fun p =>
    [AssistantToolCalls (str_or (content resp) EmptyString) (tool_calls resp);
     ToolTurn (tc_id (fst p)) (tc_name (fst p))
       (json_dumps sv (result_payload (snd p)))]) pairs.

(** A round of a run: a reply of the provider that asked for tools, with
    the records of the calls it asked for. *)
Definition round : Type := (response * list tool_record)%type.

(** The conversation of a run after a round: the turns of the exchange
    appended. *)
Definition after_round {PS : Type} (sv : services PS)
  (conversation : list message) (r : round) : list message :=
  (conversation
   ++ exchange sv (fst r) (combine (tool_calls (fst r)) (snd r)))%list.

(** The conversation of a run after some rounds. *)
Fixpoint rounds_conversation {PS : Type} (sv : services PS)
  (conversation : list message) (rounds : list round) : list message :=
  match rounds with
  | [] => conversation
  | r :: rest => rounds_conversation sv (after_round sv conversation r) rest
  end.

(** The state of the provider after it answered some rounds. *)
Fixpoint rounds_llm {PS : Type} (sv : services PS)
  (conversation : list message) (ps : PS) (rounds : list round) : PS :=
  match rounds with
  | [] => ps
  | r :: rest =>
      rounds_llm sv (after_round sv conversation r)
        (snd (generate_with_tools sv conversation _define_tools ps)) rest
  end.

(** The provider calls of some rounds: each carries the conversation as it
    stood, with the turns of the rounds before it. *)
Fixpoint rounds_log {PS : Type} (sv : services PS)
  (conversation : list message) (rounds : list round) : list llm_call :=
  match rounds with
  | [] => []
  | r :: rest =>
      CallGenerateWithTools conversation _define_tools (Return (fst r))
      :: rounds_log sv (after_round sv conversation r) rest
  end.

(** The rounds are those of a run that starts from [conversation] with the
    provider in state [ps]: each reply is what the provider returns for the
    conversation as it stands, it asks for at least one tool, and its records
    are those of executing the calls it asks for, in order. *)
Fixpoint rounds_from {PS : Type} (sv : services PS) (cfg : config)
  (conversation : list message) (ps : PS) (rounds : list round) : Prop :=
  match rounds with
  | [] => True
  | r :: rest =>
      fst (generate_with_tools sv conversation _define_tools ps) = Return (fst r)
      /\ tool_calls (fst r) <> []
      /\ Forall2 (executed sv cfg) (tool_calls (fst r)) (snd r)
      /\ rounds_from sv cfg (after_round sv conversation r)
           (snd (generate_with_tools sv conversation _define_tools ps)) rest
  end.

(** The records of some rounds, in order. *)
Definition rounds_records (rounds : list round) : list tool_record :=
  List.concat (map snd rounds).

(** What a run of the loop of [chat] is, by the rounds it goes through. *)
Definition chat_loop_ends {PS : Type} (sv : services PS) (cfg : config)
  (its : list Z) (n : Z) (conversation : list message)
  (tool_results : list tool_record) (s : state PS) (rounds : list round) : Prop :=
  let conv' := rounds_conversation sv conversation rounds in
  let ps' := rounds_llm sv conversation (llm s) rounds in
  let recs := (tool_results ++ rounds_records rounds)%list in
  let log := (calls s ++ rounds_log sv conversation rounds)%list in
  let run := chat_loop sv cfg its n conversation tool_results s in
  match nth_error its (List.length rounds) with
  | None =>
      run = (Return {| answer := fallback_answer;
                       executed_tool_calls := recs;
                       iterations := n |},
             {| conversation_history :=
                  (conversation_history s ++ [Turn "assistant" fallback_answer])%list;
                llm := ps'; calls := log |})
  | Some i =>
      let reply := generate_with_tools sv conv' _define_tools ps' in
      let log' := (log ++ [CallGenerateWithTools conv' _define_tools (fst reply)])%list in
      match fst reply with
      | Return resp =>
          tool_calls resp = []
          /\ run = (Return {| answer := content resp;
                              executed_tool_calls := recs;
                              iterations := i + 1 |},
                    {| conversation_history :=
                         (conversation_history s
                          ++ [Turn "assistant" (content resp)])%list;
                       llm := snd reply; calls := log' |})
      | Raise e =>
          run = (Raise e,
                 {| conversation_history := conversation_history s;
                    llm := snd reply; calls := log' |})
      | SysExit c =>
          run = (SysExit c,
                 {| conversation_history := conversation_history s;
                    llm := snd reply; calls := log' |})
      end
  end.


(** The length that the compression step of [chat] leaves at most. *)
Definition compressed_bound (cfg : config) : nat :=
  Nat.max (Z.to_nat (max_history_turns cfg * 2)) 7.

(** A logged call of [generate_with_tools] whose reply carried no tool
    call. *)
Definition is_final_reply (c : llm_call) (resp : response) : Prop :=
  exists messages,
    c = CallGenerateWithTools messages _define_tools (Return resp)
    /\ tool_calls resp = [].

(** A logged call that did not return. *)
Definition is_failed_call (c : llm_call) : Prop :=
  match c with
  | CallGenerateWithTools _ _ (Return _) => False
  | CallGenerateWithTools _ _ _ => True
  | CallGenerate _ _ _ => False
  end.

End Shapes.

(** ** Shapes used to state what the ranker returns *)

Module Norms.
Import Py Ranker.

(** A zero of either sign: [0.0] or [-0.0]. *)
Definition is_zero (x : float) : Prop := exists s, Prim2SF x = S754_zero s.

(** A vector of norm zero: a zero vector, or one whose squares all underflow
    to zero. *)
Definition zero_norm (a : vector) : Prop := is_zero (np_linalg_norm a).

(** A zero vector: every component is a zero. *)
Definition zero_vector (a : vector) : Prop := Forall is_zero a.

(** [inf] or [-inf]. *)
Definition is_infinite (x : float) : Prop := exists s, Prim2SF x = S754_infinity s.

(** A number whose square underflows to zero. *)
Definition tiny : float := 1e-200%float.

End Norms.

(** ** Shapes used to state what the tools do *)

Module ToolShapes.
Import Py Ranker Model MongoDBClient Tools.
Local Open Scope string_scope.

(** The value a parameter dictionary gives a key, when it is there and
    truthy. *)
Definition truthy_value (key : string) (d : list (string * pyval)) : option pyval :=
  match assoc key d with
  | Some v => if truthy v then Some v else None
  | None => None
  end.

(** The date a parameter dictionary gives a key: none when the key is
    absent or falsy, the parsed value otherwise. *)
Definition date_value {PS : Type} (sv : services PS) (key : string)
  (d : list (string * pyval)) : result (option datetime) :=
  match truthy_value key d with
  | None => Done None
  | Some v => rbind (fromisoformat sv v) (fun x => Done (Some x))
  end.

(** A document without a usable embedding. *)
Definition no_embedding (a : article) : Prop :=
  embedding a = None \/ embedding a = Some [].

(** The payload of a semantic search over a store without embeddings. *)
Definition no_embeddings_payload : pyval :=
  PDict [("articles", PList []);
         ("message", PStr "No articles with embeddings found")].

End ToolShapes.

(** ** Text preparation of the embedder ([embeddings/embedder.py]) *)

Module Embedder.
Import Py Agent.
Local Open Scope string_scope.

(** [s[:k]] on a string. *)
Definition str_slice_to (k : Z) (s : string) : string :=
  if (0 <=? k)%Z then substring 0 (Z.to_nat k) s
  else substring 0 (String.length s - Z.to_nat (- k)) s.

(** [ArticleEmbedder.prepare_article_text] *)
Definition prepare_article_text (title content : string) (max_length : Z) : string :=
  let content_preview :=
    if (max_length <? Z.of_nat (String.length content))%Z
    then str_slice_to max_length content
    else content in
  title ++ ". " ++ content_preview.

(** Scores that IEEE equality identifies. *)
Definition same_score {A : Type} (key : A -> float) (v : float) (x : A) : bool :=
  PrimFloat.eqb (key x) v.

End Embedder.

(** ** The Anthropic client and the client factory ([llm/llm_client.py]) *)

Module AnthropicClient.
Import Py Model Agent.
Local Open Scope string_scope.

(** What [client.messages.create] receives and returns. *)
Record anthropic_tool : Type := {
  a_name : string;
  a_description : string;
  a_properties : list (string * param_spec);
  a_required : list string
}.

(** A block of [response.content], by its [type]. *)
Inductive block : Type :=
| TextBlock (text : string)
| ToolUseBlock (id : string) (name : string) (input : pyval)
| OtherBlock (type : string).

Record api_response : Type := {
  content_blocks : list block;
  stop_reason : string
}.

Definition to_anthropic_tool (t : tool_spec) : anthropic_tool :=
  {| a_name := tool_name t;
     a_description := tool_description t;
     a_properties := tool_parameters t;
     a_required :=
       map fst
         (filter (fun kv => negb (match optional (snd kv) with
                                  | Some b => b
                                  | None => false
                                  end))
            (tool_parameters t)) |}.

(** The loop over [response.content]: the texts are concatenated, the tool
    uses are collected in order, other blocks are skipped. *)
Fixpoint read_blocks (blocks : list block) (tool_calls : list tool_call)
  (text_content : string) : list tool_call * string :=
  match blocks with
  | [] => (tool_calls, text_content)
  | TextBlock text :: rest => read_blocks rest tool_calls (text_content ++ text)
  | ToolUseBlock id name input :: rest =>
      read_blocks rest
        (tool_calls ++ [{| tc_id := id; tc_name := name; tc_parameters := input |}])
        text_content
  | OtherBlock _ :: rest => read_blocks rest tool_calls text_content
  end.

(** The tool uses and the text of a reply, read off its blocks. *)
Definition tool_uses (blocks : list block) : list tool_call :=
  flat_map (fun b =>
    match b with
    | ToolUseBlock id name input =>
        [{| tc_id := id; tc_name := name; tc_parameters := input |}]
    | _ => []
    end) blocks.

Definition texts (blocks : list block) : string :=
  fold_right (fun b acc =>
    match b with
    | TextBlock text => text ++ acc
    | _ => acc
    end) EmptyString blocks.

(** The system prompt and the messages passed to the API: the first message
    is lifted out when its role is "system". *)
Definition split_system (messages : list message) : option string * list message :=
  match messages with
  | m :: rest =>
      if String.eqb (role m) "system" then (Some (content_of m), rest)
      else (None, messages)
  | [] => (None, messages)
  end.

Section Client.
Variable PS : Type.
(** [self.client.messages.create(system=.., messages=.., tools=.., ...)] *)
Variable create :
  option string -> list message -> list anthropic_tool -> PS
  -> result api_response * PS.

(** [AnthropicClient.generate_with_tools]: no handler around the API call. *)
Definition generate_with_tools (messages : list message) (tools : list tool_spec)
  (ps : PS) : outcome response * PS :=
  let anthropic_tools := map to_anthropic_tool tools in
  let '(system_msg, user_messages) :=
    match messages with
    | m :: rest =>
        if String.eqb (role m) "system" then (Some (content_of m), rest)
        else (None, messages)
    | [] => (None, messages)
    end in
  let (r, ps') := create system_msg user_messages anthropic_tools ps in
  (bind (lift r) (fun response =>
     let (tool_calls, text_content) :=
       read_blocks (content_blocks response) [] EmptyString in
     Return {| content := text_content;
               tool_calls := tool_calls;
               finish_reason := stop_reason response |}), ps').
End Client.

End AnthropicClient.

Module Factory.
Import Py Model.
Local Open Scope string_scope.

(** The attributes [OpenAIClient.__init__] sets. *)
Record openai_client (C : Type) : Type := {
  oc_client : C;
  oc_model : pyval;
  oc_max_tokens : pyval;
  oc_temperature : pyval
}.

(** What [create_llm_client] can return. *)
Inductive llm_client (C A L : Type) : Type :=
| OpenAI (c : openai_client C)
| Anthropic (a : A)
| LocalLLM (l : L).

Arguments OpenAI {C A L} c.
Arguments Anthropic {C A L} a.
Arguments LocalLLM {C A L} l.

(** [d.get(key, default)] on a dictionary. *)
Definition get_default (obj : pyval) (key : string) (default : pyval) : result pyval :=
  match obj with
  | PDict d => Done (match assoc key d with Some v => v | None => default end)
  | _ => Fail (AttributeError "object has no attribute 'get'")
  end.

Section Clients.
Variables C A L : Type.
(** [os.environ.get], the import of each SDK and the constructor of its
    client, [LocalLLMClient] and [str] of a value. *)
Variable environ : string -> option string.
Variable import_openai : result unit.
Variable openai_sdk : string -> result C.
Variable import_anthropic : result unit.
Variable anthropic_sdk : string -> result A.
Variable local_llm_client : pyval -> result L.
Variable format_value : pyval -> string.

(** [os.environ.get(name)]: a name that is not a string is a [TypeError]. *)
Definition environ_get (name : pyval) : result (option string) :=
  match name with
  | PStr s => Done (environ s)
  | _ => Fail (TypeError "str expected")
  end.

(** The first lines of both constructors: the API key named by the
    configuration, or [ValueError] when it is unset or empty. *)
Definition read_api_key (config : pyval) : result (pyval * string) :=
  rbind (getitem config "models") (fun models_config =>
  rbind (getitem models_config "api") (fun api_config =>
  rbind (getitem api_config "api_key_env") (fun api_key_env_var =>
  rbind (environ_get api_key_env_var) (fun api_key =>
  match api_key with
  | Some key =>
      if String.eqb key EmptyString
      then Fail (ValueError ("Missing " ++ format_value api_key_env_var
                             ++ " environment variable"))
      else Done (models_config, key)
  | None =>
      Fail (ValueError ("Missing " ++ format_value api_key_env_var
                        ++ " environment variable"))
  end)))).

(** [OpenAIClient.__init__] *)
Definition OpenAIClient_init (config : pyval) : result (openai_client C) :=
  rbind import_openai (fun _ =>
  rbind (read_api_key config) (fun '(models_config, api_key) =>
  rbind (openai_sdk api_key) (fun client =>
  rbind (getitem models_config "api") (fun api =>
  rbind (getitem api "model") (fun model =>
  rbind (getitem models_config "api") (fun api1 =>
  rbind (get_default api1 "max_tokens" (PInt 2000)) (fun max_tokens =>
  rbind (getitem models_config "api") (fun api2 =>
  rbind (get_default api2 "temperature" (PFloat 0.1%float)) (fun temperature =>
  Done {| oc_client := client; oc_model := model;
          oc_max_tokens := max_tokens; oc_temperature := temperature |}))))))))).

(** [AnthropicClient.__init__]: after the client is built the constructor
    reads [self.models_config], an attribute that is never set. *)
Definition AnthropicClient_init (config : pyval) : result A :=
  rbind import_anthropic (fun _ =>
  rbind (read_api_key config) (fun '(models_config, api_key) =>
  rbind (anthropic_sdk api_key) (fun client =>
  Fail (AttributeError
          "'AnthropicClient' object has no attribute 'models_config'")))).

(** [create_llm_client] *)
Definition create_llm_client (config : pyval) : result (llm_client C A L) :=
  rbind (getitem config "models") (fun models =>
  rbind (getitem models "mode") (fun mode =>
  match mode with
  | PStr "api" =>
      rbind (getitem config "models") (fun models1 =>
      rbind (getitem models1 "api") (fun api_config =>
      rbind (getitem api_config "provider") (fun provider =>
      match provider with
      | PStr "openai" => rbind (OpenAIClient_init config) (fun c => Done (OpenAI c))
      | PStr "anthropic" =>
          rbind (AnthropicClient_init config) (fun a => Done (Anthropic a))
      | _ => Fail (ValueError ("Unknown API provider: " ++ format_value provider))
      end)))
  | PStr "local" =>
      rbind (getitem config "models") (fun models1 =>
      rbind (getitem models1 "local") (fun local =>
      rbind (local_llm_client local) (fun l => Done (LocalLLM l))))
  | _ => Fail (ValueError ("Unknown mode: " ++ format_value mode
                           ++ ". Use 'api' or 'local'"))
  end)).
End Clients.

End Factory.

(** ** Writing to the store ([database/mongodb_client.py]) *)

Module MongoWrites.
Import Py Model.
Local Open Scope string_scope.

(** The values of a document handed to [mongo_clean]: [BDate] is a
    [datetime.date] that is not a [datetime.datetime], [BOther] any value of
    another type (an ObjectId, a tuple, ...). *)
Inductive bson : Type :=
| BNone
| BBool (b : bool)
| BInt (z : Z)
| BFloat (f : float)
| BStr (s : string)
| BList (l : list bson)
| BDict (d : list (string * bson))
| BDate (y m d : Z)
| BDatetime (dt : datetime)
| BOther (repr : string).

(** [datetime.combine(d, datetime.min.time())] *)
Definition midnight (y m d : Z) : datetime :=
  {| year := y; month := m; day := d;
     hour := 0; minute := 0; second := 0; microsecond := 0 |}.

(** [MongoDBClient.mongo_clean]: a [datetime] is a [date] too, so the third
    test also takes it. *)
Fixpoint mongo_clean (doc : bson) : bson :=
  match doc with
  | BDict d =>
      BDict (map (fun kv : string * bson => let (k, v) := kv in (k, mongo_clean v)) d)
  | BList l => BList (map mongo_clean l)
  | BDate y m d => BDatetime (midnight y m d)
  | BDatetime dt => BDatetime (midnight (year dt) (month dt) (day dt))
  | other => other
  end.

(** A document without dates, in which every datetime is at midnight. *)
Fixpoint cleaned (doc : bson) : Prop :=
  match doc with
  | BDict d =>
      fold_right (fun (kv : string * bson) acc => let (_, v) := kv in cleaned v /\ acc) True d
  | BList l => fold_right (fun x acc => cleaned x /\ acc) True l
  | BDate _ _ _ => False
  | BDatetime dt =>
      hour dt = 0%Z /\ minute dt = 0%Z /\ second dt = 0%Z /\ microsecond dt = 0%Z
  | _ => True
  end.

End MongoWrites.

(** ** The interactive loop of the query script ([scripts/query.py]) *)

Module QueryScript.
Import Py Model Tools Agent.
Local Open Scope string_scope.

(** How the loop of [main] ends: the user typed an exit command, [input()]
    had no more lines (EOFError), or the process was left by [sys.exit]. *)
Inductive ending : Type :=
| Quit
| EndOfInput
| ProcessExit (code : Z).

Section Repl.
Variable PS : Type.
Variable sv : services PS.
Variable cfg : config.
(** [str.strip] and [str.lower] *)
Variable strip : string -> string.
Variable lower : string -> string.

(** [user_query.lower() in ['exit', 'quit', 'q']] *)
Definition is_exit (user_query : string) : bool :=
  String.eqb (lower user_query) "exit"
  || String.eqb (lower user_query) "quit"
  || String.eqb (lower user_query) "q".

(** The [while True] loop of [main], over the lines [input()] returns.
    [printed] collects the answers printed after "Assistente:" (the other
    prints and the log are left out); each question runs with the default
    [max_iterations] of 10. *)
Fixpoint interactive (mode : string) (inputs : list string) (s : state PS)
  (printed : list string) : ending * state PS * list string :=
  match inputs with
  | [] => (EndOfInput, s, printed)
  | line :: rest =>
      let user_query := strip line in
      if is_exit user_query then (Quit, s, printed)
      else if String.eqb (lower user_query) "reset" && String.eqb mode "chat"
      then interactive mode rest (reset_chat s) printed
      else if String.eqb (lower user_query) "history" && String.eqb mode "chat"
      then interactive mode rest s printed
      else if String.eqb user_query EmptyString
      then interactive mode rest s printed
      else
        let (r, s') :=
          if String.eqb mode "chat" then chat sv cfg user_query 10 s
          else query sv cfg user_query 10 s in
        match r with
        | Return result => interactive mode rest s' (printed ++ [answer result])
        | Raise e => (* except Exception: logged, the loop goes on *)
            interactive mode rest s' printed
        | SysExit c => (ProcessExit c, s', printed)
        end
  end.

(** A line that is a question: not an exit command, not empty, and not one of
    the two commands of the chat mode when in that mode. *)
Definition is_question (mode line : string) : Prop :=
  is_exit (strip line) = false
  /\ (String.eqb (lower (strip line)) "reset" && String.eqb mode "chat") = false
  /\ (String.eqb (lower (strip line)) "history" && String.eqb mode "chat") = false
  /\ strip line <> EmptyString.

(** A provider every call of which raises [e]. *)
Definition provider_down (e : exception) : Prop :=
  forall messages tools ps,
    fst (generate_with_tools sv messages tools ps) = Raise e.
End Repl.

End QueryScript.

(** ** An agent over the OpenAI client, for examples *)

Module ClientExamples.
Import Py Ranker Model Agent Examples.
Local Open Scope string_scope.

(** An API that cannot be reached. *)
Definition failing_create (_ : list message) (_ : list OpenAIClient.openai_tool)
  (n : nat) : result OpenAIClient.completion * nat :=
  (Fail api_down, S n).

Definition no_json (_ : string) : result pyval :=
  Fail (ValueError "Expecting value").

Definition openai_down_services : services nat :=
  {| documents := [docA];
     mongo_match := fun _ _ => true;
     mongo_error := fun _ => None;
     embed_text := fun _ => Done [1; 0; 0; 0]%float;
     fromisoformat := parse_date;
     strftime_ymd := fun _ => "2024-01-01";
     round3 := fun x => x;
     json_dumps := fun _ => "{}";
     generate_with_tools := OpenAIClient.generate_with_tools failing_create no_json;
     generate := fun prompt _ n => (summary_ok prompt n, S n) |}.

End ClientExamples.

(** * Properties *)

(** ** Arithmetic of binary64 numbers used by the ranker *)

Module FloatFacts.
Import Py Ranker.

Lemma SFcompare_lt_key (f1 f2 : spec_float) :
  f1 <> S754_nan -> f2 <> S754_nan ->
  (SFcompare f1 f2 = Some Lt <-> lex_lt (order_key f1) (order_key f2)).
Proof.
  intros H1 H2.
  destruct f1 as [s1|s1| |s1 m1 e1], f2 as [s2|s2| |s2 m2 e2];
    try congruence;
    try destruct s1; try destruct s2; cbn [SFcompare order_key lex_lt];
    try (split; [intros E; (discriminate E || lia) | intros E; (reflexivity || lia)]).
  - destruct (Z.compare_spec e1 e2) as [E|E|E].
    + subst. change (Pos.compare_cont Eq m1 m2) with (Pos.compare m1 m2).
      destruct (Pos.compare_spec m1 m2); cbn; split; intros;
        try discriminate; try reflexivity; lia.
    + split; intros; try discriminate; lia.
    + split; intros; try reflexivity; lia.
  - destruct (Z.compare_spec e1 e2) as [E|E|E].
    + subst. change (Pos.compare_cont Eq m1 m2) with (Pos.compare m1 m2).
      destruct (Pos.compare_spec m1 m2); cbn; split; intros;
        try discriminate; try reflexivity; lia.
    + split; intros; try reflexivity; lia.
    + split; intros; try discriminate; lia.
Qed.

Lemma not_nan_spec (x : float) : not_nan x -> Prim2SF x <> S754_nan.
Proof.
  unfold not_nan, PrimFloat.is_nan. intros H E.
  rewrite eqb_spec, E in H. discriminate H.
Qed.

Lemma is_nan_spec (x : float) : Prim2SF x = S754_nan -> PrimFloat.is_nan x = true.
Proof.
  intros E. unfold PrimFloat.is_nan. rewrite eqb_spec, E. reflexivity.
Qed.

Lemma ltb_key (x y : float) :
  not_nan x -> not_nan y ->
  (PrimFloat.ltb x y = true
   <-> lex_lt (order_key (Prim2SF x)) (order_key (Prim2SF y))).
Proof.
  intros Hx Hy. rewrite ltb_spec. unfold SFltb.
  rewrite <- (SFcompare_lt_key (not_nan_spec Hx) (not_nan_spec Hy)).
  destruct (SFcompare (Prim2SF x) (Prim2SF y)) as [[| |]|]; split; congruence.
Qed.

(** On numbers, [<] is negatively transitive: [y <= x] and [z <= y] give
    [z <= x]. *)
Lemma ltb_neg_trans (x y z : float) :
  not_nan x -> not_nan y -> not_nan z ->
  PrimFloat.ltb x y = false -> PrimFloat.ltb y z = false ->
  PrimFloat.ltb x z = false.
Proof.
  intros Hx Hy Hz Hxy Hyz.
  destruct (PrimFloat.ltb x z) eqn:Hxz; [|reflexivity].
  apply (ltb_key Hx Hz) in Hxz.
  assert (Nxy : ~ lex_lt (order_key (Prim2SF x)) (order_key (Prim2SF y))).
  { intros C. apply (ltb_key Hx Hy) in C. congruence. }
  assert (Nyz : ~ lex_lt (order_key (Prim2SF y)) (order_key (Prim2SF z))).
  { intros C. apply (ltb_key Hy Hz) in C. congruence. }
  exfalso.
  destruct (order_key (Prim2SF x)) as [[a1 a2] a3],
           (order_key (Prim2SF y)) as [[b1 b2] b3],
           (order_key (Prim2SF z)) as [[c1 c2] c3].
  unfold lex_lt in *. lia.
Qed.

Lemma zero_or_nan_zero : zero_or_nan 0%float.
Proof. left. exists false. reflexivity. Qed.

Lemma mul_zero_or_nan_l (x y : float) : zero_or_nan x -> zero_or_nan (x * y).
Proof.
  unfold zero_or_nan. rewrite mul_spec. intros [[s E]|E]; rewrite E.
  - destruct (Prim2SF y) as [s'|s'| |s' m e]; cbn; eauto.
  - destruct (Prim2SF y); cbn; eauto.
Qed.

Lemma mul_zero_or_nan_r (x y : float) : zero_or_nan y -> zero_or_nan (x * y).
Proof.
  unfold zero_or_nan. rewrite mul_spec. intros [[s E]|E]; rewrite E.
  - destruct (Prim2SF x) as [s'|s'| |s' m e]; cbn; eauto.
  - destruct (Prim2SF x); cbn; eauto.
Qed.

Lemma add_zero_or_nan (x y : float) :
  zero_or_nan x -> zero_or_nan y -> zero_or_nan (x + y).
Proof.
  unfold zero_or_nan. rewrite add_spec.
  intros [[s E]|E] [[s' E']|E']; rewrite E, E'; cbn; eauto.
  destruct s, s'; eauto.
Qed.

Lemma sqrt_zero_or_nan (x : float) : zero_or_nan x -> zero_or_nan (PrimFloat.sqrt x).
Proof.
  unfold zero_or_nan. rewrite sqrt_spec. intros [[s E]|E]; rewrite E; cbn; eauto.
Qed.

Lemma div_zero_or_nan (x y : float) :
  zero_or_nan x -> zero_or_nan y -> PrimFloat.is_nan (x / y) = true.
Proof.
  unfold zero_or_nan. intros Hx Hy. apply is_nan_spec. rewrite div_spec.
  destruct Hx as [[s E]|E], Hy as [[s' E']|E']; rewrite E, E'; reflexivity.
Qed.

End FloatFacts.

(** ** The similarity ranker *)

Module RankerFacts.
Import Py Ranker Norms FloatFacts.

Lemma ltb_asym (x y : float) :
  not_nan x -> not_nan y ->
  PrimFloat.ltb x y = true -> PrimFloat.ltb y x = false.
Proof.
  intros Hx Hy Hxy.
  destruct (PrimFloat.ltb y x) eqn:Hyx; [|reflexivity].
  apply (ltb_key Hx Hy) in Hxy. apply (ltb_key Hy Hx) in Hyx.
  destruct (order_key (Prim2SF x)) as [[a1 a2] a3],
           (order_key (Prim2SF y)) as [[b1 b2] b3].
  unfold lex_lt in *. lia.
Qed.

Lemma is_zero_zero_or_nan (x : float) : is_zero x -> zero_or_nan x.
Proof. intros H. left. exact H. Qed.

Lemma dot_fold_zeros_l (l : list (float * float)) (acc : float) :
  zero_or_nan acc ->
  Forall (fun p => is_zero (fst p)) l ->
  zero_or_nan (fold_left (fun acc p => (acc + fst p * snd p)%float) l acc).
Proof.
  revert acc. induction l as [|p l IH]; intros acc Hacc Hl; cbn.
  - exact Hacc.
  - inversion Hl as [|? ? Hp Hl']; subst. apply IH; [|exact Hl'].
    apply add_zero_or_nan; [exact Hacc|].
    apply mul_zero_or_nan_l, is_zero_zero_or_nan, Hp.
Qed.

Lemma dot_fold_zeros_r (l : list (float * float)) (acc : float) :
  zero_or_nan acc ->
  Forall (fun p => is_zero (snd p)) l ->
  zero_or_nan (fold_left (fun acc p => (acc + fst p * snd p)%float) l acc).
Proof.
  revert acc. induction l as [|p l IH]; intros acc Hacc Hl; cbn.
  - exact Hacc.
  - inversion Hl as [|? ? Hp Hl']; subst. apply IH; [|exact Hl'].
    apply add_zero_or_nan; [exact Hacc|].
    apply mul_zero_or_nan_r, is_zero_zero_or_nan, Hp.
Qed.

Lemma combine_Forall_l {A B} (P : A -> Prop) (a : list A) (b : list B) :
  Forall P a -> Forall (fun p => P (fst p)) (combine a b).
Proof.
  intros H. revert b. induction H as [|x a Hx Ha IH]; intros [|y b]; cbn; auto.
Qed.

Lemma combine_Forall_r {A B} (P : B -> Prop) (a : list A) (b : list B) :
  Forall P b -> Forall (fun p => P (snd p)) (combine a b).
Proof.
  intros H. revert a. induction H as [|y b Hy Hb IH]; intros [|x a]; cbn; auto.
Qed.

(** A zero vector has norm [0.0]. *)
Lemma zero_vector_zero_norm (a : vector) : zero_vector a -> zero_norm a.
Proof.
  intros H. unfold zero_norm, np_linalg_norm, is_zero.
  assert (G : forall acc, Prim2SF acc = S754_zero false ->
            Prim2SF (fold_left (fun acc x => (acc + x * x)%float) a acc)
            = S754_zero false).
  { induction H as [|x a [sx Hx] Ha IH]; intros acc Hacc; cbn; [exact Hacc|].
    apply IH. rewrite add_spec, mul_spec, Hacc, Hx. destruct sx; reflexivity. }
  exists false. rewrite sqrt_spec, (G 0%float eq_refl). reflexivity.
Qed.

(** Dividing by a zero or by NaN gives NaN or an infinity. *)
Lemma div_by_zero_or_nan (x y : float) :
  zero_or_nan y -> PrimFloat.is_nan (x / y) = true \/ is_infinite (x / y).
Proof.
  unfold zero_or_nan, is_infinite. intros Hy.
  assert (H : Prim2SF (x / y) = S754_nan \/ exists s, Prim2SF (x / y) = S754_infinity s).
  { rewrite div_spec. destruct Hy as [[s E]|E]; rewrite E;
      destruct (Prim2SF x) as [sx|sx| |sx mx ex]; cbn; eauto. }
  destruct H as [H|H]; [left; apply is_nan_spec, H|right; exact H].
Qed.

(** Vectors of one length always get a score: [cosine_similarity] has no
    error for a vector of norm zero. *)
Lemma cosine_similarity_defined (a b : vector) :
  List.length a = List.length b ->
  cosine_similarity a b =
  Done (fold_left (fun acc p => (acc + fst p * snd p)%float) (combine a b) 0
        / (np_linalg_norm a * np_linalg_norm b))%float.
Proof.
  intros H. unfold cosine_similarity, np_dot. rewrite H, Nat.eqb_refl. reflexivity.
Qed.

(** C4 (as the code has it): for every two vectors of one length
    [cosine_similarity] reports no error, also when a norm is zero: it
    returns the IEEE-754 quotient of [np.dot(a, b)] by the product of the
    norms.  When either norm is zero (a zero vector, or components so small
    that their squares underflow) that value is NaN or an infinity; when
    either vector is a zero vector (every component [0.0] or [-0.0]) its norm
    is zero and the value is NaN. *)
Theorem cosine_similarity_zero_vector (a b : vector) :
  List.length a = List.length b ->
  exists d,
    np_dot a b = Done d
    /\ cosine_similarity a b
       = Done (d / (np_linalg_norm a * np_linalg_norm b))%float
    /\ (zero_norm a \/ zero_norm b ->
        PrimFloat.is_nan (d / (np_linalg_norm a * np_linalg_norm b)) = true
        \/ is_infinite (d / (np_linalg_norm a * np_linalg_norm b)))
    /\ (zero_vector a \/ zero_vector b ->
        (zero_norm a \/ zero_norm b)
        /\ PrimFloat.is_nan (d / (np_linalg_norm a * np_linalg_norm b)) = true).
Proof.
  intros Hlen.
  exists (fold_left (fun acc p => (acc + fst p * snd p)%float) (combine a b) 0%float).
  assert (Hdot : np_dot a b
    = Done (fold_left (fun acc p => (acc + fst p * snd p)%float) (combine a b) 0%float)).
  { unfold np_dot. rewrite Hlen, Nat.eqb_refl. reflexivity. }
  assert (Hnorm : zero_norm a \/ zero_norm b ->
            zero_or_nan (np_linalg_norm a * np_linalg_norm b)).
  { intros [Ha|Hb].
    - apply mul_zero_or_nan_l, is_zero_zero_or_nan, Ha.
    - apply mul_zero_or_nan_r, is_zero_zero_or_nan, Hb. }
  split; [exact Hdot|]. split.
  - unfold cosine_similarity. rewrite Hdot. reflexivity.
  - split.
    + intros Hz. apply div_by_zero_or_nan, Hnorm, Hz.
    + intros Hz.
      assert (Hn : zero_norm a \/ zero_norm b).
      { destruct Hz as [Ha|Hb];
          [left|right]; apply zero_vector_zero_norm; assumption. }
      split; [exact Hn|].
      apply div_zero_or_nan; [|apply Hnorm, Hn].
      destruct Hz as [Ha|Hb].
      * apply dot_fold_zeros_l; [apply zero_or_nan_zero|].
        apply (@combine_Forall_l _ _ is_zero), Ha.
      * apply dot_fold_zeros_r; [apply zero_or_nan_zero|].
        apply (@combine_Forall_r _ _ is_zero), Hb.
Qed.

Lemma cosine_similarity_zero_vector_witness :
  exists d,
    np_dot [tiny; 0%float] [1; 2]%float = Done d
    /\ cosine_similarity [tiny; 0%float] [1; 2]%float
       = Done (d / (np_linalg_norm [tiny; 0%float] * np_linalg_norm [1; 2]%float))%float
    /\ (zero_norm [tiny; 0%float] \/ zero_norm [1; 2]%float ->
        PrimFloat.is_nan
          (d / (np_linalg_norm [tiny; 0%float] * np_linalg_norm [1; 2]%float)) = true
        \/ is_infinite
             (d / (np_linalg_norm [tiny; 0%float] * np_linalg_norm [1; 2]%float)))
    /\ (zero_vector [tiny; 0%float] \/ zero_vector [1; 2]%float ->
        (zero_norm [tiny; 0%float] \/ zero_norm [1; 2]%float)
        /\ PrimFloat.is_nan
             (d / (np_linalg_norm [tiny; 0%float] * np_linalg_norm [1; 2]%float))
           = true).
Proof.
  apply (@cosine_similarity_zero_vector [tiny; 0%float] [1; 2]%float).
  reflexivity.
Defined.

(** A norm of zero without a zero vector, and a zero vector of negative
    zeros. *)
Example zero_norm_scores :
  np_linalg_norm [tiny] = 0%float
  /\ cosine_similarity [tiny] [1%float] = Done infinity
  /\ cosine_similarity [(-0)%float] [1%float] = Done nan
  /\ zero_norm [tiny] /\ zero_vector [(-0)%float].
Proof.
  split; [reflexivity|]. split; [vm_compute; reflexivity|]. split; [vm_compute; reflexivity|].
  split; [exists false; reflexivity|]. repeat constructor. exists true. reflexivity.
Qed.

(** C4 (as stated) fails: the vector [[0.0]] has norm zero, and its
    similarity to [[1.0]] is the value NaN, not an error. *)
Lemma cosine_similarity_zero_norm_no_error :
  np_linalg_norm [0%float] = 0%float /\
  (exists v, cosine_similarity [0%float] [1%float] = Done v
             /\ PrimFloat.is_nan v = true) /\
  (forall e, cosine_similarity [0%float] [1%float] <> Fail e).
Proof.
  split; [reflexivity|]. split.
  - exists (0 / 0)%float. split; reflexivity.
  - intros e. vm_compute. discriminate.
Qed.

End RankerFacts.

(** ** Sorting by descending score *)

Module SortFacts.
Import Py Ranker FloatFacts RankerFacts.

Section Sorting.
Variable A : Type.
Variable key : A -> float.

Let numbers (l : list A) : Prop := Forall (fun x => not_nan (key x)) l.

Lemma insert_desc_perm (x : A) (l : list A) :
    Permutation (insert_desc key x l) (x :: l).
  Proof.
    induction l as [|y l IH]; cbn.
    - apply Permutation_refl.
    - destruct (PrimFloat.ltb (key x) (key y)).
      + eapply perm_trans; [apply perm_skip, IH|apply perm_swap].
      + apply Permutation_refl.
  Qed.

Lemma sort_desc_perm (l : list A) : Permutation (sort_desc key l) l.
  Proof.
    induction l as [|x l IH]; cbn.
    - apply perm_nil.
    - eapply perm_trans; [apply insert_desc_perm|apply perm_skip, IH].
  Qed.

Lemma sort_desc_Forall (P : A -> Prop) (l : list A) :
    Forall P l -> Forall P (sort_desc key l).
  Proof.
    intros H. eapply Permutation_Forall; [|exact H].
    apply Permutation_sym, sort_desc_perm.
  Qed.

Lemma insert_desc_descending (x : A) (l : list A) :
    not_nan (key x) -> numbers l ->
    descending key l -> descending key (insert_desc key x l).
  Proof.
    intros Hx Hl Hd. induction Hd as [|y l Hy Hd IH]; cbn.
    - constructor; constructor.
    - inversion Hl as [|? ? Hny Hl']; subst.
      destruct (PrimFloat.ltb (key x) (key y)) eqn:E.
      + constructor; [|apply IH, Hl'].
        eapply Permutation_Forall;
          [apply Permutation_sym, insert_desc_perm|].
        constructor; [apply ltb_asym; assumption|exact Hy].
      + constructor; [|constructor; assumption].
        constructor; [exact E|].
        rewrite Forall_forall in *. intros z Hz.
        apply (@ltb_neg_trans (key x) (key y) (key z)); auto.
  Qed.

Lemma sort_desc_descending (l : list A) :
    numbers l -> descending key (sort_desc key l).
  Proof.
    intros H. induction H as [|x l Hx Hl IH]; cbn.
    - constructor.
    - apply insert_desc_descending; [exact Hx| |exact IH].
      apply sort_desc_Forall, Hl.
  Qed.

Lemma descending_firstn (k : nat) (l : list A) :
    descending key l -> descending key (firstn k l).
  Proof.
    intros H. revert k. induction H as [|x l Hx Hd IH]; intros [|k]; cbn;
      try constructor.
    - rewrite Forall_forall in *. intros z Hz. apply Hx.
      rewrite <- (firstn_skipn k l). apply in_or_app. left. exact Hz.
    - apply IH.
  Qed.

Lemma descending_filter (p : A -> bool) (l : list A) :
    descending key l -> descending key (filter p l).
  Proof.
    intros H. induction H as [|x l Hx Hd IH]; cbn; [constructor|].
    destruct (p x); [|exact IH].
    constructor; [|exact IH].
    rewrite Forall_forall in *. intros z Hz. apply Hx.
    apply filter_In in Hz. tauto.
  Qed.

Lemma filter_none (p : A -> bool) (l : list A) :
    Forall (fun x => p x = false) l -> filter p l = [].
  Proof.
    intros H. induction H as [|x l Hx Hl IH]; cbn; [reflexivity|].
    rewrite Hx. exact IH.
  Qed.

  (** On a descending list of numbers, cutting to the first [k] entries and
      keeping the entries above a threshold commute. *)
Lemma filter_firstn_descending (t : float) (k : nat) (l : list A) :
    not_nan t -> numbers l -> descending key l ->
    filter (fun x => PrimFloat.ltb t (key x)) (firstn k l)
    = firstn k (filter (fun x => PrimFloat.ltb t (key x)) l).
  Proof.
    intros Ht Hl Hd. revert k. induction Hd as [|x l Hx Hd IH]; intros k.
    - destruct k; reflexivity.
    - inversion Hl as [|? ? Hnx Hl']; subst.
      destruct k as [|k]; [cbn; destruct (PrimFloat.ltb t (key x)); reflexivity|].
      cbn. destruct (PrimFloat.ltb t (key x)) eqn:E.
      + cbn. f_equal. apply IH, Hl'.
      + assert (Hall : Forall (fun z => PrimFloat.ltb t (key z) = false) l).
        { rewrite Forall_forall in *. intros z Hz.
          apply (@ltb_neg_trans t (key x) (key z)); auto. }
        rewrite (filter_none _ Hall).
        rewrite filter_none; [destruct k; reflexivity|].
        rewrite Forall_forall in *. intros z Hz. apply Hall.
        rewrite <- (firstn_skipn k l). apply in_or_app. left. exact Hz.
  Qed.
End Sorting.

End SortFacts.

(** ** Semantic search: [_tool_search_by_content] *)

Module ContentSearchFacts.
Import Py Ranker Model MongoDBClient Tools FloatFacts RankerFacts SortFacts Examples.
Local Open Scope string_scope.

Lemma score_all_scores {D : Type} (qe : vector) (l : list (D * vector))
  (scored : list (D * vector * float)) :
  score_all qe l = Done scored ->
  map fst scored = l /\
  Forall (fun x => cosine_similarity qe (snd (fst x)) = Done (snd x)) scored.
Proof.
  revert scored. induction l as [|[d e] l IH]; intros scored H; cbn in H.
  - inversion H. split; constructor.
  - destruct (cosine_similarity qe e) as [sc|err] eqn:E; cbn in H; [|discriminate H].
    destruct (score_all qe l) as [rest|err] eqn:E'; cbn in H; [|discriminate H].
    inversion H; subst. destruct (IH rest eq_refl) as [IH1 IH2].
    split; [cbn; rewrite IH1; reflexivity|].
    constructor; [exact E|exact IH2].
Qed.

Lemma threshold_not_nan : not_nan threshold.
Proof. reflexivity. Qed.

Section ContentSearch.
Variable PS : Type.
Variable sv : services PS.
Variable cfg : config.

(** C3 (as the code has it): when every similarity is a number and K is not
    negative, [_tool_search_by_content] returns the entries of the ranking
    whose score exceeds 0.3, in descending order of score, cut to the top K:
    cutting to K before applying the threshold, as the code does, selects the
    same entries as applying the threshold first; [total_found] is the number
    of entries returned. *)
Theorem search_by_content_selection (params q : pyval) (qe : vector)
  (arts : list article) (scored : list (article * vector * float)) :
  getitem params "query" = Done q ->
  embed_text sv q = Done qe ->
  get_all_articles sv = Done arts ->
  with_embeddings arts <> [] ->
  score_all qe (with_embeddings arts) = Done scored ->
  Forall (fun x => not_nan (snd x)) scored ->
  (0 <= semantic_top_k cfg)%Z ->
  let ranked := sort_desc (fun x => snd x) scored in
  let selected :=
    firstn (Z.to_nat (semantic_top_k cfg))
      (filter (fun x => PrimFloat.ltb threshold (snd x)) ranked) in
  _tool_search_by_content sv cfg params
  = Done (PDict [("total_found", PInt (Z.of_nat (List.length selected)));
                 ("articles", PList (map (content_entry sv) selected))])
  /\ _tool_search_by_content sv cfg params = spec_search_by_content sv cfg params
  /\ Permutation ranked scored
  /\ map fst scored = with_embeddings arts
  /\ Forall (fun x => cosine_similarity qe (snd (fst x)) = Done (snd x)) scored
  /\ descending (fun x => snd x) selected
  /\ Forall (fun x => PrimFloat.ltb threshold (snd x) = true) selected
  /\ (List.length selected <= Z.to_nat (semantic_top_k cfg))%nat.
Proof.
  intros Hq He Ha Hne Hs Hn Hk ranked selected.
  assert (Hranked : Forall (fun x => not_nan (snd x)) ranked)
    by (apply sort_desc_Forall, Hn).
  assert (Hdesc : descending (fun x => snd x) ranked)
    by (apply sort_desc_descending, Hn).
  assert (Hsel : filter (fun x => PrimFloat.ltb threshold (snd x))
                   (slice_to (semantic_top_k cfg) ranked) = selected).
  { unfold slice_to. apply Z.leb_le in Hk. rewrite Hk.
    apply (@filter_firstn_descending _ (fun x => snd x));
      [apply threshold_not_nan|exact Hranked|exact Hdesc]. }
  assert (Hcode : _tool_search_by_content sv cfg params
    = Done (PDict [("total_found", PInt (Z.of_nat (List.length selected)));
                   ("articles", PList (map (content_entry sv) selected))])).
  { unfold _tool_search_by_content. rewrite Hq. cbn [rbind]. rewrite He. cbn [rbind].
    rewrite Ha. cbn [rbind].
    destruct (with_embeddings arts) as [|p l] eqn:Ew; [congruence|].
    unfold rank_by_similarity. rewrite Hs. cbn [rbind].
    fold ranked. rewrite Hsel. rewrite length_map. reflexivity. }
  destruct (score_all_scores _ _ Hs) as [Hm Hc].
  repeat split.
  - exact Hcode.
  - rewrite Hcode. unfold spec_search_by_content.
    rewrite Hq. cbn [rbind]. rewrite He. cbn [rbind]. rewrite Ha. cbn [rbind].
    destruct (with_embeddings arts) as [|p l] eqn:Ew; [congruence|].
    unfold rank_by_similarity. rewrite Hs. cbn [rbind].
    fold ranked. unfold spec_selection, slice_to.
    apply Z.leb_le in Hk. rewrite Hk. fold selected. rewrite length_map. reflexivity.
  - apply sort_desc_perm.
  - exact Hm.
  - exact Hc.
  - apply descending_firstn, descending_filter, Hdesc.
  - rewrite Forall_forall. intros x Hx. unfold selected in Hx.
    assert (Hin : In x (filter (fun x => PrimFloat.ltb threshold (snd x)) ranked)).
    { rewrite <- (firstn_skipn (Z.to_nat (semantic_top_k cfg))).
      apply in_or_app. left. exact Hx. }
    apply filter_In in Hin. tauto.
  - apply firstn_le_length.
Qed.
End ContentSearch.

(** The example of the specification: A (0.5), B (0.2) and C (0.9) give
    [[C, A]]. *)
Lemma search_by_content_selection_witness :
  _tool_search_by_content abc_services (cfg_of 5 "summary") energia
  = Done (PDict [("total_found", PInt 2);
                 ("articles",
                  PList [content_entry abc_services (docC, [9; 3; 3; 1]%float, 0.9%float);
                         content_entry abc_services (docA, [1; 1; 1; 1]%float, 0.5%float)])]).
Proof.
  destruct (@search_by_content_selection nat abc_services (cfg_of 5 "summary")
              energia (PStr "energia") [1; 0; 0; 0]%float [docA; docB; docC]
              [(docA, [1; 1; 1; 1]%float, 0.5%float);
               (docB, [1; 2; 2; 4]%float, 0.2%float);
               (docC, [9; 3; 3; 1]%float, 0.9%float)]) as [H _].
  - reflexivity.
  - reflexivity.
  - reflexivity.
  - discriminate.
  - reflexivity.
  - repeat constructor.
  - cbn. lia.
  - rewrite H. reflexivity.
Defined.

(** C3 (as stated) fails: with K = 1 and a store holding Z, whose embedding
    is the zero vector, before A, document A has similarity 0.5 > 0.3 and is
    the only one above the threshold, yet nothing is returned: the ranking
    is cut to its first entry (Z, of score NaN) before the threshold is
    applied.  Applying the threshold first would return A. *)
Lemma search_by_content_cut_before_threshold :
  let sv := services_of [docZ; docA] answers_X summary_ok in
  cosine_similarity [1; 0; 0; 0]%float [1; 1; 1; 1]%float = Done 0.5%float /\
  PrimFloat.ltb threshold 0.5%float = true /\
  _tool_search_by_content sv (cfg_of 1 "summary") energia
  = Done (PDict [("total_found", PInt 0); ("articles", PList [])]) /\
  spec_search_by_content sv (cfg_of 1 "summary") energia
  = Done (PDict [("total_found", PInt 1);
                 ("articles",
                  PList [content_entry sv (docA, [1; 1; 1; 1]%float, 0.5%float)])]) /\
  _tool_search_by_content sv (cfg_of 1 "summary") energia
  <> spec_search_by_content sv (cfg_of 1 "summary") energia.
Proof.
  cbv zeta. repeat split; try reflexivity.
  vm_compute. discriminate.
Qed.

End ContentSearchFacts.

(** ** Dispatch: [_execute_tool] *)

Module DispatchFacts.
Import Py Ranker Model MongoDBClient Tools Agent.
Local Open Scope string_scope.

(** Peels the successful calls off a chain of [rbind]s that ended in
    [Done]. *)
Ltac peel H :=
  repeat match type of H with
  | rbind ?m _ = Done _ =>
      let E := fresh "E" in
      destruct m eqn:E; cbn [rbind] in H; [|discriminate H]
  | match ?m with _ => _ end = Done _ =>
      let E := fresh "E" in
      destruct m eqn:E; cbn [rbind] in H; try discriminate H
  end.

Section Dispatch.
Variable PS : Type.
Variable sv : services PS.
Variable cfg : config.

Lemma search_by_content_dict (params v : pyval) :
  _tool_search_by_content sv cfg params = Done v -> is_dict v.
Proof.
  unfold _tool_search_by_content. intros H. peel H; inversion H; eexists; reflexivity.
Qed.

Lemma search_by_author_dict (params v : pyval) :
  _tool_search_by_author sv params = Done v -> is_dict v.
Proof.
  unfold _tool_search_by_author. intros H. peel H; inversion H; eexists; reflexivity.
Qed.

Lemma search_by_metadata_dict (params v : pyval) :
  _tool_search_by_metadata sv params = Done v -> is_dict v.
Proof.
  unfold _tool_search_by_metadata. intros H.
  destruct (search_filters sv params); cbn [rbind] in H; [|discriminate H].
  peel H; inversion H; eexists; reflexivity.
Qed.

Lemma count_articles_dict (params v : pyval) :
  _tool_count_articles sv params = Done v -> is_dict v.
Proof.
  unfold _tool_count_articles. intros H.
  destruct (count_filters sv params); cbn [rbind] in H; [|discriminate H].
  peel H; inversion H; eexists; reflexivity.
Qed.

Lemma get_article_details_dict (params v : pyval) :
  _tool_get_article_details sv params = Done v -> is_dict v.
Proof.
  unfold _tool_get_article_details. intros H. peel H; inversion H; eexists; reflexivity.
Qed.

(** The body of the [try] returns a dictionary or raises; it never leaves
    the process. *)
Lemma dispatch_cases (name : string) (params : pyval) :
  (exists d, dispatch sv cfg name params = Return (PDict d))
  \/ (exists e, dispatch sv cfg name params = Raise e).
Proof.
  unfold dispatch.
  repeat match goal with
  | |- context [if ?c then _ else _] => destruct c
  end;
  try match goal with
  | |- context [lift ?t] =>
      let E := fresh "E" in
      destruct t as [v|e] eqn:E; cbn [lift]; [left|right; eexists; reflexivity]
  end;
  try (left; eexists; reflexivity).
  - destruct (search_by_content_dict _ E) as [d ->]. eexists; reflexivity.
  - destruct (search_by_author_dict _ E) as [d ->]. eexists; reflexivity.
  - destruct (search_by_metadata_dict _ E) as [d ->]. eexists; reflexivity.
  - destruct (count_articles_dict _ E) as [d ->]. eexists; reflexivity.
  - destruct (get_article_details_dict _ E) as [d ->]. eexists; reflexivity.
Qed.

(** Every dispatch returns a dictionary. *)
Lemma execute_tool_returns (name : string) (params : pyval) :
  exists d, _execute_tool sv cfg name params = Return (PDict d).
Proof.
  unfold _execute_tool.
  destruct (dispatch_cases name params) as [[d E]|[e E]]; rewrite E; cbn.
  - exists d. reflexivity.
  - eexists. reflexivity.
Qed.

Lemma execute_tool_failure (name : string) (params : pyval) (e : exception) :
  dispatch sv cfg name params = Raise e ->
  _execute_tool sv cfg name params = Return (error_payload (str e)).
Proof. intros E. unfold _execute_tool. rewrite E. reflexivity. Qed.

Lemma execute_tool_unknown (name : string) (params : pyval) :
  registered name = false ->
  _execute_tool sv cfg name params
  = Return (error_payload ("Unknown tool: " ++ name)).
Proof.
  unfold registered. cbn [existsb _define_tools tool_name]. intros H.
  repeat (apply orb_false_iff in H; destruct H as [? H]).
  unfold _execute_tool, dispatch.
  repeat match goal with E : String.eqb _ _ = false |- _ => rewrite E; clear E end.
  reflexivity.
Qed.

(** A required parameter that is missing from the parameter dictionary. *)
Lemma execute_tool_missing (t : tool_spec) (key : string)
  (d : list (string * pyval)) :
  In t _define_tools -> In key (required_parameters t) ->
  assoc key d = None ->
  _execute_tool sv cfg (tool_name t) (PDict d)
  = Return (error_payload (squote ++ key ++ squote)).
Proof.
  intros Ht Hk Hd. cbn in Ht.
  repeat (destruct Ht as [<-|Ht]); try contradiction; cbn in Hk;
    repeat (destruct Hk as [<-|Hk]); try contradiction;
    unfold _execute_tool, dispatch; cbn [tool_name String.eqb Ascii.eqb Bool.eqb andb];
    unfold _tool_search_by_content, _tool_search_by_author,
      _tool_get_article_details, getitem; rewrite Hd; reflexivity.
Qed.

(** A date parameter that does not parse, in [search_by_metadata] and in
    [count_articles]. *)
Lemma execute_tool_bad_date_from (name : string) (d : list (string * pyval))
  (v : pyval) (e : exception) :
  name = "search_by_metadata" \/ name = "count_articles" ->
  assoc "date_from" d = Some v -> truthy v = true ->
  fromisoformat sv v = Fail e ->
  _execute_tool sv cfg name (PDict d) = Return (error_payload (str e)).
Proof.
  intros [-> | ->] Hd Hv He; apply execute_tool_failure; unfold dispatch;
    cbn [String.eqb Ascii.eqb Bool.eqb andb];
    unfold _tool_search_by_metadata, search_filters, _tool_count_articles, count_filters,
      in_and_truthy, contains, getitem;
    destruct (assoc "author" d) as [a|]; cbn [rbind];
    try (destruct (truthy a); cbn [rbind]);
    rewrite Hd; cbn [rbind]; rewrite Hv; cbn [rbind]; rewrite He; reflexivity.
Qed.

(** The loop body returns for every batch of tool calls: it appends one
    record per call, and two turns per call to the conversation of the run. *)
Lemma run_tool_calls_returns (resp : response) (pending : list tool_call)
  (conversation : list message) (tool_results : list tool_record) :
  exists turns recs,
    run_tool_calls sv cfg resp pending conversation tool_results
    = Return ((conversation ++ turns)%list, (tool_results ++ recs)%list)
    /\ Forall2 (executed sv cfg) pending recs
    /\ List.length turns = 2 * List.length pending
    /\ Forall is_tool_exchange turns.
Proof.
  revert conversation tool_results.
  induction pending as [|tc rest IH]; intros conversation tool_results; cbn.
  - exists [], []. rewrite !app_nil_r. repeat split; constructor.
  - destruct (execute_tool_returns (tc_name tc) (tc_parameters tc)) as [d Hd].
    rewrite Hd. cbn [bind].
    edestruct IH as (turns & recs & Hrun & Hex & Hlen & Hrole).
    rewrite Hrun. do 2 eexists.
    rewrite <- !app_assoc. split; [reflexivity|]. split; [|split].
    + constructor; [|exact Hex]. repeat split. exact Hd.
    + cbn. rewrite Hlen. lia.
    + cbn. constructor; [exact I|]. constructor; [exact I|].
      exact Hrole.
Qed.

(** An iteration whose reply asks for tools goes on to the next one. *)
Lemma query_loop_continues (i : Z) (rest : list Z) (n : Z)
  (conversation : list message) (tool_results : list tool_record)
  (s : state PS) (resp : response) :
  fst (call_generate_with_tools sv conversation s) = Return resp ->
  tool_calls resp <> [] ->
  exists turns recs,
    query_loop sv cfg (i :: rest) n conversation tool_results s
    = query_loop sv cfg rest n (conversation ++ turns)%list (tool_results ++ recs)%list
        (snd (call_generate_with_tools sv conversation s))
    /\ Forall2 (executed sv cfg) (tool_calls resp) recs.
Proof.
  intros Hr Hne. cbn [query_loop].
  destruct (call_generate_with_tools sv conversation s) as [r s1]. cbn in Hr. subst r.
  cbn [try_except fst snd].
  destruct (tool_calls resp) as [|tc tcs] eqn:Etc; [congruence|].
  destruct (run_tool_calls_returns resp (tc :: tcs) conversation tool_results)
    as (turns & recs & Hrun & Hex & _).
  rewrite Hrun. exists turns, recs. split; [reflexivity|exact Hex].
Qed.

Lemma chat_loop_continues (i : Z) (rest : list Z) (n : Z)
  (conversation : list message) (tool_results : list tool_record)
  (s : state PS) (resp : response) :
  fst (call_generate_with_tools sv conversation s) = Return resp ->
  tool_calls resp <> [] ->
  exists turns recs,
    chat_loop sv cfg (i :: rest) n conversation tool_results s
    = chat_loop sv cfg rest n (conversation ++ turns)%list (tool_results ++ recs)%list
        (snd (call_generate_with_tools sv conversation s))
    /\ Forall2 (executed sv cfg) (tool_calls resp) recs.
Proof.
  intros Hr Hne. cbn [chat_loop].
  destruct (call_generate_with_tools sv conversation s) as [r s1]. cbn in Hr. subst r.
  cbn [fst snd].
  destruct (tool_calls resp) as [|tc tcs] eqn:Etc; [congruence|].
  destruct (run_tool_calls_returns resp (tc :: tcs) conversation tool_results)
    as (turns & recs & Hrun & Hex & _).
  rewrite Hrun. exists turns, recs. split; [reflexivity|exact Hex].
Qed.
End Dispatch.

(** C2: every dispatch returns a result dictionary and raises nothing.  A
    name outside the catalogue gives exactly [{"error": "Unknown tool:
    <name>"}]; an exception raised by a tool gives [{"error": str(e)}], in
    particular a required parameter that is missing and a date that does not
    parse; and an iteration of the loop whose reply carried tool calls, of
    whatever names and parameters, goes on to the next iteration. *)
Theorem execute_tool_structured_result (PS : Type) (sv : services PS)
  (cfg : config) (name : string) (params : pyval) :
  (exists d, _execute_tool sv cfg name params = Return (PDict d))
  /\ (registered name = false ->
      _execute_tool sv cfg name params
      = Return (PDict [("error", PStr ("Unknown tool: " ++ name))]))
  /\ (forall e, dispatch sv cfg name params = Raise e ->
      _execute_tool sv cfg name params = Return (PDict [("error", PStr (str e))]))
  /\ (forall t key d,
      In t _define_tools -> In key (required_parameters t) ->
      name = tool_name t -> params = PDict d -> assoc key d = None ->
      _execute_tool sv cfg name params
      = Return (PDict [("error", PStr (squote ++ key ++ squote))]))
  /\ (forall d v e,
      name = "search_by_metadata" \/ name = "count_articles" ->
      params = PDict d -> assoc "date_from" d = Some v -> truthy v = true ->
      fromisoformat sv v = Fail e ->
      _execute_tool sv cfg name params = Return (PDict [("error", PStr (str e))]))
  /\ (forall resp i rest n conversation tool_results (s : state PS),
      fst (call_generate_with_tools sv conversation s) = Return resp ->
      tool_calls resp <> [] ->
      exists turns recs,
        query_loop sv cfg (i :: rest) n conversation tool_results s
        = query_loop sv cfg rest n (conversation ++ turns)%list
            (tool_results ++ recs)%list
            (snd (call_generate_with_tools sv conversation s))
        /\ chat_loop sv cfg (i :: rest) n conversation tool_results s
           = chat_loop sv cfg rest n (conversation ++ turns)%list
               (tool_results ++ recs)%list
               (snd (call_generate_with_tools sv conversation s))
        /\ Forall2 (executed sv cfg) (tool_calls resp) recs).
Proof.
  split; [apply execute_tool_returns|].
  split; [apply execute_tool_unknown|].
  split; [apply execute_tool_failure|].
  split; [intros t key d Ht Hk -> -> Hd; apply execute_tool_missing; assumption|].
  split; [intros d v e Hn -> Hd Hv He; eapply execute_tool_bad_date_from; eassumption|].
  intros resp i rest n conversation tool_results s Hr Hne.
  cbn [query_loop chat_loop].
  destruct (call_generate_with_tools sv conversation s) as [r s1]. cbn in Hr. subst r.
  cbn [try_except fst snd].
  destruct (tool_calls resp) as [|tc tcs] eqn:Etc; [congruence|].
  destruct (run_tool_calls_returns sv cfg resp (tc :: tcs) conversation tool_results)
    as (turns & recs & Hrun & Hex & _).
  exists turns, recs. rewrite Hrun. repeat split. exact Hex.
Qed.

End DispatchFacts.

(** ** The orchestration loop: exhaustion *)

Module LoopFacts.
Import Py Ranker Model MongoDBClient Tools Agent Shapes DispatchFacts Examples.
Local Open Scope string_scope.

Lemma range_length (n : Z) : List.length (range n) = Z.to_nat n.
Proof. unfold range. rewrite length_map, length_seq. reflexivity. Qed.

Section Rounds.
Variable PS : Type.
Variable sv : services PS.
Variable cfg : config.

Lemma run_tool_calls_exchange (resp : response) (pending : list tool_call)
  (conversation : list message) (tool_results : list tool_record) :
  exists recs,
    run_tool_calls sv cfg resp pending conversation tool_results
    = Return ((conversation ++ exchange sv resp (combine pending recs))%list,
              (tool_results ++ recs)%list)
    /\ Forall2 (executed sv cfg) pending recs.
Proof.
  revert conversation tool_results.
  induction pending as [|tc rest IH]; intros conversation tool_results.
  - exists []. cbn. rewrite !app_nil_r. split; [reflexivity|constructor].
  - destruct (execute_tool_returns sv cfg (tc_name tc) (tc_parameters tc)) as [d Hd].
    cbn [run_tool_calls]. rewrite Hd. cbn [bind].
    edestruct IH as (recs & Hrun & Hex).
    rewrite Hrun.
    exists ({| tool := tc_name tc; parameters := tc_parameters tc;
               result_payload := PDict d |} :: recs).
    rewrite <- !app_assoc. split; [reflexivity|].
    constructor; [|exact Hex]. repeat split. exact Hd.
Qed.

Lemma chat_loop_rounds (its : list Z) (n : Z) (conversation : list message)
  (tool_results : list tool_record) (s : state PS) :
  exists rounds,
    rounds_from sv cfg conversation (llm s) rounds
    /\ (List.length rounds <= List.length its)%nat
    /\ chat_loop_ends sv cfg its n conversation tool_results s rounds.
Proof.
  revert conversation tool_results s.
  induction its as [|i rest IH]; intros conversation tool_results s.
  - exists []. split; [exact I|]. split; [cbn; lia|].
    unfold chat_loop_ends, rounds_records. cbn. rewrite !app_nil_r.
    destruct s; reflexivity.
  - destruct (generate_with_tools sv conversation _define_tools (llm s))
      as [r ps] eqn:G.
    assert (Hlast : forall resp', r = Return resp' -> tool_calls resp' = [] ->
              chat_loop_ends sv cfg (i :: rest) n conversation tool_results s []).
    { intros resp' -> Etc. unfold chat_loop_ends, rounds_records.
      cbn [List.length nth_error rounds_conversation rounds_llm rounds_log map
           List.concat].
      rewrite G. cbn [fst snd]. rewrite !app_nil_r. split; [exact Etc|].
      cbn [chat_loop]. unfold call_generate_with_tools. rewrite G, Etc.
      reflexivity. }
    destruct r as [resp|e|c].
    + destruct (tool_calls resp) as [|tc tcs] eqn:Etc.
      * exists []. split; [exact I|]. split; [cbn; lia|].
        apply (Hlast resp eq_refl Etc).
      * clear Hlast.
        destruct (run_tool_calls_exchange resp (tc :: tcs) conversation tool_results)
          as (recs & Hrun & Hex).
        destruct (IH (conversation ++ exchange sv resp (combine (tc :: tcs) recs))%list
                     (tool_results ++ recs)%list
                     {| conversation_history := conversation_history s;
                        llm := ps;
                        calls := (calls s ++ [CallGenerateWithTools conversation
                                               _define_tools (Return resp)])%list |})
          as (rounds & Hfrom & Hlen & Hends).
        exists ((resp, recs) :: rounds).
        cbn [llm] in Hfrom.
        split; [|split].
        -- cbn [rounds_from fst snd]. rewrite G. cbn [fst snd].
           split; [reflexivity|]. split; [rewrite Etc; discriminate|].
           split; [rewrite Etc; exact Hex|].
           unfold after_round. cbn [fst snd]. rewrite Etc. exact Hfrom.
        -- cbn. lia.
        -- unfold chat_loop_ends, rounds_records in *.
           cbn [List.length nth_error rounds_conversation rounds_llm rounds_log
                map List.concat fst snd].
           unfold after_round. cbn [fst snd]. rewrite G. cbn [fst snd]. rewrite Etc.
           cbn [chat_loop]. unfold call_generate_with_tools. rewrite G, Etc.
           rewrite Hrun.
           cbn [llm calls conversation_history] in Hends.
           rewrite <- !app_assoc in Hends. cbn [app] in Hends.
           rewrite <- !app_assoc. cbn [app].
           exact Hends.
    + exists []. split; [exact I|]. split; [cbn; lia|].
      unfold chat_loop_ends, rounds_records.
      cbn [List.length nth_error rounds_conversation rounds_llm rounds_log map
           List.concat].
      rewrite G. cbn [fst snd]. rewrite !app_nil_r.
      cbn [chat_loop]. unfold call_generate_with_tools. rewrite G. reflexivity.
    + exists []. split; [exact I|]. split; [cbn; lia|].
      unfold chat_loop_ends, rounds_records.
      cbn [List.length nth_error rounds_conversation rounds_llm rounds_log map
           List.concat].
      rewrite G. cbn [fst snd]. rewrite !app_nil_r.
      cbn [chat_loop]. unfold call_generate_with_tools. rewrite G. reflexivity.
Qed.



(** The conversation after some rounds is the conversation they started
    from followed by the turns of their exchanges. *)
Lemma rounds_conversation_exchanges (conversation : list message)
  (rounds : list round) :
  rounds_conversation sv conversation rounds
  = (conversation
     ++ flat_map (fun r => exchange sv (fst r) (combine (tool_calls (fst r)) (snd r)))
          rounds)%list.
Proof.
  revert conversation. induction rounds as [|r rest IH]; intros conversation; cbn.
  - rewrite app_nil_r. reflexivity.
  - rewrite IH. unfold after_round. rewrite <- app_assoc. reflexivity.
Qed.



End Rounds.

(** The compression step of [chat] always returns. *)
Lemma maybe_compress_returns (PS : Type) (sv : services PS) (cfg : config)
  (s : state PS) :
  exists s0, maybe_compress sv cfg s = (Return tt, s0).
Proof.
  unfold maybe_compress, _compress_history_with_summary, _truncate_history.
  repeat match goal with
  | |- context [if ?c then _ else _] => destruct c
  end; try (eexists; reflexivity).
  match goal with |- context [call_generate ?sv ?p ?n ?s] =>
    destruct (call_generate sv p n s) as [[summary|e] s1] end;
    eexists; reflexivity.
Qed.




(** The same run, evaluated. *)
Example stub_run_three_iterations :
  let r := fst (query stub_services (cfg_of 5 "summary") "domanda" 3 (start [])) in
  let r' := fst (chat stub_services (cfg_of 5 "summary") "domanda" 3 (start [])) in
  (exists recs, r = Return {| answer := fallback_answer;
                              executed_tool_calls := recs; iterations := 3 |}
                /\ List.length recs = 3)
  /\ (exists recs, r' = Return {| answer := fallback_answer;
                                 executed_tool_calls := recs; iterations := 3 |}
                  /\ List.length recs = 3).
Proof. cbv zeta. split; eexists; split; vm_compute; reflexivity. Qed.

(** A provider that answers at once ends the run at its first iteration. *)
Example final_answer_first_iteration :
  fst (query abc_services (cfg_of 5 "summary") "domanda" 10 (start []))
  = Return {| answer := "X"; executed_tool_calls := []; iterations := 1 |}.
Proof. vm_compute. reflexivity. Qed.

End LoopFacts.

(** ** Metadata search and count *)

Module MetadataFacts.
Import Py Ranker Model MongoDBClient Tools Agent Examples.
Local Open Scope string_scope.

Lemma firstn_all_le {A} (n : nat) (l : list A) :
  (List.length l <= n)%nat -> firstn n l = l.
Proof. intros H. apply firstn_all2, H. Qed.

(** C5: [count_articles] and [search_by_metadata] build the same filter from
    the same parameters (or fail with the same exception), and when the
    documents matching it are not more than the cap of 100 the count of the
    one is the [total_found] of the other.  (The entries listed under
    "articles" are the first 50 of the matching documents.) *)
Theorem count_articles_agrees_with_search (PS : Type) (sv : services PS)
  (params : pyval) :
  count_filters sv params = search_filters sv params
  /\ (forall e, count_filters sv params = Fail e ->
        _tool_count_articles sv params = Fail e
        /\ _tool_search_by_metadata sv params = Fail e)
  /\ (forall f e, count_filters sv params = Done f -> mongo_error sv f = Some e ->
        _tool_count_articles sv params = Fail e
        /\ _tool_search_by_metadata sv params = Fail e)
  /\ (forall f, count_filters sv params = Done f -> mongo_error sv f = None ->
        let matching := filter (mongo_match sv f) (documents sv) in
        (List.length matching <= 100)%nat ->
        _tool_count_articles sv params
        = Done (PDict [("count", PInt (Z.of_nat (List.length matching)));
                       ("filters_used", params)])
        /\ _tool_search_by_metadata sv params
           = Done (PDict [("total_found", PInt (Z.of_nat (List.length matching)));
                          ("filters_used", params);
                          ("articles",
                           PList (map (metadata_entry sv) (firstn 50 matching)))])).
Proof.
  assert (Hsame : count_filters sv params = search_filters sv params) by reflexivity.
  split; [exact Hsame|]. split; [|split].
  - intros e He. unfold _tool_count_articles, _tool_search_by_metadata.
    rewrite <- Hsame, He. split; reflexivity.
  - intros f e Hf He. unfold _tool_count_articles, _tool_search_by_metadata.
    rewrite <- Hsame, Hf. cbn [rbind].
    unfold count_by_filter, collection_count_documents, find_by_filter, collection_find.
    rewrite He. split; reflexivity.
  - intros f Hf He matching Hcap.
    unfold _tool_count_articles, _tool_search_by_metadata.
    rewrite <- Hsame, Hf. cbn [rbind].
    unfold count_by_filter, collection_count_documents, find_by_filter, collection_find.
    rewrite He. cbn [rbind]. fold matching.
    change (0 <? 100)%Z with true. cbn iota.
    rewrite (@firstn_all_le _ (Z.to_nat 100) matching) by (exact Hcap).
    split; reflexivity.
Qed.

(** On the store of the examples every document matches: three are counted
    and three are found. *)
Example count_and_search_three :
  _tool_count_articles abc_services (PDict [("author", PStr "rossi")])
  = Done (PDict [("count", PInt 3);
                 ("filters_used", PDict [("author", PStr "rossi")])])
  /\ exists entries,
       _tool_search_by_metadata abc_services (PDict [("author", PStr "rossi")])
       = Done (PDict [("total_found", PInt 3);
                      ("filters_used", PDict [("author", PStr "rossi")]);
                      ("articles", PList entries)])
       /\ List.length entries = 3.
Proof. split; [reflexivity|]. eexists. split; reflexivity. Qed.

End MetadataFacts.

(** ** The conversation history: compression and what [chat] commits *)

Module HistoryFacts.
Import Py Ranker Model MongoDBClient Tools Agent Shapes DispatchFacts LoopFacts Examples.
Local Open Scope string_scope.

Section History.
Variable PS : Type.
Variable sv : services PS.
Variable cfg : config.

Lemma slice_last_skipn {A} (k : nat) (l : list A) :
  (0 < k)%nat -> slice_last (Z.of_nat k) l = skipn (List.length l - k) l.
Proof.
  intros Hk. unfold slice_last.
  destruct (Z.leb_spec (Z.of_nat k) 0) as [H|H]; [lia|].
  rewrite Nat2Z.id. reflexivity.
Qed.

Lemma slice_but_last_firstn {A} (k : nat) (l : list A) :
  (0 < k)%nat -> slice_but_last (Z.of_nat k) l = firstn (List.length l - k) l.
Proof.
  intros Hk. unfold slice_but_last, slice_to.
  destruct (Z.leb_spec 0 (- Z.of_nat k)) as [H|H]; [lia|].
  rewrite Z.opp_involutive, Nat2Z.id. reflexivity.
Qed.

(** What [_compress_history_with_summary] does to a history of more than six
    turns, by the answer of the summarization call. *)
Lemma compress_with_summary_long (s : state PS) (r : result string) (ps' : PS) :
  (6 < List.length (conversation_history s))%nat ->
  let h := conversation_history s in
  let prompt := summary_prompt (firstn (List.length h - 6) h) in
  generate sv prompt 200 (llm s) = (r, ps') ->
  _compress_history_with_summary sv s
  = (Return tt,
     {| conversation_history :=
          match r with
          | Done summary => summary_turn summary :: skipn (List.length h - 6) h
          | Fail _ => skipn (List.length h - 6) h
          end;
        llm := ps';
        calls := (calls s ++ [CallGenerate prompt 200 r])%list |}).
Proof.
  intros Hlen h prompt Hgen. unfold _compress_history_with_summary.
  destruct (Z.leb_spec (Z.of_nat (List.length (conversation_history s))) 6) as [H|H];
    [lia|].
  change 6%Z with (Z.of_nat 6).
  rewrite slice_last_skipn, slice_but_last_firstn by lia.
  fold h. fold prompt. unfold call_generate. rewrite Hgen.
  destruct r; reflexivity.
Qed.

(** [chat] appends the user turn to the history the compression step left,
    and runs the loop on the system prompt followed by that history. *)
Lemma chat_after_compression (user_query : string) (max_iterations : Z)
  (s s0 : state PS) :
  maybe_compress sv cfg s = (Return tt, s0) ->
  chat sv cfg user_query max_iterations s
  = chat_loop sv cfg (range max_iterations) max_iterations
      (Turn "system" _get_system_prompt
       :: conversation_history s0 ++ [Turn "user" user_query])%list
      []
      (set_history (conversation_history s0 ++ [Turn "user" user_query])%list s0).
Proof. intros H. unfold chat. rewrite H. reflexivity. Qed.
End History.

(** C6: with [max_history_turns = 10] and a history of 24 turns, the
    compression step of [chat], which runs before the user turn is appended,
    leaves under "summary" (the summarization call answering) seven turns: a
    turn of role "system" whose content is the summary the provider gave for
    the first 18 turns, between "[Contesto conversazione precedente: " and
    "]", followed by the last six turns as they were, after that one call to
    the provider; and under "truncate" the last twenty turns, with no call to
    the provider. *)
Theorem compression_of_24_turns (PS : Type) (sv : services PS) (cfg : config)
  (s : state PS) :
  max_history_turns cfg = 10%Z ->
  auto_compress cfg = true ->
  List.length (conversation_history s) = 24 ->
  let h := conversation_history s in
  (compression_strategy cfg = "summary" ->
   forall summary ps',
     generate sv (summary_prompt (firstn 18 h)) 200 (llm s) = (Done summary, ps') ->
     exists s0,
       maybe_compress sv cfg s = (Return tt, s0)
       /\ conversation_history s0
          = Turn "system" ("[Contesto conversazione precedente: " ++ summary ++ "]")
            :: skipn 18 h
       /\ List.length (skipn 18 h) = 6
       /\ (firstn 18 h ++ skipn 18 h)%list = h
       /\ List.length (conversation_history s0) = 7
       /\ llm s0 = ps'
       /\ calls s0
          = (calls s
             ++ [CallGenerate (summary_prompt (firstn 18 h)) 200 (Done summary)])%list)
  /\ (compression_strategy cfg = "truncate" ->
      exists s0,
        maybe_compress sv cfg s = (Return tt, s0)
        /\ conversation_history s0 = skipn 4 h
        /\ List.length (conversation_history s0) = 20
        /\ llm s0 = llm s /\ calls s0 = calls s)
  /\ (forall user_query max_iterations s0,
        maybe_compress sv cfg s = (Return tt, s0) ->
        chat sv cfg user_query max_iterations s
        = chat_loop sv cfg (range max_iterations) max_iterations
            (Turn "system" _get_system_prompt
             :: conversation_history s0 ++ [Turn "user" user_query])%list
            []
            (set_history (conversation_history s0 ++ [Turn "user" user_query])%list s0)).
Proof.
  intros Hmax Hauto Hlen h.
  assert (Htrigger : (auto_compress cfg
            && (max_history_turns cfg * 2 <? Z.of_nat (List.length (conversation_history s)))%Z)
          = true).
  { rewrite Hauto, Hmax, Hlen. reflexivity. }
  split; [|split].
  - intros Hstrat summary ps' Hgen.
    unfold maybe_compress. rewrite Htrigger, Hstrat. cbn [String.eqb Ascii.eqb Bool.eqb andb].
    erewrite compress_with_summary_long; [|lia|rewrite Hlen; exact Hgen].
    rewrite Hlen. cbn [Nat.sub]. fold h.
    eexists. split; [reflexivity|]. cbn [conversation_history llm calls].
    assert (H6 : List.length (skipn 18 h) = 6).
    { rewrite length_skipn. unfold h. rewrite Hlen. reflexivity. }
    split; [reflexivity|]. split; [exact H6|].
    split; [apply firstn_skipn|].
    split; [cbn [List.length]; rewrite H6; reflexivity|].
    split; reflexivity.
  - intros Hstrat.
    unfold maybe_compress. rewrite Htrigger, Hstrat.
    cbn [String.eqb Ascii.eqb Bool.eqb andb].
    unfold _truncate_history. rewrite Hmax, Hlen.
    change (10 * 2 <? Z.of_nat 24)%Z with true. cbn iota.
    change (10 * 2)%Z with (Z.of_nat 20).
    rewrite slice_last_skipn by lia. rewrite Hlen. cbn [Nat.sub]. fold h.
    eexists. split; [reflexivity|]. cbn [set_history conversation_history llm calls].
    repeat split. rewrite length_skipn. unfold h. rewrite Hlen. reflexivity.
  - intros user_query max_iterations s0 Hc. apply chat_after_compression, Hc.
Qed.

Lemma compression_of_24_turns_witness :
  let sv := services_of [docA] answers_X summary_ok in
  let s := start (turns 24) in
  (exists s0,
     maybe_compress sv (cfg_of 5 "summary") s = (Return tt, s0)
     /\ conversation_history s0
        = Turn "system" "[Contesto conversazione precedente: riassunto]"
          :: skipn 18 (turns 24)
     /\ List.length (skipn 18 (turns 24)) = 6
     /\ (firstn 18 (turns 24) ++ skipn 18 (turns 24))%list = turns 24
     /\ List.length (conversation_history s0) = 7
     /\ llm s0 = 1
     /\ calls s0
        = [CallGenerate (summary_prompt (firstn 18 (turns 24))) 200 (Done "riassunto")])
  /\ (exists s0,
        maybe_compress sv (cfg_of 5 "truncate") s = (Return tt, s0)
        /\ conversation_history s0 = skipn 4 (turns 24)
        /\ List.length (conversation_history s0) = 20
        /\ llm s0 = llm s /\ calls s0 = calls s).
Proof.
  cbv zeta. split.
  - apply (proj1 (@compression_of_24_turns nat
                    (services_of [docA] answers_X summary_ok) (cfg_of 5 "summary")
                    (start (turns 24)) eq_refl eq_refl eq_refl) eq_refl "riassunto" 1).
    reflexivity.
  - apply (proj1 (proj2 (@compression_of_24_turns nat
                    (services_of [docA] answers_X summary_ok) (cfg_of 5 "truncate")
                    (start (turns 24)) eq_refl eq_refl eq_refl)) eq_refl).
Defined.

Section ChatLoop.
Variable PS : Type.
Variable sv : services PS.
Variable cfg : config.

(** The loop of [chat] touches the history once, when it returns. *)
Lemma chat_loop_history (its : list Z) (n : Z) (conversation : list message)
  (tool_results : list tool_record) (s : state PS) :
  let p := chat_loop sv cfg its n conversation tool_results s in
  match fst p with
  | Return res =>
      conversation_history (snd p)
      = (conversation_history s ++ [Turn "assistant" (answer res)])%list
  | _ => conversation_history (snd p) = conversation_history s
  end.
Proof.
  revert conversation tool_results s.
  induction its as [|i rest IH]; intros conversation tool_results s; cbn [chat_loop].
  - reflexivity.
  - unfold call_generate_with_tools.
    destruct (generate_with_tools sv conversation _define_tools (llm s)) as [[resp|e|c] ps];
      try reflexivity.
    destruct (tool_calls resp) as [|tc tcs] eqn:Etc; [reflexivity|].
    destruct (run_tool_calls_returns sv cfg resp (tc :: tcs) conversation tool_results)
      as (turns & recs & Hrun & _).
    rewrite Hrun.
    match goal with |- context [chat_loop sv cfg rest n ?c ?t ?st] =>
      specialize (IH c t st)
    end.
    cbn [conversation_history] in IH. exact IH.
Qed.

(** Every call the loop of [chat] makes carries the conversation it started
    from, followed by turns of tool exchanges only. *)
Lemma chat_loop_calls (its : list Z) (n : Z) (conversation : list message)
  (tool_results : list tool_record) (s : state PS) :
  exists new,
    calls (snd (chat_loop sv cfg its n conversation tool_results s))
    = (calls s ++ new)%list
    /\ Forall (fun c => exists turns r,
                 c = CallGenerateWithTools (conversation ++ turns) _define_tools r
                 /\ Forall is_tool_exchange turns) new
    /\ (its <> [] ->
        exists r rest,
          new = CallGenerateWithTools conversation _define_tools r :: rest).
Proof.
  revert conversation tool_results s.
  induction its as [|i rest IH]; intros conversation tool_results s; cbn [chat_loop].
  - exists []. cbn. rewrite app_nil_r. repeat split; [constructor|congruence].
  - unfold call_generate_with_tools.
    destruct (generate_with_tools sv conversation _define_tools (llm s)) as [r ps].
    assert (Hone : forall st : state PS,
      calls st = (calls s ++ [CallGenerateWithTools conversation _define_tools r])%list ->
      exists new,
        calls st = (calls s ++ new)%list
        /\ Forall (fun c => exists turns r,
                     c = CallGenerateWithTools (conversation ++ turns) _define_tools r
                     /\ Forall is_tool_exchange turns) new
        /\ (i :: rest <> [] ->
            exists r rest,
              new = CallGenerateWithTools conversation _define_tools r :: rest)).
    { intros st Hst. eexists. split; [exact Hst|]. split.
      - constructor; [|constructor]. exists [], r. rewrite app_nil_r.
        split; [reflexivity|constructor].
      - intros _. do 2 eexists. reflexivity. }
    destruct r as [resp|e|c]; try (apply Hone; reflexivity).
    destruct (tool_calls resp) as [|tc tcs] eqn:Etc; [apply Hone; reflexivity|].
    destruct (run_tool_calls_returns sv cfg resp (tc :: tcs) conversation tool_results)
      as (turns & recs & Hrun & _ & _ & Hturns).
    rewrite Hrun.
    edestruct IH as (new & Hcalls & Hnew & _).
    rewrite Hcalls. cbn [calls]. rewrite <- app_assoc.
    eexists. split; [reflexivity|]. split.
    + constructor.
      * exists [], (Return resp). rewrite app_nil_r. split; [reflexivity|constructor].
      * eapply Forall_impl; [|exact Hnew].
        intros c (turns' & r' & -> & Ht'). exists (turns ++ turns')%list, r'.
        rewrite app_assoc. split; [reflexivity|].
        apply Forall_app. split; assumption.
    + intros _. do 2 eexists. reflexivity.
Qed.

(** The history the compression step of [chat] leaves is a suffix of the
    history it found, possibly behind a summary turn. *)
Lemma maybe_compress_history (s : state PS) :
  exists s0 k,
    maybe_compress sv cfg s = (Return tt, s0)
    /\ (conversation_history s0 = skipn k (conversation_history s)
        \/ exists summary,
             conversation_history s0
             = summary_turn summary :: skipn k (conversation_history s)).
Proof.
  unfold maybe_compress.
  assert (Hid : exists s0 k, (Return tt, s) = (Return tt, s0) /\
            (conversation_history s0 = skipn k (conversation_history s)
             \/ exists summary,
                  conversation_history s0
                  = summary_turn summary :: skipn k (conversation_history s))).
  { exists s, 0. split; [reflexivity|left; reflexivity]. }
  destruct (auto_compress cfg && _); [|exact Hid].
  destruct (String.eqb (compression_strategy cfg) "summary").
  - unfold _compress_history_with_summary.
    destruct (Z.leb_spec (Z.of_nat (List.length (conversation_history s))) 6)
      as [H|H]; [exact Hid|].
    change 6%Z with (Z.of_nat 6). rewrite slice_last_skipn by lia.
    destruct (call_generate sv _ 200 s) as [[summary|e] s1];
      eexists; eexists; (split; [reflexivity|]); cbn [set_history conversation_history].
    + right. eexists. reflexivity.
    + left. reflexivity.
  - destruct (String.eqb (compression_strategy cfg) "truncate"); [|exact Hid].
    unfold _truncate_history.
    destruct (Z.ltb_spec (max_history_turns cfg * 2)
                (Z.of_nat (List.length (conversation_history s)))) as [H|H];
      [|exact Hid].
    unfold slice_last.
    destruct (max_history_turns cfg * 2 <=? 0)%Z;
      eexists; eexists; (split; [reflexivity|]); left; reflexivity.
Qed.
End ChatLoop.

Lemma range_positive (n : Z) : (0 < n)%Z -> range n <> [].
Proof.
  intros H. unfold range. destruct (Z.to_nat n) eqn:E; [lia|]. cbn. discriminate.
Qed.

Lemma Forall_skipn {A} (P : A -> Prop) (k : nat) (l : list A) :
  Forall P l -> Forall P (skipn k l).
Proof.
  intros H. rewrite <- (firstn_skipn k l) in H. apply Forall_app in H. tauto.
Qed.

(** C7: when the summarization call of a summary compression raises, the
    compression returns (nothing escapes) and leaves exactly the six most
    recent turns; [chat] then goes on with the user's turn: it appends it to
    those six turns and, when [max_iterations] is positive, calls the
    provider with the system prompt, the six turns and the user's turn. *)
Theorem summary_failure_keeps_recent_turns (PS : Type) (sv : services PS)
  (cfg : config) (s : state PS) (e : exception) (ps' : PS) :
  (6 < List.length (conversation_history s))%nat ->
  let h := conversation_history s in
  let recent := skipn (List.length h - 6) h in
  generate sv (summary_prompt (firstn (List.length h - 6) h)) 200 (llm s)
  = (Fail e, ps') ->
  exists s0,
    _compress_history_with_summary sv s = (Return tt, s0)
    /\ conversation_history s0 = recent
    /\ List.length recent = 6
    /\ (auto_compress cfg = true ->
        (max_history_turns cfg * 2 < Z.of_nat (List.length h))%Z ->
        compression_strategy cfg = "summary" ->
        forall user_query max_iterations,
          let working := (Turn "system" _get_system_prompt
                          :: recent ++ [Turn "user" user_query])%list in
          chat sv cfg user_query max_iterations s
          = chat_loop sv cfg (range max_iterations) max_iterations working []
              (set_history (recent ++ [Turn "user" user_query])%list s0)
          /\ ((0 < max_iterations)%Z ->
              exists r rest,
                calls (snd (chat sv cfg user_query max_iterations s))
                = (calls s0
                   ++ CallGenerateWithTools working _define_tools r :: rest)%list)).
Proof.
  intros Hlen h recent Hgen.
  pose proof (compress_with_summary_long sv s Hlen Hgen) as Hc.
  cbv zeta in Hc. fold h in Hc. fold recent in Hc.
  eexists. split; [exact Hc|]. cbn [conversation_history].
  split; [reflexivity|].
  split; [unfold recent; rewrite length_skipn; unfold h; lia|].
  intros Hauto Hmax Hstrat user_query max_iterations.
  assert (Hm : maybe_compress sv cfg s = _compress_history_with_summary sv s).
  { unfold maybe_compress. rewrite Hauto, Hstrat.
    apply Z.ltb_lt in Hmax. fold h. rewrite Hmax. reflexivity. }
  rewrite Hc in Hm.
  rewrite (@chat_after_compression _ sv cfg user_query max_iterations _ _ Hm).
  cbn [conversation_history]. split; [reflexivity|].
  intros Hpos.
  match goal with |- context [chat_loop sv cfg ?its ?n ?c ?t ?st] =>
    destruct (chat_loop_calls sv cfg its n c t st) as (new & Hcalls & _ & Hfirst)
  end.
  destruct (Hfirst (range_positive Hpos)) as (r & rest & ->).
  exists r, rest. exact Hcalls.
Qed.

Lemma summary_failure_keeps_recent_turns_witness :
  let sv := services_of [docA] answers_X summary_fails in
  exists s0,
    _compress_history_with_summary sv (start (turns 24)) = (Return tt, s0)
    /\ conversation_history s0 = skipn 18 (turns 24)
    /\ List.length (skipn 18 (turns 24)) = 6
    /\ fst (chat sv (cfg_of 5 "summary") "domanda" 10 (start (turns 24)))
       = Return {| answer := "X"; executed_tool_calls := []; iterations := 1 |}.
Proof.
  cbv zeta.
  destruct (@summary_failure_keeps_recent_turns nat
              (services_of [docA] answers_X summary_fails) (cfg_of 5 "summary")
              (start (turns 24)) api_down 1) as (s0 & Hc & Hh & Hl & _).
  - cbn. lia.
  - reflexivity.
  - exists s0. split; [exact Hc|]. split; [exact Hh|]. split; [exact Hl|].
    vm_compute. reflexivity.
Defined.

(** The compression step of [chat] does nothing when it is switched off or
    the history is within twice [max_history_turns]. *)
Lemma maybe_compress_skips (PS : Type) (sv : services PS) (cfg : config)
  (s : state PS) :
  auto_compress cfg = false
  \/ (Z.of_nat (List.length (conversation_history s)) <= max_history_turns cfg * 2)%Z ->
  maybe_compress sv cfg s = (Return tt, s).
Proof.
  intros H. unfold maybe_compress.
  destruct H as [-> | H]; [reflexivity|].
  apply Z.ltb_ge in H. rewrite H, andb_false_r. reflexivity.
Qed.

(** C8 (as the code has it): a call of [chat] first runs the compression
    step, which leaves the history as it was when compression is off or the
    history is within twice [max_history_turns], and otherwise leaves a
    suffix of it, possibly behind one summary turn; the run then goes through
    rounds, each a provider call on the conversation of the run, which is the
    system prompt, that history and the user turn followed by the assistant
    and tool turns of all the rounds before it, and ends with at most one
    more provider call on that conversation.  The history gains the user turn
    and, when the call returns, one assistant turn holding the answer, and
    nothing else: the turns of the tool exchanges are in the conversation of
    the run only, and a history without tool turns is still without them
    afterwards. *)
Theorem chat_commits_user_and_answer (PS : Type) (sv : services PS)
  (cfg : config) (user_query : string) (max_iterations : Z) (s : state PS) :
  exists s0 rounds ending,
    let working := (Turn "system" _get_system_prompt
                    :: conversation_history s0 ++ [Turn "user" user_query])%list in
    let p := chat sv cfg user_query max_iterations s in
    maybe_compress sv cfg s = (Return tt, s0)
    /\ (auto_compress cfg = false
        \/ (Z.of_nat (List.length (conversation_history s))
            <= max_history_turns cfg * 2)%Z ->
        s0 = s)
    /\ (exists k,
          conversation_history s0 = skipn k (conversation_history s)
          \/ exists summary,
               conversation_history s0
               = Turn "system"
                   ("[Contesto conversazione precedente: " ++ summary ++ "]")
                 :: skipn k (conversation_history s))
    /\ rounds_from sv cfg working (llm s0) rounds
    /\ (List.length rounds <= Z.to_nat max_iterations)%nat
    /\ rounds_conversation sv working rounds
       = (working
          ++ flat_map (fun r => exchange sv (fst r)
                                  (combine (tool_calls (fst r)) (snd r)))
               rounds)%list
    /\ calls (snd p) = (calls s0 ++ rounds_log sv working rounds ++ ending)%list
    /\ (ending = []
        \/ exists reply,
             ending = [CallGenerateWithTools (rounds_conversation sv working rounds)
                         _define_tools reply])
    /\ conversation_history (snd p)
       = match fst p with
         | Return res =>
             (conversation_history s0
              ++ [Turn "user" user_query; Turn "assistant" (answer res)])%list
         | _ => (conversation_history s0 ++ [Turn "user" user_query])%list
         end
    /\ (forall res, fst p = Return res ->
          executed_tool_calls res = rounds_records rounds)
    /\ (Forall (fun m => role m <> "tool") (conversation_history s) ->
        Forall (fun m => role m <> "tool") (conversation_history (snd p)))
    /\ (Forall (fun m => ~ is_tool_exchange m) (conversation_history s) ->
        Forall (fun m => ~ is_tool_exchange m) (conversation_history (snd p))).
Proof.
  destruct (maybe_compress_history sv cfg s) as (s0 & k & Hm & Hsuffix).
  rewrite (@chat_after_compression _ sv cfg user_query max_iterations _ _ Hm).
  match goal with |- context [chat_loop sv cfg ?its ?n ?c ?t ?st] =>
    destruct (chat_loop_rounds sv cfg its n c t st) as (rounds & Hfrom & Hlen & Hends);
    set (p := chat_loop sv cfg its n c t st) in *
  end.
  unfold chat_loop_ends in Hends. cbv zeta in Hends. fold p in Hends.
  cbn [set_history conversation_history calls llm app] in Hfrom, Hends.
  rewrite range_length in Hlen.
  set (working := (Turn "system" _get_system_prompt
                   :: conversation_history s0 ++ [Turn "user" user_query])%list) in *.
  assert (Hrun : exists ending,
     calls (snd p) = (calls s0 ++ rounds_log sv working rounds ++ ending)%list
     /\ (ending = []
         \/ exists reply,
              ending = [CallGenerateWithTools (rounds_conversation sv working rounds)
                          _define_tools reply])
     /\ conversation_history (snd p)
        = match fst p with
          | Return res =>
              (conversation_history s0
               ++ [Turn "user" user_query; Turn "assistant" (answer res)])%list
          | _ => (conversation_history s0 ++ [Turn "user" user_query])%list
          end
     /\ (forall res, fst p = Return res ->
           executed_tool_calls res = rounds_records rounds)).
  { destruct (nth_error (range max_iterations) (List.length rounds)) as [i|].
    - destruct (generate_with_tools sv (rounds_conversation sv working rounds)
                  _define_tools (rounds_llm sv working (llm s0) rounds))
        as [[resp|e|c] ps']; cbn [fst snd] in Hends;
        [destruct Hends as [_ Hends]|..]; rewrite Hends;
        cbn [fst snd calls conversation_history answer executed_tool_calls];
        (eexists; split; [rewrite <- app_assoc; reflexivity|]);
        (split; [right; eexists; reflexivity|]);
        (split; [rewrite <- ?app_assoc; reflexivity|]);
        intros res Hres; inversion Hres; reflexivity.
    - rewrite Hends.
      cbn [fst snd calls conversation_history answer executed_tool_calls].
      exists []. rewrite app_nil_r. split; [reflexivity|].
      split; [left; reflexivity|]. split; [rewrite <- app_assoc; reflexivity|].
      intros res Hres. inversion Hres. reflexivity. }
  destruct Hrun as (ending & Hcalls & Hending & Hhist & Hrecs).
  exists s0, rounds, ending. cbv zeta.
  assert (Hkeep : forall P : message -> Prop,
            (forall summary, P (summary_turn summary)) ->
            (forall r c, r <> "tool" -> P (Turn r c)) ->
            Forall P (conversation_history s) ->
            Forall P (conversation_history (snd p))).
  { intros P Psum Pturn HP.
    assert (H0 : Forall P (conversation_history s0)).
    { destruct Hsuffix as [-> | [summary ->]].
      - apply Forall_skipn, HP.
      - constructor; [apply Psum|apply Forall_skipn, HP]. }
    rewrite Hhist. destruct (fst p); apply Forall_app; split; try exact H0;
      repeat constructor; apply Pturn; discriminate. }
  split; [exact Hm|]. split.
  { intros Hskip. pose proof (maybe_compress_skips sv cfg s Hskip) as E.
    rewrite Hm in E. inversion E. reflexivity. }
  split; [exists k; exact Hsuffix|].
  split; [exact Hfrom|]. split; [exact Hlen|].
  split; [apply rounds_conversation_exchanges|]. split; [exact Hcalls|].
  split; [exact Hending|]. split; [exact Hhist|]. split; [exact Hrecs|]. split.
  - apply Hkeep.
    + intros summary. cbn. discriminate.
    + intros r c Hr. exact Hr.
  - apply Hkeep.
    + intros summary H. exact H.
    + intros r c _ H. exact H.
Qed.

(** C8 (as stated) fails when the compression step fires: a call of [chat]
    on a history of 24 turns leaves, under "summary", nine turns, the summary
    turn, the last six turns, the user turn and the answer, which is not the
    24 turns with two more; under "truncate" it leaves 22. *)
Lemma chat_compression_replaces_turns :
  let s := start (turns 24) in
  let p := chat abc_services (cfg_of 5 "summary") "domanda" 10 s in
  let p' := chat abc_services (cfg_of 5 "truncate") "domanda" 10 s in
  fst p = Return {| answer := "X"; executed_tool_calls := []; iterations := 1 |}
  /\ List.length (conversation_history s) = 24
  /\ conversation_history (snd p)
     = (Turn "system" "[Contesto conversazione precedente: riassunto]"
        :: skipn 18 (turns 24)
        ++ [Turn "user" "domanda"; Turn "assistant" "X"])%list
  /\ List.length (conversation_history (snd p)) = 9
  /\ conversation_history (snd p)
     <> (conversation_history s
         ++ [Turn "user" "domanda"; Turn "assistant" "X"])%list
  /\ List.length (conversation_history (snd p')) = 22.
Proof.
  cbv zeta.
  split; [vm_compute; reflexivity|]. split; [reflexivity|].
  split; [vm_compute; reflexivity|]. split; [vm_compute; reflexivity|].
  split; [|vm_compute; reflexivity].
  intros H. apply (f_equal (@List.length message)) in H. vm_compute in H.
  discriminate H.
Qed.

End HistoryFacts.

(** ** Failure of the completion provider *)

Module ProviderFailureFacts.
Import Py Ranker Model MongoDBClient Tools Agent DispatchFacts Examples.
Local Open Scope string_scope.

(** [OpenAIClient.generate_with_tools] turns a failure of the API call into
    an exit of the process (or into the [AttributeError] of its handler). *)
Lemma openai_failure_exits (PS : Type)
  (create : list message -> list OpenAIClient.openai_tool -> PS
            -> result OpenAIClient.completion * PS)
  (json_loads : string -> result pyval)
  (messages : list message) (tools : list tool_spec) (ps : PS) (e : exception) :
  fst (create messages (map OpenAIClient.to_openai_tool tools) ps) = Fail e ->
  fst (OpenAIClient.generate_with_tools create json_loads messages tools ps)
  = log_and_exit e.
Proof.
  intros H. unfold OpenAIClient.generate_with_tools.
  destruct (create messages (map OpenAIClient.to_openai_tool tools) ps) as [r ps'].
  cbn in H. subst r. cbn. unfold log_and_exit. destruct (message_attr e); reflexivity.
Qed.



End ProviderFailureFacts.

(** ** The copy [get_chat_history] returns *)

Module HeapFacts.
Import Py Model Heap.
Local Open Scope string_scope.

Lemma agrees_below_refl_alloc (o : object) (h : heap) :
  agrees_below (next h) h (snd (alloc o h)).
Proof.
  split; cbn; [lia|]. intros l Hl.
  destruct (Nat.eqb_spec l (next h)); [lia|reflexivity].
Qed.

Lemma agrees_below_store (n : loc) (o : object) (h h' : heap) :
  agrees_below n h h' -> agrees_below n h (store n o h').
Proof.
  intros [Hn Hl]. split; cbn; [exact Hn|]. intros l Hlt.
  destruct (Nat.eqb_spec l n); [lia|apply Hl, Hlt].
Qed.

Lemma agrees_below_alloc (n : loc) (o : object) (h h' : heap) :
  agrees_below n h h' -> agrees_below n h (snd (alloc o h')).
Proof.
  intros [Hn Hl]. split; cbn; [lia|]. intros l Hlt.
  destruct (Nat.eqb_spec l (next h')); [lia|apply Hl, Hlt].
Qed.

(** A mutation of the list object at [n] leaves everything below [n] as it
    was. *)
Lemma mutate_list_agrees (n : loc) (m : mutation) (h h' : heap) :
  is_list_mutation m = true ->
  agrees_below n h h' -> agrees_below n h (mutate n m h').
Proof.
  intros Hm Ha. unfold mutate.
  destruct (objects h' n) as [[items|t]|]; try exact Ha.
  destruct m; try discriminate Hm.
  - apply agrees_below_store. apply (agrees_below_alloc (OTurn turn) Ha).
  - destruct (Nat.ltb i (List.length items)); [|exact Ha].
    apply agrees_below_store. apply (agrees_below_alloc (OTurn turn) Ha).
  - apply agrees_below_store, Ha.
  - apply agrees_below_store, Ha.
  - apply agrees_below_store, Ha.
Qed.

Lemma mutate_all_list_agrees (n : loc) (ms : list mutation) (h h' : heap) :
  Forall (fun m => is_list_mutation m = true) ms ->
  agrees_below n h h' -> agrees_below n h (mutate_all n ms h').
Proof.
  intros Hms. revert h'. induction Hms as [|m ms Hm Hms IH]; intros h' Ha; cbn.
  - exact Ha.
  - apply IH. apply mutate_list_agrees; assumption.
Qed.

Lemma read_turns_below (h : heap) (items : list loc) (turns : list message) :
  well_formed h -> read_turns h items = Some turns ->
  Forall (fun l => l < next h) items.
Proof.
  intros Hwf. revert turns. induction items as [|l items IH]; intros turns H.
  - constructor.
  - cbn in H. destruct (objects h l) as [[?|t]|] eqn:E; try discriminate H.
    destruct (read_turns h items) as [ts|] eqn:E'; try discriminate H.
    constructor; [|eapply IH; reflexivity].
    destruct (Nat.lt_ge_cases l (next h)) as [Hlt|Hge]; [exact Hlt|].
    rewrite (Hwf l Hge) in E. discriminate E.
Qed.

Lemma read_turns_agree (n : loc) (h h' : heap) (items : list loc) :
  agrees_below n h h' -> Forall (fun l => l < n) items ->
  read_turns h' items = read_turns h items.
Proof.
  intros [_ Hl] Hitems. induction Hitems as [|l items Hlt Hitems IH]; cbn.
  - reflexivity.
  - rewrite (Hl l Hlt), IH. reflexivity.
Qed.

Lemma read_history_agree (n : loc) (h h' : heap) (l : loc) (turns : list message) :
  well_formed h -> n = next h -> agrees_below n h h' ->
  read_history h l = Some turns -> read_history h' l = Some turns.
Proof.
  intros Hwf -> Ha H. unfold read_history in *.
  destruct (objects h l) as [[items|t]|] eqn:E; try discriminate H.
  assert (Hlt : l < next h).
  { destruct (Nat.lt_ge_cases l (next h)) as [Hlt|Hge]; [exact Hlt|].
    rewrite (Hwf l Hge) in E. discriminate E. }
  rewrite (proj2 Ha l Hlt), E.
  rewrite (read_turns_agree Ha (read_turns_below items Hwf H)). exact H.
Qed.

Lemma heap_of_well_formed (turns : list message) : well_formed (heap_of turns).
Proof.
  intros l Hl. unfold heap_of in *. cbn [objects next] in *.
  destruct (Nat.ltb_spec l (List.length turns)); [lia|].
  destruct (Nat.eqb_spec l (List.length turns)); [lia|reflexivity].
Qed.

(** C10 (as the code has it): [get_chat_history] returns a new list object
    holding the turns of the stored history; whatever the caller does to
    that list (appending, replacing, deleting items, clearing, reversing it)
    leaves the stored history as it was. *)
Theorem history_copy_protects_list (h : heap) (self_history : loc)
  (turns : list message) (ms : list mutation) :
  well_formed h ->
  read_history h self_history = Some turns ->
  Forall (fun m => is_list_mutation m = true) ms ->
  exists r h1,
    get_chat_history self_history h = Some (r, h1)
    /\ r <> self_history
    /\ read_history h1 r = Some turns
    /\ read_history h1 self_history = Some turns
    /\ read_history (mutate_all r ms h1) self_history = Some turns.
Proof.
  intros Hwf Hread Hms.
  unfold get_chat_history, list_copy.
  pose proof Hread as Hread'. unfold read_history in Hread'.
  destruct (objects h self_history) as [[items|t]|] eqn:E; try discriminate Hread'.
  exists (next h), (snd (alloc (OList items) h)).
  assert (Hlt : self_history < next h).
  { destruct (Nat.lt_ge_cases self_history (next h)) as [Hlt|Hge]; [exact Hlt|].
    rewrite (Hwf _ Hge) in E. discriminate E. }
  pose proof (agrees_below_refl_alloc (OList items) h) as Ha.
  split; [reflexivity|]. split; [lia|]. split; [|split].
  - unfold read_history. cbn [alloc snd objects]. rewrite Nat.eqb_refl.
    change (read_turns (snd (alloc (OList items) h)) items = Some turns).
    rewrite (read_turns_agree Ha (read_turns_below items Hwf Hread')). exact Hread'.
  - apply (read_history_agree self_history Hwf eq_refl Ha Hread).
  - apply (read_history_agree self_history Hwf eq_refl
             (mutate_all_list_agrees Hms Ha) Hread).
Qed.

Lemma history_copy_protects_list_witness :
  exists r h1,
    get_chat_history 2 (heap_of [Turn "user" "ciao"; Turn "assistant" "salve"])
    = Some (r, h1)
    /\ r <> 2
    /\ read_history h1 r = Some [Turn "user" "ciao"; Turn "assistant" "salve"]
    /\ read_history h1 2 = Some [Turn "user" "ciao"; Turn "assistant" "salve"]
    /\ read_history
         (mutate_all r [Append (Turn "user" "x"); DelItem 0; Reverse; Clear] h1) 2
       = Some [Turn "user" "ciao"; Turn "assistant" "salve"].
Proof.
  apply (@history_copy_protects_list
           (heap_of [Turn "user" "ciao"; Turn "assistant" "salve"]) 2
           [Turn "user" "ciao"; Turn "assistant" "salve"]
           [Append (Turn "user" "x"); DelItem 0; Reverse; Clear]).
  - apply heap_of_well_formed.
  - reflexivity.
  - repeat constructor.
Defined.

(** C10 (as stated) fails: the list returned holds the stored turn objects
    themselves, so assigning to the content of a turn reached through the
    copy changes the stored history. *)
Lemma history_copy_shares_turns :
  exists r h1,
    get_chat_history 1 (heap_of [Turn "user" "ciao"]) = Some (r, h1)
    /\ read_history h1 1 = Some [Turn "user" "ciao"]
    /\ read_history (mutate r (SetContent 0 "altered") h1) 1
       = Some [Turn "user" "altered"].
Proof.
  eexists. eexists. split; [reflexivity|]. split; reflexivity.
Qed.

End HeapFacts.

(** ** More on the loop: what a run adds, how many calls it makes *)

Module LoopExtras.
Import Py Ranker Model MongoDBClient Tools Agent Shapes DispatchFacts LoopFacts
  HistoryFacts Examples.
Local Open Scope string_scope.

Section Runs.
Variable PS : Type.
Variable sv : services PS.
Variable cfg : config.

(** X1: for a reply that asks for several tools, the loop body records one
    result per call, in order, and adds to the conversation of the run, for
    each call, an assistant turn echoing the whole batch followed by the tool
    turn of that call: a batch of [m] calls adds [m] copies of the assistant
    turn. *)
Theorem tool_exchange_turns (resp : response) (pending : list tool_call)
  (conversation : list message) (tool_results : list tool_record) :
  exists recs,
    run_tool_calls sv cfg resp pending conversation tool_results
    = Return ((conversation ++ exchange sv resp (combine pending recs))%list,
              (tool_results ++ recs)%list)
    /\ Forall2 (executed sv cfg) pending recs
    /\ List.length (exchange sv resp (combine pending recs))
       = 2 * List.length pending.
Proof.
  revert conversation tool_results.
  induction pending as [|tc rest IH]; intros conversation tool_results.
  - exists []. cbn. rewrite !app_nil_r. repeat split. constructor.
  - destruct (execute_tool_returns sv cfg (tc_name tc) (tc_parameters tc)) as [d Hd].
    cbn [run_tool_calls]. rewrite Hd. cbn [bind].
    edestruct IH as (recs & Hrun & Hex & Hlen).
    rewrite Hrun.
    exists ({| tool := tc_name tc; parameters := tc_parameters tc;
               result_payload := PDict d |} :: recs).
    rewrite <- !app_assoc. split; [reflexivity|]. split.
    + constructor; [|exact Hex]. repeat split. exact Hd.
    + cbn [combine exchange flat_map] in *. cbn [List.length app]. 
      unfold exchange in Hlen. rewrite Hlen. cbn. lia.
Qed.

Lemma query_loop_trace (its : list Z) (n : Z) (conversation : list message)
  (tool_results : list tool_record) (s : state PS) :
  let p := query_loop sv cfg its n conversation tool_results s in
  exists new,
    calls (snd p) = (calls s ++ new)%list
    /\ (List.length new <= List.length its)%nat
    /\ Forall is_tools_call new
    /\ conversation_history (snd p) = conversation_history s
    /\ match fst p with
       | Return res =>
           (List.length new = List.length its
            /\ answer res = fallback_answer /\ iterations res = n)
           \/ (exists front last resp i,
                 new = (front ++ [last])%list
                 /\ is_final_reply last resp
                 /\ answer res = content resp
                 /\ nth_error its (List.length front) = Some i
                 /\ iterations res = (i + 1)%Z)
       | _ => exists front last, new = (front ++ [last])%list /\ is_failed_call last
       end.
Proof.
  revert conversation tool_results s.
  induction its as [|i rest IH]; intros conversation tool_results s; cbn [query_loop].
  - exists []. cbn. rewrite app_nil_r. split; [reflexivity|]. split; [lia|].
    split; [constructor|]. split; [reflexivity|].
    left. split; [reflexivity|]. split; reflexivity.
  - unfold call_generate_with_tools.
    destruct (generate_with_tools sv conversation _define_tools (llm s)) as [r ps].
    destruct r as [resp|e|c]; cbn [try_except].
    + destruct (tool_calls resp) as [|tc tcs] eqn:Etc.
      * eexists [_]. cbn [fst snd calls conversation_history List.length].
        split; [reflexivity|]. split; [lia|]. split; [repeat constructor|].
        split; [reflexivity|]. right.
        exists [], (CallGenerateWithTools conversation _define_tools (Return resp)),
          resp, i.
        repeat split. exists conversation. split; [reflexivity|exact Etc].
      * destruct (run_tool_calls_returns sv cfg resp (tc :: tcs) conversation
                    tool_results) as (turns & recs & Hrun & _).
        rewrite Hrun.
        match goal with |- context [query_loop sv cfg rest n ?c ?t ?st] =>
          destruct (IH c t st) as (new & Hcalls & Hlen & Htools & Hhist & Hres);
          set (p := query_loop sv cfg rest n c t st) in *
        end.
        cbn [calls conversation_history] in Hcalls, Hhist.
        exists (CallGenerateWithTools conversation _define_tools (Return resp) :: new).
        split; [rewrite Hcalls, <- app_assoc; reflexivity|].
        split; [cbn; lia|]. split; [constructor; [reflexivity|exact Htools]|].
        split; [exact Hhist|].
        destruct (fst p) as [res|e|c].
        -- destruct Hres as [(H1 & H2 & H3)|(front & last & resp' & j & H1 & H2 & H3 & H4 & H5)].
           ++ left. cbn. repeat split; [lia|assumption|assumption].
           ++ right. exists (CallGenerateWithTools conversation _define_tools (Return resp)
                             :: front), last, resp', j.
              subst new. repeat split; assumption.
        -- destruct Hres as (front & last & -> & Hf).
           exists (CallGenerateWithTools conversation _define_tools (Return resp) :: front),
             last. split; [reflexivity|exact Hf].
        -- destruct Hres as (front & last & -> & Hf).
           exists (CallGenerateWithTools conversation _define_tools (Return resp) :: front),
             last. split; [reflexivity|exact Hf].
    + exists [CallGenerateWithTools conversation _define_tools (Raise e)].
      unfold log_and_exit. destruct (message_attr e);
        cbn [fst snd calls conversation_history List.length];
        (split; [reflexivity|]); (split; [lia|]);
        (split; [repeat constructor|]); (split; [reflexivity|]);
        exists [], (CallGenerateWithTools conversation _define_tools (Raise e));
        (split; [reflexivity|exact I]).
    + exists [CallGenerateWithTools conversation _define_tools (SysExit c)].
      cbn [fst snd calls conversation_history List.length].
      split; [reflexivity|]. split; [lia|]. split; [repeat constructor|].
      split; [reflexivity|].
      exists [], (CallGenerateWithTools conversation _define_tools (SysExit c)).
      split; [reflexivity|exact I].
Qed.

Lemma chat_loop_trace (its : list Z) (n : Z) (conversation : list message)
  (tool_results : list tool_record) (s : state PS) :
  let p := chat_loop sv cfg its n conversation tool_results s in
  exists new,
    calls (snd p) = (calls s ++ new)%list
    /\ (List.length new <= List.length its)%nat
    /\ Forall is_tools_call new
    /\ match fst p with
       | Return res =>
           (List.length new = List.length its
            /\ answer res = fallback_answer /\ iterations res = n)
           \/ (exists front last resp i,
                 new = (front ++ [last])%list
                 /\ is_final_reply last resp
                 /\ answer res = content resp
                 /\ nth_error its (List.length front) = Some i
                 /\ iterations res = (i + 1)%Z)
       | _ => exists front last, new = (front ++ [last])%list /\ is_failed_call last
       end.
Proof.
  revert conversation tool_results s.
  induction its as [|i rest IH]; intros conversation tool_results s; cbn [chat_loop].
  - exists []. cbn. rewrite app_nil_r. split; [reflexivity|]. split; [lia|].
    split; [constructor|].
    left. split; [reflexivity|]. split; reflexivity.
  - unfold call_generate_with_tools.
    destruct (generate_with_tools sv conversation _define_tools (llm s)) as [r ps].
    destruct r as [resp|e|c].
    + destruct (tool_calls resp) as [|tc tcs] eqn:Etc.
      * eexists [_]. cbn [fst snd calls set_history List.length].
        split; [reflexivity|]. split; [lia|]. split; [repeat constructor|].
        right.
        exists [], (CallGenerateWithTools conversation _define_tools (Return resp)),
          resp, i.
        repeat split. exists conversation. split; [reflexivity|exact Etc].
      * destruct (run_tool_calls_returns sv cfg resp (tc :: tcs) conversation
                    tool_results) as (turns & recs & Hrun & _).
        rewrite Hrun.
        match goal with |- context [chat_loop sv cfg rest n ?c ?t ?st] =>
          destruct (IH c t st) as (new & Hcalls & Hlen & Htools & Hres);
          set (p := chat_loop sv cfg rest n c t st) in *
        end.
        cbn [calls] in Hcalls.
        exists (CallGenerateWithTools conversation _define_tools (Return resp) :: new).
        split; [rewrite Hcalls, <- app_assoc; reflexivity|].
        split; [cbn; lia|]. split; [constructor; [reflexivity|exact Htools]|].
        destruct (fst p) as [res|e|c].
        -- destruct Hres as [(H1 & H2 & H3)|(front & last & resp' & j & H1 & H2 & H3 & H4 & H5)].
           ++ left. cbn. repeat split; [lia|assumption|assumption].
           ++ right. exists (CallGenerateWithTools conversation _define_tools (Return resp)
                             :: front), last, resp', j.
              subst new. repeat split; assumption.
        -- destruct Hres as (front & last & -> & Hf).
           exists (CallGenerateWithTools conversation _define_tools (Return resp) :: front),
             last. split; [reflexivity|exact Hf].
        -- destruct Hres as (front & last & -> & Hf).
           exists (CallGenerateWithTools conversation _define_tools (Return resp) :: front),
             last. split; [reflexivity|exact Hf].
    + exists [CallGenerateWithTools conversation _define_tools (Raise e)].
      cbn [fst snd calls List.length].
      split; [reflexivity|]. split; [lia|]. split; [repeat constructor|].
      exists [], (CallGenerateWithTools conversation _define_tools (Raise e)).
      split; [reflexivity|exact I].
    + exists [CallGenerateWithTools conversation _define_tools (SysExit c)].
      cbn [fst snd calls List.length].
      split; [reflexivity|]. split; [lia|]. split; [repeat constructor|].
      exists [], (CallGenerateWithTools conversation _define_tools (SysExit c)).
      split; [reflexivity|exact I].
Qed.


(** X2: [query] never touches the conversation history and never asks the
    provider for a summary, whatever the provider replies and however the run
    ends. *)
Theorem query_leaves_history (user_query : string) (max_iterations : Z)
  (s : state PS) :
  let p := query sv cfg user_query max_iterations s in
  conversation_history (snd p) = conversation_history s
  /\ exists new,
       calls (snd p) = (calls s ++ new)%list /\ Forall is_tools_call new.
Proof.
  cbv zeta. unfold query.
  match goal with |- context [query_loop sv cfg ?its ?n ?c ?t ?st] =>
    destruct (query_loop_trace its n c t st)
      as (new & Hcalls & _ & Htools & Hhist & _)
  end.
  split; [exact Hhist|]. exists new. split; assumption.
Qed.

End Runs.

Lemma maybe_compress_bound (PS : Type) (sv : services PS) (cfg : config)
  (s s0 : state PS) :
  auto_compress cfg = true ->
  compression_strategy cfg = "summary" \/ compression_strategy cfg = "truncate" ->
  (0 < max_history_turns cfg)%Z ->
  maybe_compress sv cfg s = (Return tt, s0) ->
  (List.length (conversation_history s0) <= compressed_bound cfg)%nat.
Proof.
  intros Hauto Hstrat Hmax. unfold maybe_compress, compressed_bound.
  rewrite Hauto. cbn [andb].
  destruct (Z.ltb_spec (max_history_turns cfg * 2)
              (Z.of_nat (List.length (conversation_history s)))) as [Hlt|Hge].
  - destruct Hstrat as [-> | ->]; cbn [String.eqb Ascii.eqb Bool.eqb andb].
    + unfold _compress_history_with_summary.
      destruct (Z.leb_spec (Z.of_nat (List.length (conversation_history s))) 6)
        as [H6|H6].
      * intros H. inversion H; subst. lia.
      * change 6%Z with (Z.of_nat 6). rewrite slice_last_skipn by lia.
        destruct (call_generate sv _ 200 s) as [[summary|e] s1];
          intros H; inversion H; subst; cbn [set_history conversation_history];
          cbn [List.length]; rewrite length_skipn; lia.
    + unfold _truncate_history.
      destruct (Z.ltb_spec (max_history_turns cfg * 2)
                  (Z.of_nat (List.length (conversation_history s)))) as [_|Hc]; [|lia].
      intros H. inversion H; subst. cbn [set_history conversation_history].
      replace (max_history_turns cfg * 2)%Z
        with (Z.of_nat (Z.to_nat (max_history_turns cfg * 2))) by lia.
      rewrite slice_last_skipn by lia. rewrite length_skipn, Nat2Z.id. lia.
  - intros H. inversion H; subst. lia.
Qed.

(** X4: with compression on, a strategy of "summary" or "truncate" and a
    positive [max_history_turns], the history after any call of [chat] holds
    at most [max(2 * max_history_turns, 7) + 2] turns, whatever its length
    before and however the run ends. *)
Theorem chat_history_bounded (PS : Type) (sv : services PS) (cfg : config)
  (user_query : string) (max_iterations : Z) (s : state PS) :
  auto_compress cfg = true ->
  compression_strategy cfg = "summary" \/ compression_strategy cfg = "truncate" ->
  (0 < max_history_turns cfg)%Z ->
  (List.length
     (conversation_history (snd (chat sv cfg user_query max_iterations s)))
   <= compressed_bound cfg + 2)%nat.
Proof.
  intros Hauto Hstrat Hmax.
  destruct (maybe_compress_returns sv cfg s) as [s0 Hm].
  pose proof (@maybe_compress_bound _ sv cfg s s0 Hauto Hstrat Hmax Hm) as Hb.
  rewrite (@chat_after_compression _ sv cfg user_query max_iterations _ _ Hm).
  match goal with |- context [chat_loop sv cfg ?its ?n ?c ?t ?st] =>
    pose proof (chat_loop_history sv cfg its n c t st) as Hh;
    set (p := chat_loop sv cfg its n c t st) in *
  end.
  cbv zeta in Hh. cbn [set_history conversation_history] in Hh.
  destruct (fst p); rewrite Hh, ?length_app; cbn [List.length]; lia.
Qed.

Lemma chat_history_bounded_witness :
  (List.length
     (conversation_history
        (snd (chat stub_services (cfg_of 5 "truncate") "domanda" 2 (start (turns 40)))))
   <= compressed_bound (cfg_of 5 "truncate") + 2)%nat.
Proof.
  apply (@chat_history_bounded nat stub_services (cfg_of 5 "truncate") "domanda" 2
           (start (turns 40))).
  - reflexivity.
  - right. reflexivity.
  - reflexivity.
Defined.

(** X5: after [reset_chat] the compression step of the next [chat] changes
    nothing and calls nothing, for every configuration; the history after
    that [chat] is the user turn, followed by the assistant turn when the call
    returns, and the first provider call carries the system prompt and the
    user turn alone. *)
Theorem chat_after_reset (PS : Type) (sv : services PS) (cfg : config)
  (user_query : string) (max_iterations : Z) (s : state PS) :
  maybe_compress sv cfg (reset_chat s) = (Return tt, reset_chat s)
  /\ (let p := chat sv cfg user_query max_iterations (reset_chat s) in
      conversation_history (snd p)
      = match fst p with
        | Return res => [Turn "user" user_query; Turn "assistant" (answer res)]
        | _ => [Turn "user" user_query]
        end
      /\ exists new,
           calls (snd p) = (calls s ++ new)%list
           /\ Forall is_tools_call new
           /\ ((0 < max_iterations)%Z ->
               exists r rest,
                 new = CallGenerateWithTools
                         [Turn "system" _get_system_prompt; Turn "user" user_query]
                         _define_tools r :: rest)).
Proof.
  assert (Hm : maybe_compress sv cfg (reset_chat s) = (Return tt, reset_chat s)).
  { unfold maybe_compress.
    destruct (auto_compress cfg && _); [|reflexivity].
    destruct (String.eqb (compression_strategy cfg) "summary").
    - unfold _compress_history_with_summary.
      cbn [reset_chat set_history conversation_history List.length].
      change (Z.of_nat 0 <=? 6)%Z with true. reflexivity.
    - destruct (String.eqb (compression_strategy cfg) "truncate"); [|reflexivity].
      unfold _truncate_history.
      cbn [reset_chat set_history conversation_history List.length llm calls].
      destruct (max_history_turns cfg * 2 <? Z.of_nat 0)%Z; [|reflexivity].
      unfold slice_last.
      destruct (max_history_turns cfg * 2 <=? 0)%Z; rewrite skipn_nil; reflexivity. }
  split; [exact Hm|]. cbv zeta.
  rewrite (@chat_after_compression _ sv cfg user_query max_iterations _ _ Hm).
  cbn [reset_chat set_history conversation_history app llm calls].
  match goal with |- context [chat_loop sv cfg ?its ?n ?c ?t ?st] =>
    pose proof (chat_loop_history sv cfg its n c t st) as Hh;
    destruct (chat_loop_trace sv cfg its n c t st)
      as (new & Hcalls & _ & Htools & _);
    destruct (chat_loop_calls sv cfg its n c t st) as (new' & Hcalls' & _ & Hfirst);
    set (p := chat_loop sv cfg its n c t st) in *
  end.
  cbv zeta in Hh. cbn [conversation_history calls] in Hh, Hcalls, Hcalls'.
  split; [destruct (fst p); exact Hh|].
  exists new. split; [exact Hcalls|]. split; [exact Htools|].
  intros Hpos. destruct (Hfirst (range_positive Hpos)) as (r & rest & Hn).
  exists r, rest. rewrite Hcalls in Hcalls'. apply app_inv_head in Hcalls'.
  congruence.
Qed.

(** X20: the compression step of [chat] always returns; it keeps a suffix of
    the history, in order and unchanged, possibly behind one summary turn;
    it never calls [generate_with_tools] and calls [generate] at most once,
    and only under "summary" with more than six turns above the threshold.
    When compression is off or the history is within [2 * max_history_turns]
    nothing changes; under "truncate" with [max_history_turns = 0] the
    history is kept whole ([history[-0:]] is the full list). *)
Theorem compression_effects (PS : Type) (sv : services PS) (cfg : config)
  (s : state PS) :
  let h := conversation_history s in
  exists s0 k new,
    maybe_compress sv cfg s = (Return tt, s0)
    /\ (conversation_history s0 = skipn k h
        \/ exists summary, conversation_history s0 = summary_turn summary :: skipn k h)
    /\ calls s0 = (calls s ++ new)%list
    /\ (new = []
        \/ (exists prompt r, new = [CallGenerate prompt 200 r])
           /\ compression_strategy cfg = "summary"
           /\ (6 < List.length h)%nat
           /\ (max_history_turns cfg * 2 < Z.of_nat (List.length h))%Z)
    /\ (auto_compress cfg = false
        \/ (Z.of_nat (List.length h) <= max_history_turns cfg * 2)%Z -> s0 = s)
    /\ (compression_strategy cfg = "truncate" -> max_history_turns cfg = 0%Z ->
        conversation_history s0 = h).
Proof.
  cbv zeta. unfold maybe_compress.
  assert (Hid : forall P : Prop,
    exists s0 k new,
      (Return tt, s) = (Return tt, s0)
      /\ (conversation_history s0 = skipn k (conversation_history s)
          \/ exists summary,
               conversation_history s0
               = summary_turn summary :: skipn k (conversation_history s))
      /\ calls s0 = (calls s ++ new)%list
      /\ (new = []
          \/ (exists prompt r, new = [CallGenerate prompt 200 r])
             /\ compression_strategy cfg = "summary"
             /\ (6 < List.length (conversation_history s))%nat
             /\ (max_history_turns cfg * 2
                 < Z.of_nat (List.length (conversation_history s)))%Z)
      /\ (P -> s0 = s)
      /\ (compression_strategy cfg = "truncate" -> max_history_turns cfg = 0%Z ->
          conversation_history s0 = conversation_history s)).
  { intros P. exists s, 0, []. rewrite app_nil_r. cbn [skipn].
    repeat split; auto. }
  destruct (auto_compress cfg) eqn:Hauto; cbn [andb]; [|apply Hid].
  destruct (Z.ltb_spec (max_history_turns cfg * 2)
              (Z.of_nat (List.length (conversation_history s)))) as [Hlt|Hge];
    [|apply Hid].
  destruct (String.eqb_spec (compression_strategy cfg) "summary") as [Hs|Hs].
  - unfold _compress_history_with_summary.
    destruct (Z.leb_spec (Z.of_nat (List.length (conversation_history s))) 6)
      as [H6|H6].
    + apply Hid.
    + change 6%Z with (Z.of_nat 6). rewrite slice_last_skipn by lia.
      unfold call_generate.
      destruct (generate sv _ 200 (llm s)) as [[summary|e] ps];
        eexists; eexists; eexists; (split; [reflexivity|]);
        cbn [set_history conversation_history calls];
        (split; [first [right; eexists; reflexivity|left; reflexivity]|]);
        (split; [reflexivity|]);
        (split; [right; split; [do 2 eexists; reflexivity|];
                 split; [exact Hs|]; split; lia|]);
        (split; [intros [Hf|Hf]; [discriminate Hf|lia]|]);
        intros Ht; rewrite Hs in Ht; discriminate Ht.
  - destruct (String.eqb_spec (compression_strategy cfg) "truncate") as [Ht|Ht].
    + unfold _truncate_history.
      destruct (Z.ltb_spec (max_history_turns cfg * 2)
                  (Z.of_nat (List.length (conversation_history s)))) as [_|Hc]; [|lia].
      unfold slice_last.
      destruct (Z.leb_spec (max_history_turns cfg * 2) 0) as [Hk|Hk];
        eexists; eexists; exists []; (split; [reflexivity|]);
        cbn [set_history conversation_history calls];
        (split; [left; reflexivity|]);
        (split; [rewrite app_nil_r; reflexivity|]); (split; [left; reflexivity|]);
        (split; [intros [Hf|Hf]; [discriminate Hf|lia]|]);
        intros _ H0; rewrite H0 in *; [reflexivity|lia].
    + apply Hid.
Qed.

End LoopExtras.

(** ** More on the tools and the store client *)

Module ToolExtras.
Import Py Ranker Model MongoDBClient Tools Agent ToolShapes FloatFacts RankerFacts
  SortFacts ContentSearchFacts DispatchFacts Examples.
Local Open Scope string_scope.

Section Store.
Variable PS : Type.
Variable sv : services PS.

(** X7: how many documents the three listing tools report and list, [n]
    being the number of documents that match the filter they build:
    [search_by_author] reports and lists [min(n, 50)]; [search_by_metadata]
    reports [min(n, 100)] but lists [min(n, 50)] entries, so its
    [total_found] can exceed the entries it returns; [get_article_details]
    reports and lists all [n]. *)
Theorem listing_caps (params : pyval) :
  (forall a,
     getitem params "author" = Done a ->
     let f := {| author_regex_i := Some a; publication_date_gte := None;
                 publication_date_lte := None; categories_in := None;
                 article_id_in := None |} in
     mongo_error sv f = None ->
     let n := List.length (filter (mongo_match sv f) (documents sv)) in
     exists entries,
       _tool_search_by_author sv params
       = Done (PDict [("total_found", PInt (Z.of_nat (Nat.min 50 n)));
                      ("articles", PList entries)])
       /\ List.length entries = Nat.min 50 n)
  /\ (forall f,
        search_filters sv params = Done f ->
        mongo_error sv f = None ->
        let n := List.length (filter (mongo_match sv f) (documents sv)) in
        exists entries,
          _tool_search_by_metadata sv params
          = Done (PDict [("total_found", PInt (Z.of_nat (Nat.min 100 n)));
                         ("filters_used", params);
                         ("articles", PList entries)])
          /\ List.length entries = Nat.min 50 n)
  /\ (forall ids,
        getitem params "article_ids" = Done ids ->
        let f := {| author_regex_i := None; publication_date_gte := None;
                    publication_date_lte := None; categories_in := None;
                    article_id_in := Some ids |} in
        mongo_error sv f = None ->
        let n := List.length (filter (mongo_match sv f) (documents sv)) in
        exists entries,
          _tool_get_article_details sv params
          = Done (PDict [("total_found", PInt (Z.of_nat n));
                         ("articles", PList entries)])
          /\ List.length entries = n).
Proof.
  split; [|split].
  - intros a Ha f He n. unfold _tool_search_by_author. rewrite Ha. cbn [rbind].
    unfold find_by_filter, collection_find. fold f. rewrite He. cbn [rbind].
    change (0 <? 50)%Z with true. cbn iota.
    eexists. rewrite length_firstn. fold n.
    change (Z.to_nat 50) with 50. split; [reflexivity|].
    rewrite length_map, length_firstn. reflexivity.
  - intros f Hf He n. unfold _tool_search_by_metadata. rewrite Hf. cbn [rbind].
    unfold find_by_filter, collection_find. rewrite He. cbn [rbind].
    change (0 <? 100)%Z with true. cbn iota.
    eexists. rewrite length_firstn. fold n.
    change (Z.to_nat 100) with 100. split; [reflexivity|].
    rewrite length_map. unfold slice_to. change (0 <=? 50)%Z with true. cbn iota.
    rewrite !length_firstn. fold n. change (Z.to_nat 50) with 50. lia.
  - intros ids Hi f He n. unfold _tool_get_article_details. rewrite Hi. cbn [rbind].
    unfold find_by_filter, collection_find. fold f. rewrite He. cbn [rbind].
    change (0 <? 0)%Z with false. cbn iota.
    eexists. split; [reflexivity|]. rewrite length_map. reflexivity.
Qed.

Lemma with_embeddings_none (arts : list article) :
  with_embeddings arts = [] <-> Forall no_embedding arts.
Proof.
  unfold with_embeddings, no_embedding. induction arts as [|a arts IH]; cbn.
  - split; [constructor|reflexivity].
  - destruct (embedding a) as [[|x e]|] eqn:E; cbn.
    + rewrite IH. split; [intros H; constructor; auto|intros H; inversion H; auto].
    + split; [discriminate|].
      intros H. inversion H as [|? ? [Hn|Hn] _]; congruence.
    + rewrite IH. split; [intros H; constructor; auto|intros H; inversion H; auto].
Qed.

(** X8: when the query embeds and the store answers, [search_by_content]
    returns the no-embeddings payload exactly when no document of the store
    carries a non-empty embedding; that payload has no [total_found] and is
    not the empty result of a search that found nothing above the
    threshold. *)
Theorem search_by_content_no_embeddings (cfg : config) (params q : pyval)
  (qe : vector) (arts : list article) :
  getitem params "query" = Done q ->
  embed_text sv q = Done qe ->
  get_all_articles sv = Done arts ->
  (_tool_search_by_content sv cfg params = Done no_embeddings_payload
   <-> Forall no_embedding arts)
  /\ no_embeddings_payload
     <> PDict [("total_found", PInt 0); ("articles", PList [])].
Proof.
  intros Hq He Ha. split; [|discriminate].
  rewrite <- with_embeddings_none.
  unfold _tool_search_by_content. rewrite Hq. cbn [rbind]. rewrite He. cbn [rbind].
  rewrite Ha. cbn [rbind].
  destruct (with_embeddings arts) as [|p l] eqn:Ew.
  - split; reflexivity.
  - split; [|discriminate].
    destruct (rank_by_similarity qe (p :: l)); cbn [rbind]; intros H;
      unfold no_embeddings_payload in H; discriminate H.
Qed.

End Store.

Lemma search_by_content_no_embeddings_witness :
  let sv0 := services_of [doc "N" []] answers_X summary_ok in
  _tool_search_by_content sv0 (cfg_of 5 "summary") energia
  = Done no_embeddings_payload.
Proof.
  cbv zeta.
  apply (proj1 (@search_by_content_no_embeddings nat
                  (services_of [doc "N" []] answers_X summary_ok)
                  (cfg_of 5 "summary") energia (PStr "energia")
                  [1; 0; 0; 0]%float [doc "N" []] eq_refl eq_refl eq_refl)).
  constructor; [right; reflexivity|constructor].
Defined.

Section Content.
Variable PS : Type.
Variable sv : services PS.
Variable cfg : config.

(** X9: whatever the similarities are (NaN included), when K is not
    negative every result [search_by_content] returns is either the
    no-embeddings payload or a list of at most K entries, each for a document
    of the store with a non-empty embedding whose similarity to the query was
    computed and exceeds 0.3, with [total_found] the number of entries. *)
Theorem search_by_content_entries_qualify (params v : pyval) :
  (0 <= semantic_top_k cfg)%Z ->
  _tool_search_by_content sv cfg params = Done v ->
  v = no_embeddings_payload
  \/ exists q qe arts selected,
       getitem params "query" = Done q
       /\ embed_text sv q = Done qe
       /\ get_all_articles sv = Done arts
       /\ v = PDict [("total_found", PInt (Z.of_nat (List.length selected)));
                     ("articles", PList (map (content_entry sv) selected))]
       /\ (List.length selected <= Z.to_nat (semantic_top_k cfg))%nat
       /\ (List.length selected <= List.length (with_embeddings arts))%nat
       /\ Forall (fun x =>
                    PrimFloat.ltb threshold (snd x) = true
                    /\ In (fst x) (with_embeddings arts)
                    /\ cosine_similarity qe (snd (fst x)) = Done (snd x))
            selected.
Proof.
  intros Hk H. unfold _tool_search_by_content in H.
  destruct (getitem params "query") as [q|] eqn:Hq; cbn [rbind] in H; [|discriminate H].
  destruct (embed_text sv q) as [qe|] eqn:He; cbn [rbind] in H; [|discriminate H].
  destruct (get_all_articles sv) as [arts|] eqn:Ha; cbn [rbind] in H; [|discriminate H].
  destruct (with_embeddings arts) as [|p l] eqn:Ew.
  - left. inversion H. reflexivity.
  - right. unfold rank_by_similarity in H.
    destruct (score_all qe (p :: l)) as [scored|] eqn:Hs; cbn [rbind] in H;
      [|discriminate H].
    destruct (score_all_scores _ _ Hs) as [Hm Hc].
    set (ranked := sort_desc (fun x => snd x) scored) in *.
    set (selected := filter (fun x => PrimFloat.ltb threshold (snd x))
                       (slice_to (semantic_top_k cfg) ranked)) in *.
    exists q, qe, arts, selected.
    assert (Hsub : forall x, In x selected ->
              PrimFloat.ltb threshold (snd x) = true /\ In x scored).
    { intros x Hx. unfold selected in Hx. apply filter_In in Hx.
      destruct Hx as [Hx Ht]. split; [exact Ht|].
      unfold slice_to in Hx. apply Z.leb_le in Hk. rewrite Hk in Hx.
      apply (Permutation_in x (sort_desc_perm (fun x => snd x) scored)).
      change (In x ranked).
      rewrite <- (firstn_skipn (Z.to_nat (semantic_top_k cfg)) ranked).
      apply in_or_app. left. exact Hx. }
    assert (Hlen : (List.length selected
                    <= List.length (firstn (Z.to_nat (semantic_top_k cfg)) ranked))%nat).
    { unfold selected, slice_to. apply Z.leb_le in Hk. rewrite Hk.
      apply filter_length_le. }
    rewrite length_firstn in Hlen.
    assert (Hr : List.length ranked = List.length (p :: l)).
    { unfold ranked.
      rewrite (Permutation_length (sort_desc_perm (fun x => snd x) scored)).
      rewrite <- Hm. rewrite length_map. reflexivity. }
    split; [first [reflexivity|assumption]|].
    split; [first [reflexivity|assumption]|].
    split; [first [reflexivity|assumption]|].
    split; [inversion H; rewrite length_map; reflexivity|].
    split; [lia|]. split; [rewrite Ew; lia|].
    rewrite Forall_forall. intros x Hx. destruct (Hsub x Hx) as [Ht Hin].
    split; [exact Ht|]. split.
    + rewrite Ew, <- Hm. apply in_map, Hin.
    + rewrite Forall_forall in Hc. apply Hc, Hin.
Qed.

(** X10: the filter [search_by_metadata] and [count_articles] build from a
    parameter dictionary: a key that is absent or whose value is falsy
    (None, an empty string, an empty list, zero, false) puts no constraint;
    the author and the categories are passed as given, the dates are parsed
    ([date_from] first, so its error wins); no constraint is ever put on
    [article_id].  With no truthy value the filter is the empty one. *)
Theorem metadata_filter_of_parameters (d : list (string * pyval)) :
  let expected :=
    rbind (date_value sv "date_from" d) (fun gte =>
    rbind (date_value sv "date_to" d) (fun lte =>
    Done {| author_regex_i := truthy_value "author" d;
            publication_date_gte := gte;
            publication_date_lte := lte;
            categories_in := truthy_value "categories" d;
            article_id_in := None |})) in
  search_filters sv (PDict d) = expected
  /\ count_filters sv (PDict d) = expected
  /\ (truthy_value "author" d = None -> truthy_value "date_from" d = None ->
      truthy_value "date_to" d = None -> truthy_value "categories" d = None ->
      search_filters sv (PDict d) = Done empty_filter).
Proof.
  cbv zeta.
  assert (H : search_filters sv (PDict d)
    = rbind (date_value sv "date_from" d) (fun gte =>
      rbind (date_value sv "date_to" d) (fun lte =>
      Done {| author_regex_i := truthy_value "author" d;
              publication_date_gte := gte;
              publication_date_lte := lte;
              categories_in := truthy_value "categories" d;
              article_id_in := None |}))).
  { unfold search_filters, in_and_truthy, contains, getitem, date_value, truthy_value.
    destruct (assoc "author" d) as [a|]; cbn [rbind];
      [destruct (truthy a); cbn [rbind]|];
      (destruct (assoc "date_from" d) as [v1|]; cbn [rbind];
        [destruct (truthy v1); cbn [rbind];
          [destruct (fromisoformat sv v1) as [d1|e1]; cbn [rbind]; [|reflexivity]|]|]);
      (destruct (assoc "date_to" d) as [v2|]; cbn [rbind];
        [destruct (truthy v2); cbn [rbind];
          [destruct (fromisoformat sv v2) as [d2|e2]; cbn [rbind]; [|reflexivity]|]|]);
      (destruct (assoc "categories" d) as [cs|]; cbn [rbind];
        [destruct (truthy cs); cbn [rbind]|]);
      reflexivity. }
  split; [exact H|]. split; [exact H|].
  intros H1 H2 H3 H4. rewrite H. unfold date_value. rewrite H1, H2, H3, H4.
  reflexivity.
Qed.
End Content.

Lemma search_by_content_entries_qualify_witness :
  let v := PDict [("total_found", PInt 2);
                  ("articles",
                   PList [content_entry abc_services (docC, [9; 3; 3; 1]%float, 0.9%float);
                          content_entry abc_services (docA, [1; 1; 1; 1]%float, 0.5%float)])] in
  v = no_embeddings_payload
  \/ exists q qe arts selected,
       getitem energia "query" = Done q
       /\ embed_text abc_services q = Done qe
       /\ get_all_articles abc_services = Done arts
       /\ v = PDict [("total_found", PInt (Z.of_nat (List.length selected)));
                     ("articles", PList (map (content_entry abc_services) selected))]
       /\ (List.length selected <= Z.to_nat (semantic_top_k (cfg_of 5 "summary")))%nat
       /\ (List.length selected <= List.length (with_embeddings arts))%nat
       /\ Forall (fun x =>
                    PrimFloat.ltb threshold (snd x) = true
                    /\ In (fst x) (with_embeddings arts)
                    /\ cosine_similarity qe (snd (fst x)) = Done (snd x))
            selected.
Proof.
  cbv zeta.
  apply (@search_by_content_entries_qualify nat abc_services (cfg_of 5 "summary")
           energia).
  - cbn. lia.
  - reflexivity.
Defined.

End ToolExtras.

(** ** More on the ranker and the embedder *)

Module RankerExtras.
Import Py Ranker Embedder FloatFacts RankerFacts SortFacts ContentSearchFacts.
Local Open Scope string_scope.

Lemma SFmul_comm (prec emax : Z) (x y : spec_float) :
  SFmul prec emax x y = SFmul prec emax y x.
Proof.
  destruct x as [sx|sx| |sx mx ex], y as [sy|sy| |sy my ey]; cbn;
    rewrite ?(xorb_comm sx sy); try reflexivity.
  rewrite (Pos.mul_comm mx my), (Z.add_comm ex ey). reflexivity.
Qed.

Lemma float_mul_comm (x y : float) : (x * y = y * x)%float.
Proof.
  apply Prim2SF_inj. rewrite !mul_spec. apply SFmul_comm.
Qed.

Lemma dot_fold_comm (a b : vector) (acc : float) :
  fold_left (fun acc p => (acc + fst p * snd p)%float) (combine a b) acc
  = fold_left (fun acc p => (acc + fst p * snd p)%float) (combine b a) acc.
Proof.
  revert b acc. induction a as [|x a IH]; intros [|y b] acc; cbn; try reflexivity.
  rewrite (float_mul_comm x y). apply IH.
Qed.

(** X11: the similarity is symmetric: [cosine_similarity a b] and
    [cosine_similarity b a] are the same number, or both the error of a
    length mismatch. *)
Theorem cosine_similarity_symmetric (a b : vector) :
  cosine_similarity a b = cosine_similarity b a.
Proof.
  unfold cosine_similarity, np_dot.
  rewrite (Nat.eqb_sym (List.length b) (List.length a)).
  destruct (Nat.eqb (List.length a) (List.length b)); [|reflexivity].
  cbn [rbind]. rewrite (dot_fold_comm a b 0%float).
  rewrite (float_mul_comm (np_linalg_norm a) (np_linalg_norm b)). reflexivity.
Qed.

Lemma cosine_mismatch (a b : vector) :
  List.length a <> List.length b ->
  cosine_similarity a b = Fail (ValueError "shapes not aligned").
Proof.
  intros H. unfold cosine_similarity, np_dot.
  apply Nat.eqb_neq in H. rewrite H. reflexivity.
Qed.

(** X12: [rank_by_similarity] succeeds exactly when every embedding has the
    length of the query embedding, and then returns the given entries, each
    with its similarity attached, none lost or added; one embedding of
    another length makes the whole ranking fail with a [ValueError]. *)
Theorem rank_by_similarity_outcome {D : Type} (qe : vector) (l : list (D * vector)) :
  (Forall (fun p => List.length (snd p) = List.length qe) l ->
   exists ranked,
     rank_by_similarity qe l = Done ranked
     /\ Permutation (map fst ranked) l
     /\ Forall (fun x => cosine_similarity qe (snd (fst x)) = Done (snd x)) ranked)
  /\ (Exists (fun p => List.length (snd p) <> List.length qe) l ->
      exists msg, rank_by_similarity qe l = Fail (ValueError msg)).
Proof.
  split.
  - intros H.
    assert (Hs : exists scored, score_all qe l = Done scored).
    { induction H as [|[d e] l Hp Hl IH]; cbn; [eexists; reflexivity|].
      cbn in Hp. rewrite (cosine_similarity_defined qe e (eq_sym Hp)). cbn [rbind].
      destruct IH as [scored ->]. cbn [rbind]. eexists. reflexivity. }
    destruct Hs as [scored Hs]. destruct (score_all_scores _ _ Hs) as [Hm Hc].
    exists (sort_desc (fun x => snd x) scored). unfold rank_by_similarity.
    rewrite Hs. cbn [rbind]. split; [reflexivity|]. split.
    + rewrite <- Hm. apply Permutation_map, sort_desc_perm.
    + apply sort_desc_Forall, Hc.
  - intros H. unfold rank_by_similarity.
    assert (Hs : score_all qe l = Fail (ValueError "shapes not aligned")).
    { induction l as [|[d e] l IH]; [inversion H|]. cbn [score_all].
      destruct (Nat.eq_dec (List.length qe) (List.length e)) as [Heq|Hne].
      - rewrite (cosine_similarity_defined qe e Heq). cbn [rbind].
        rewrite IH; [reflexivity|].
        inversion H as [? ? Hp|? ? Ht]; subst; [cbn in Hp; congruence|exact Ht].
      - rewrite (@cosine_mismatch qe e Hne). reflexivity. }
    rewrite Hs. eexists. reflexivity.
Qed.

Lemma rank_by_similarity_outcome_witness :
  exists ranked,
    rank_by_similarity [1; 0]%float [("a", [3; 4]%float); ("b", [1; 0]%float)]
    = Done ranked
    /\ Permutation (map fst ranked) [("a", [3; 4]%float); ("b", [1; 0]%float)]
    /\ Forall (fun x => cosine_similarity [1; 0]%float (snd (fst x)) = Done (snd x))
         ranked.
Proof.
  apply (proj1 (@rank_by_similarity_outcome string [1; 0]%float
                  [("a", [3; 4]%float); ("b", [1; 0]%float)])).
  repeat constructor.
Defined.

Lemma SFcompare_eq_key (f1 f2 : spec_float) :
  SFcompare f1 f2 = Some Eq ->
  order_key f1 = order_key f2 /\ f1 <> S754_nan /\ f2 <> S754_nan.
Proof.
  destruct f1 as [s1|s1| |s1 m1 e1], f2 as [s2|s2| |s2 m2 e2];
    try destruct s1; try destruct s2; cbn [SFcompare order_key];
    intros H; try discriminate H;
    try (split; [reflexivity|split; discriminate]).
  - destruct (Z.compare_spec e1 e2) as [E|E|E]; try discriminate H.
    change (Pos.compare_cont Eq m1 m2) with (Pos.compare m1 m2) in H.
    destruct (Pos.compare_spec m1 m2) as [M|M|M]; try discriminate H.
    subst. split; [reflexivity|split; discriminate].
  - destruct (Z.compare_spec e1 e2) as [E|E|E]; try discriminate H.
    change (Pos.compare_cont Eq m1 m2) with (Pos.compare m1 m2) in H.
    destruct (Pos.compare_spec m1 m2) as [M|M|M]; try discriminate H.
    subst. split; [reflexivity|split; discriminate].
Qed.

Lemma eqb_key (x v : float) :
  PrimFloat.eqb x v = true ->
  order_key (Prim2SF x) = order_key (Prim2SF v) /\ not_nan x /\ not_nan v.
Proof.
  rewrite eqb_spec. unfold SFeqb.
  destruct (SFcompare (Prim2SF x) (Prim2SF v)) as [[| |]|] eqn:E; try discriminate.
  intros _. destruct (SFcompare_eq_key _ _ E) as (Hk & Hx & Hv).
  split; [exact Hk|].
  assert (Hn : forall y, Prim2SF y <> S754_nan -> not_nan y).
  { intros y Hy. unfold not_nan, PrimFloat.is_nan. rewrite eqb_spec. unfold SFeqb.
    destruct (Prim2SF y) as [s|s| |s m e]; try congruence; cbn.
    - destruct s; reflexivity.
    - destruct s; reflexivity.
    - destruct s; rewrite Z.compare_refl;
        change (Pos.compare_cont Eq m m) with (Pos.compare m m);
        rewrite Pos.compare_refl; reflexivity. }
  split; apply Hn; assumption.
Qed.

Lemma same_score_not_below (x y v : float) :
  PrimFloat.eqb x v = true -> PrimFloat.eqb y v = true ->
  PrimFloat.ltb x y = false.
Proof.
  intros Hx Hy.
  destruct (eqb_key Hx) as (Kx & Nx & _), (eqb_key Hy) as (Ky & Ny & _).
  destruct (PrimFloat.ltb x y) eqn:E; [|reflexivity].
  apply (ltb_key Nx Ny) in E. rewrite Kx, Ky in E.
  destruct (order_key (Prim2SF v)) as [[a1 a2] a3]. unfold lex_lt in E. lia.
Qed.

Section Stability.
Variable A : Type.
Variable key : A -> float.

Lemma insert_desc_same_score (v : float) (x : A) (l : list A) :
  filter (same_score key v) (insert_desc key x l)
  = if same_score key v x then x :: filter (same_score key v) l
    else filter (same_score key v) l.
Proof.
  induction l as [|y l IH]; cbn [insert_desc].
  - cbn. destruct (same_score key v x); reflexivity.
  - destruct (PrimFloat.ltb (key x) (key y)) eqn:E.
    + cbn [filter]. rewrite IH.
      destruct (same_score key v x) eqn:Ex, (same_score key v y) eqn:Ey;
        try reflexivity.
      unfold same_score in Ex, Ey.
      rewrite (same_score_not_below Ex Ey) in E. discriminate E.
    + cbn [filter]. destruct (same_score key v x); reflexivity.
Qed.

Lemma sort_desc_stable (v : float) (l : list A) :
  filter (same_score key v) (sort_desc key l) = filter (same_score key v) l.
Proof.
  induction l as [|x l IH]; [reflexivity|].
  cbn [sort_desc fold_right]. rewrite insert_desc_same_score.
  unfold sort_desc in IH. rewrite IH. cbn [filter].
  destruct (same_score key v x); reflexivity.
Qed.
End Stability.

Lemma SFcompare_key_eq (f1 f2 : spec_float) :
  f1 <> S754_nan -> f2 <> S754_nan ->
  order_key f1 = order_key f2 -> SFcompare f1 f2 = Some Eq.
Proof.
  intros H1 H2.
  destruct f1 as [s1|s1| |s1 m1 e1], f2 as [s2|s2| |s2 m2 e2];
    try congruence;
    try destruct s1; try destruct s2; cbn [SFcompare order_key];
    intros E; try discriminate E; try reflexivity;
    (assert (He : e1 = e2) by (injection E; intros; lia));
    (assert (Hm : m1 = m2) by (injection E; intros; congruence));
    subst; rewrite Z.compare_refl;
    change (Pos.compare_cont Eq m2 m2) with (Pos.compare m2 m2);
    rewrite Pos.compare_refl; reflexivity.
Qed.

(** Two numbers neither of which is below the other are equal for [==]. *)
Lemma not_below_eqb (x y : float) :
  not_nan x -> not_nan y ->
  PrimFloat.ltb x y = false -> PrimFloat.ltb y x = false ->
  PrimFloat.eqb x y = true.
Proof.
  intros Hx Hy Hxy Hyx.
  assert (Nxy : ~ lex_lt (order_key (Prim2SF x)) (order_key (Prim2SF y))).
  { intros C. apply (ltb_key Hx Hy) in C. congruence. }
  assert (Nyx : ~ lex_lt (order_key (Prim2SF y)) (order_key (Prim2SF x))).
  { intros C. apply (ltb_key Hy Hx) in C. congruence. }
  assert (K : order_key (Prim2SF x) = order_key (Prim2SF y)).
  { destruct (order_key (Prim2SF x)) as [[a1 a2] a3],
             (order_key (Prim2SF y)) as [[b1 b2] b3].
    unfold lex_lt in *.
    assert (a1 = b1) by lia. assert (a2 = b2) by lia. assert (a3 = b3) by lia.
    congruence. }
  rewrite eqb_spec. unfold SFeqb.
  rewrite (SFcompare_key_eq (not_nan_spec Hx) (not_nan_spec Hy) K). reflexivity.
Qed.

Lemma ltb_irrefl (x : float) : not_nan x -> PrimFloat.ltb x x = false.
Proof.
  intros Hx. destruct (PrimFloat.ltb x x) eqn:E; [|reflexivity].
  apply (ltb_key Hx Hx) in E.
  destruct (order_key (Prim2SF x)) as [[a1 a2] a3]. unfold lex_lt in E. lia.
Qed.

Section Unique.
Variable A : Type.
Variable key : A -> float.

Lemma descending_head_not_below (x : A) (l : list A) (z : A) :
  not_nan (key x) ->
  descending key (x :: l) -> In z (x :: l) ->
  PrimFloat.ltb (key x) (key z) = false.
Proof.
  intros Hx Hd Hz. inversion Hd as [|? ? Hall _]; subst.
  destruct Hz as [<-|Hz]; [apply ltb_irrefl, Hx|].
  rewrite Forall_forall in Hall. apply Hall, Hz.
Qed.

(** A list of numbers has one arrangement that is descending and keeps the
    entries of each score in their order. *)
Lemma stable_descending_unique (l1 l2 : list A) :
  Forall (fun x => not_nan (key x)) l1 ->
  Permutation l1 l2 ->
  descending key l1 -> descending key l2 ->
  (forall v, filter (same_score key v) l1 = filter (same_score key v) l2) ->
  l1 = l2.
Proof.
  revert l2. induction l1 as [|x l1 IH]; intros l2 Hn Hp Hd1 Hd2 Hf.
  - apply Permutation_nil in Hp. congruence.
  - destruct l2 as [|y l2];
      [apply Permutation_sym, Permutation_nil in Hp; discriminate Hp|].
    assert (Hn2 : Forall (fun x => not_nan (key x)) (y :: l2))
      by (eapply Permutation_Forall; eassumption).
    inversion Hn as [|? ? Hx Hn1]; subst.
    inversion Hn2 as [|? ? Hy Hn2']; subst.
    assert (Hxy : PrimFloat.ltb (key x) (key y) = false).
    { apply (descending_head_not_below Hx Hd1).
      apply (Permutation_in _ (Permutation_sym Hp)). left. reflexivity. }
    assert (Hyx : PrimFloat.ltb (key y) (key x) = false).
    { apply (descending_head_not_below Hy Hd2).
      apply (Permutation_in _ Hp). left. reflexivity. }
    assert (Ex : same_score key (key y) x = true)
      by (apply not_below_eqb; assumption).
    assert (Ey : same_score key (key y) y = true)
      by (apply not_below_eqb; try assumption; apply ltb_irrefl, Hy).
    pose proof (Hf (key y)) as H0. cbn [filter] in H0. rewrite Ex, Ey in H0.
    inversion H0; subst y. f_equal.
    apply IH.
    + exact Hn1.
    + eapply Permutation_cons_inv, Hp.
    + inversion Hd1; assumption.
    + inversion Hd2; assumption.
    + intros v. specialize (Hf v). cbn [filter] in Hf.
      destruct (same_score key v x); [inversion Hf; reflexivity|exact Hf].
Qed.
End Unique.

(** X13: when no score is NaN the ranking is the stable descending sort of
    the scored entries: it holds the same entries, in descending order of
    score, those of one score in the order in which they were given; and it
    is the only arrangement of the entries with these properties, so it is
    what any stable sort on [<] returns. *)
Theorem rank_by_similarity_order {D : Type} (qe : vector) (l : list (D * vector))
  (ranked : list (D * vector * float)) :
  rank_by_similarity qe l = Done ranked ->
  Forall (fun x => not_nan (snd x)) ranked ->
  exists scored,
    score_all qe l = Done scored
    /\ map fst scored = l
    /\ Permutation ranked scored
    /\ descending (fun x => snd x) ranked
    /\ (forall v, filter (same_score (fun x => snd x) v) ranked
                  = filter (same_score (fun x => snd x) v) scored)
    /\ (forall other,
          Permutation other scored ->
          descending (fun x => snd x) other ->
          (forall v, filter (same_score (fun x => snd x) v) other
                     = filter (same_score (fun x => snd x) v) scored) ->
          other = ranked).
Proof.
  unfold rank_by_similarity. intros H Hn.
  destruct (score_all qe l) as [scored|] eqn:Hs; cbn [rbind] in H; [|discriminate H].
  inversion H; subst ranked; clear H.
  assert (Hperm : Permutation (sort_desc (fun x => snd x) scored) scored)
    by apply sort_desc_perm.
  assert (Hns : Forall (fun x : D * vector * float => not_nan (snd x)) scored)
    by (eapply Permutation_Forall; eassumption).
  assert (Hd : descending (fun x => snd x) (sort_desc (fun x => snd x) scored))
    by (apply sort_desc_descending, Hns).
  exists scored. split; [reflexivity|].
  split; [apply (score_all_scores _ _ Hs)|]. split; [exact Hperm|].
  split; [exact Hd|]. split; [intros v; apply sort_desc_stable|].
  intros other Hp Ho Hf. symmetry.
  apply (@stable_descending_unique _ (fun x => snd x)).
  - exact Hn.
  - eapply perm_trans; [exact Hperm|apply Permutation_sym, Hp].
  - exact Hd.
  - exact Ho.
  - intros v. rewrite Hf. apply sort_desc_stable.
Qed.

Lemma rank_by_similarity_order_witness :
  exists scored,
    score_all [1; 0]%float [("a", [3; 4]%float); ("b", [1; 0]%float); ("c", [6; 8]%float)]
    = Done scored
    /\ map fst scored = [("a", [3; 4]%float); ("b", [1; 0]%float); ("c", [6; 8]%float)]
    /\ Permutation
         [("b", [1; 0]%float, 1%float); ("a", [3; 4]%float, 0.6%float);
          ("c", [6; 8]%float, 0.6%float)] scored
    /\ descending (fun x => snd x)
         [("b", [1; 0]%float, 1%float); ("a", [3; 4]%float, 0.6%float);
          ("c", [6; 8]%float, 0.6%float)]
    /\ (forall v,
          filter (same_score (fun x => snd x) v)
            [("b", [1; 0]%float, 1%float); ("a", [3; 4]%float, 0.6%float);
             ("c", [6; 8]%float, 0.6%float)]
          = filter (same_score (fun x => snd x) v) scored)
    /\ (forall other,
          Permutation other scored ->
          descending (fun x => snd x) other ->
          (forall v, filter (same_score (fun x => snd x) v) other
                     = filter (same_score (fun x => snd x) v) scored) ->
          other = [("b", [1; 0]%float, 1%float); ("a", [3; 4]%float, 0.6%float);
                   ("c", [6; 8]%float, 0.6%float)]).
Proof.
  apply (@rank_by_similarity_order string [1; 0]%float
           [("a", [3; 4]%float); ("b", [1; 0]%float); ("c", [6; 8]%float)]).
  - vm_compute. reflexivity.
  - repeat constructor.
Defined.

Lemma length_append (s t : string) :
  String.length (s ++ t) = String.length s + String.length t.
Proof. induction s as [|c s IH]; cbn; [reflexivity|]. rewrite IH. reflexivity. Qed.

Lemma substring_prefix_split (n : nat) (s : string) :
  exists rest,
    s = substring 0 n s ++ rest
    /\ String.length (substring 0 n s) = Nat.min n (String.length s).
Proof.
  revert n. induction s as [|c s IH]; intros [|n]; cbn.
  - exists EmptyString. split; reflexivity.
  - exists EmptyString. split; reflexivity.
  - exists (String c s). split; reflexivity.
  - destruct (IH n) as (rest & Hs & Hl). exists rest. split.
    + cbn. rewrite <- Hs. reflexivity.
    + rewrite Hl. reflexivity.
Qed.

(** X14: for a [max_length] that is not negative, the text prepared for
    embedding is the title, a full stop and a space, and the first
    [max_length] characters of the content: it is a prefix of
    [title + ". " + content], of length [len(title) + 2 + min(max_length,
    len(content))], and the whole of it when the content is not longer than
    [max_length]. *)
Theorem prepare_article_text_prefix (title content : string) (max_length : Z) :
  (0 <= max_length)%Z ->
  String.length (prepare_article_text title content max_length)
  = String.length title + 2
    + Nat.min (Z.to_nat max_length) (String.length content)
  /\ (exists dropped,
        title ++ ". " ++ content
        = prepare_article_text title content max_length ++ dropped)
  /\ ((String.length content <= Z.to_nat max_length)%nat ->
      prepare_article_text title content max_length = title ++ ". " ++ content).
Proof.
  intros Hmax. unfold prepare_article_text, str_slice_to.
  apply Z.leb_le in Hmax. rewrite Hmax. apply Z.leb_le in Hmax.
  destruct (substring_prefix_split (Z.to_nat max_length) content)
    as (rest & Hs & Hl).
  destruct (Z.ltb_spec max_length (Z.of_nat (String.length content))) as [Hlt|Hge].
  - split; [|split].
    + rewrite !length_append, Hl. cbn. lia.
    + exists rest. rewrite Hs at 1.
      assert (Hassoc : forall a b c : string, (a ++ b) ++ c = a ++ b ++ c).
      { intros a b c. induction a as [|x a IH]; cbn; [reflexivity|].
        rewrite IH. reflexivity. }
      rewrite !Hassoc. reflexivity.
    + intros Hle. lia.
  - split; [|split].
    + rewrite !length_append. cbn. lia.
    + exists EmptyString.
      assert (Hnil : forall a : string, a ++ EmptyString = a).
      { intros a. induction a as [|x a IH]; cbn; [reflexivity|].
        rewrite IH. reflexivity. }
      rewrite Hnil. reflexivity.
    + intros _. reflexivity.
Qed.

Lemma prepare_article_text_prefix_witness :
  String.length (prepare_article_text "Titolo" "contenuto lungo" 9)
  = String.length "Titolo" + 2 + Nat.min (Z.to_nat 9) (String.length "contenuto lungo")
  /\ (exists dropped,
        "Titolo" ++ ". " ++ "contenuto lungo"
        = prepare_article_text "Titolo" "contenuto lungo" 9 ++ dropped)
  /\ ((String.length "contenuto lungo" <= Z.to_nat 9)%nat ->
      prepare_article_text "Titolo" "contenuto lungo" 9
      = "Titolo" ++ ". " ++ "contenuto lungo").
Proof.
  apply (@prepare_article_text_prefix "Titolo" "contenuto lungo" 9). lia.
Defined.

End RankerExtras.

(** ** The LLM clients *)

Module ClientExtras.
Import Py Model Agent Factory.
Local Open Scope string_scope.

Section OpenAI.
Import OpenAIClient.
Variable PS : Type.
Variable create : list message -> list openai_tool -> PS -> result completion * PS.
Variable json_loads : string -> result pyval.

Lemma convert_tool_calls_done (tcs : list api_tool_call) (calls : list tool_call) :
  convert_tool_calls json_loads tcs = Done calls ->
  map tc_id calls = map api_id tcs
  /\ map tc_name calls = map api_function_name tcs
  /\ Forall2 (fun tc call => json_loads (api_function_arguments tc)
                             = Done (tc_parameters call)) tcs calls.
Proof.
  revert calls. induction tcs as [|tc tcs IH]; intros calls H; cbn in H.
  - inversion H. repeat split; constructor.
  - destruct (json_loads (api_function_arguments tc)) as [args|] eqn:Ea;
      cbn [rbind] in H; [|discriminate H].
    destruct (convert_tool_calls json_loads tcs) as [rest|] eqn:Er;
      cbn [rbind] in H; [|discriminate H].
    inversion H; subst. destruct (IH rest eq_refl) as (H1 & H2 & H3).
    cbn. rewrite H1, H2. repeat split. constructor; [exact Ea|exact H3].
Qed.

Lemma convert_tool_calls_fail (tcs : list api_tool_call) (e : exception) :
  convert_tool_calls json_loads tcs = Fail e ->
  Exists (fun tc => json_loads (api_function_arguments tc) = Fail e) tcs.
Proof.
  induction tcs as [|tc tcs IH]; intros H; cbn in H; [discriminate H|].
  destruct (json_loads (api_function_arguments tc)) as [args|e'] eqn:Ea;
    cbn [rbind] in H.
  - destruct (convert_tool_calls json_loads tcs) as [rest|e'] eqn:Er;
      cbn [rbind] in H; [discriminate H|].
    inversion H; subst. apply Exists_cons_tl, IH. reflexivity.
  - inversion H; subst. apply Exists_cons_hd, Ea.
Qed.

(** X15: when the OpenAI API answers, [generate_with_tools] reads the first
    choice: the reply has the tool calls of the message in their order, with
    their ids and names and their arguments parsed as JSON, an empty list when
    the message has none, and an empty content for a missing one.  Arguments
    that do not parse are not a structured error: the exception of
    [json.loads] is raised to the caller; an answer without choices raises
    [IndexError]. *)
Theorem openai_reply_conversion (messages : list message) (tools : list tool_spec)
  (ps ps' : PS) (reply : completion) :
  create messages (map to_openai_tool tools) ps = (Done reply, ps') ->
  match choices reply with
  | [] =>
      exists msg,
        generate_with_tools create json_loads messages tools ps
        = (Raise (IndexError msg), ps')
  | c :: _ =>
      let tcs := match api_tool_calls (choice_message c) with
                 | Some tcs => tcs
                 | None => []
                 end in
      (forall e,
         convert_tool_calls json_loads tcs = Fail e ->
         generate_with_tools create json_loads messages tools ps = (Raise e, ps')
         /\ Exists (fun tc => json_loads (api_function_arguments tc) = Fail e) tcs)
      /\ (forall calls,
            convert_tool_calls json_loads tcs = Done calls ->
            generate_with_tools create json_loads messages tools ps
            = (Return {| content := match api_content (choice_message c) with
                                    | Some text => text
                                    | None => EmptyString
                                    end;
                         tool_calls := calls;
                         finish_reason := choice_finish_reason c |}, ps')
            /\ map tc_id calls = map api_id tcs
            /\ map tc_name calls = map api_function_name tcs
            /\ Forall2 (fun tc call => json_loads (api_function_arguments tc)
                                       = Done (tc_parameters call)) tcs calls
            /\ (api_tool_calls (choice_message c) = None -> calls = []))
  end.
Proof.
  intros Hc. unfold generate_with_tools. rewrite Hc. cbn [lift try_except bind].
  destruct (choices reply) as [|c cs]; [eexists; reflexivity|].
  cbv zeta. split.
  - intros e He. rewrite He. cbn [lift bind]. split; [reflexivity|].
    apply convert_tool_calls_fail, He.
  - intros calls Hd. rewrite Hd. cbn [lift bind].
    destruct (convert_tool_calls_done _ Hd) as (H1 & H2 & H3).
    split; [|split; [exact H1|split; [exact H2|split; [exact H3|]]]].
    + f_equal. f_equal.
      destruct (api_content (choice_message c)) as [text|]; [|reflexivity].
      unfold str_or. destruct (String.eqb_spec text EmptyString); congruence.
    + intros Hn. rewrite Hn in Hd. cbn in Hd. congruence.
Qed.
End OpenAI.

Lemma openai_reply_conversion_witness :
  let reply :=
    {| OpenAIClient.choices :=
         [{| OpenAIClient.choice_message :=
               {| OpenAIClient.api_content := None;
                  OpenAIClient.api_tool_calls :=
                    Some [{| OpenAIClient.api_id := "call_1";
                             OpenAIClient.api_function_name := "count_articles";
                             OpenAIClient.api_function_arguments := "{}" |}] |};
             OpenAIClient.choice_finish_reason := "tool_calls" |}] |} in
  let create := fun (_ : list message) (_ : list OpenAIClient.openai_tool) (n : nat) =>
                  (Done reply, S n) in
  let json_loads := fun s : string =>
                      if String.eqb s "{}" then Done (PDict [])
                      else Fail (ValueError "Expecting value") in
  OpenAIClient.generate_with_tools create json_loads [Turn "user" "quanti?"]
    _define_tools 0
  = (Return {| content := EmptyString;
               tool_calls := [{| tc_id := "call_1"; tc_name := "count_articles";
                                 tc_parameters := PDict [] |}];
               finish_reason := "tool_calls" |}, 1).
Proof.
  cbv zeta.
  exact (proj1 (proj2 (@openai_reply_conversion nat
     (fun _ _ n =>
        (Done {| OpenAIClient.choices :=
                   [{| OpenAIClient.choice_message :=
                         {| OpenAIClient.api_content := None;
                            OpenAIClient.api_tool_calls :=
                              Some [{| OpenAIClient.api_id := "call_1";
                                       OpenAIClient.api_function_name := "count_articles";
                                       OpenAIClient.api_function_arguments := "{}" |}] |};
                       OpenAIClient.choice_finish_reason := "tool_calls" |}] |}, S n))
     (fun s : string =>
        if String.eqb s "{}" then Done (PDict []) else Fail (ValueError "Expecting value"))
     [Turn "user" "quanti?"] _define_tools 0 1 _ eq_refl)
     [{| tc_id := "call_1"; tc_name := "count_articles"; tc_parameters := PDict [] |}]
     eq_refl)).
Defined.

Section Anthropic.
Import AnthropicClient.
Variable PS : Type.
Variable create :
  option string -> list message -> list anthropic_tool -> PS
  -> result api_response * PS.

Lemma append_assoc (a b c : string) : (a ++ b) ++ c = a ++ b ++ c.
Proof. induction a as [|x a IH]; cbn; [reflexivity|]. rewrite IH. reflexivity. Qed.

Lemma append_empty (a : string) : a ++ EmptyString = a.
Proof. induction a as [|x a IH]; cbn; [reflexivity|]. rewrite IH. reflexivity. Qed.

Lemma read_blocks_spec (blocks : list block) (calls : list tool_call) (text : string) :
  read_blocks blocks calls text
  = ((calls ++ tool_uses blocks)%list, text ++ texts blocks).
Proof.
  revert calls text. induction blocks as [|b blocks IH]; intros calls text; cbn.
  - rewrite app_nil_r, append_empty. reflexivity.
  - destruct b as [t|i n inp|ty]; rewrite IH.
    + rewrite append_assoc. reflexivity.
    + rewrite <- app_assoc. reflexivity.
    + reflexivity.
Qed.

(** X16: [AnthropicClient.generate_with_tools] lifts the first message out
    as the system prompt when its role is "system" (later system messages
    stay in the list), and has no handler: a failure of the API call is
    raised to the caller and never ends the process.  When the API answers,
    the tool calls of the reply are its [tool_use] blocks in order, its
    content the concatenation of its text blocks, blocks of other types being
    skipped; the reply is a final answer exactly when there is no [tool_use]
    block. *)
Theorem anthropic_reply_conversion (messages : list message)
  (tools : list tool_spec) (ps : PS) :
  let (system_msg, user_messages) := split_system messages in
  let sent := create system_msg user_messages (map to_anthropic_tool tools) ps in
  generate_with_tools create messages tools ps
  = (match fst sent with
     | Fail e => Raise e
     | Done reply =>
         Return {| content := texts (content_blocks reply);
                   tool_calls := tool_uses (content_blocks reply);
                   finish_reason := stop_reason reply |}
     end, snd sent)
  /\ (forall reply,
        fst sent = Done reply ->
        (tool_uses (content_blocks reply) = []
         <-> Forall (fun b => match b with
                              | ToolUseBlock _ _ _ => False
                              | _ => True
                              end) (content_blocks reply)))
  /\ (forall c, fst (generate_with_tools create messages tools ps) <> SysExit c).
Proof.
  unfold generate_with_tools, split_system.
  destruct (match messages with
            | [] => (None, messages)
            | m :: rest =>
                if String.eqb (role m) "system" then (Some (content_of m), rest)
                else (None, messages)
            end) as [system_msg user_messages].
  cbv zeta.
  destruct (create system_msg user_messages (map to_anthropic_tool tools) ps)
    as [[reply|e] ps']; cbn [fst snd lift bind].
  - rewrite read_blocks_spec. cbn [app]. split; [reflexivity|]. split.
    + intros r Hr. inversion Hr; subst r; clear Hr.
      induction (content_blocks reply) as [|b bs IH]; cbn.
      * split; [constructor|reflexivity].
      * destruct b as [t|i n inp|ty]; cbn.
        -- rewrite IH. split; [intros H; constructor; auto|intros H; inversion H; auto].
        -- split; [discriminate|intros H; inversion H; contradiction].
        -- rewrite IH. split; [intros H; constructor; auto|intros H; inversion H; auto].
    + intros c. discriminate.
  - split; [reflexivity|]. split; [intros r Hr; discriminate Hr|].
    intros c. discriminate.
Qed.
End Anthropic.

Section Clients.
Variables C A L : Type.
Variable environ : string -> option string.
Variable import_openai : result unit.
Variable openai_sdk : string -> result C.
Variable import_anthropic : result unit.
Variable anthropic_sdk : string -> result A.
Variable local_llm_client : pyval -> result L.
Variable format_value : pyval -> string.

Lemma anthropic_init_fails (config : pyval) :
  exists e, AnthropicClient_init environ import_anthropic anthropic_sdk format_value
              config = Fail e.
Proof.
  unfold AnthropicClient_init.
  destruct import_anthropic as [u|e]; cbn [rbind]; [|eexists; reflexivity].
  destruct (read_api_key environ format_value config) as [[m k]|e]; cbn [rbind];
    [|eexists; reflexivity].
  destruct (anthropic_sdk k) as [client|e]; cbn [rbind]; eexists; reflexivity.
Qed.

(** X17: [AnthropicClient.__init__] never returns a client: when the SDK
    imports, the key is configured and the SDK client is built, it raises
    [AttributeError] on [self.models_config], an attribute it never sets.
    [create_llm_client] therefore never returns an Anthropic client; a mode
    other than "api" and "local", or a provider other than "openai" and
    "anthropic", is a [ValueError]. *)
Theorem anthropic_client_never_built (config : pyval) :
  let build := create_llm_client environ import_openai openai_sdk import_anthropic
                 anthropic_sdk local_llm_client format_value in
  (exists e, AnthropicClient_init environ import_anthropic anthropic_sdk format_value
               config = Fail e)
  /\ (forall u models_config key client,
        import_anthropic = Done u ->
        read_api_key environ format_value config = Done (models_config, key) ->
        anthropic_sdk key = Done client ->
        exists msg,
          AnthropicClient_init environ import_anthropic anthropic_sdk format_value
            config = Fail (AttributeError msg))
  /\ (forall a, build config <> Done (Anthropic a))
  /\ (forall models api provider,
        getitem config "models" = Done models ->
        getitem models "mode" = Done (PStr "api") ->
        getitem models "api" = Done api ->
        getitem api "provider" = Done provider ->
        provider <> PStr "openai" -> provider <> PStr "anthropic" ->
        build config
        = Fail (ValueError ("Unknown API provider: " ++ format_value provider)))
  /\ (forall models mode,
        getitem config "models" = Done models ->
        getitem models "mode" = Done mode ->
        mode <> PStr "api" -> mode <> PStr "local" ->
        build config
        = Fail (ValueError ("Unknown mode: " ++ format_value mode
                            ++ ". Use 'api' or 'local'"))).
Proof.
  cbv zeta. split; [apply anthropic_init_fails|]. split; [|split; [|split]].
  - intros u models_config key client Hi Hk Hc. unfold AnthropicClient_init.
    rewrite Hi. cbn [rbind]. rewrite Hk. cbn [rbind]. rewrite Hc. cbn [rbind].
    eexists. reflexivity.
  - intros a H. unfold create_llm_client in H.
    destruct (getitem config "models") as [models|]; cbn [rbind] in H; [|discriminate H].
    destruct (getitem models "mode") as [mode|]; cbn [rbind] in H; [|discriminate H].
    destruct (anthropic_init_fails config) as [e He].
    repeat match type of H with
    | rbind ?m _ = Done _ =>
        let E := fresh "E" in
        destruct m eqn:E; cbn [rbind] in H; [|discriminate H]
    | match ?m with _ => _ end = Done _ => destruct m; try discriminate H
    end;
    try (inversion H; fail); congruence.
  - intros models api provider Hm Hmode Ha Hp Hno Hna. unfold create_llm_client.
    rewrite Hm. cbn [rbind]. rewrite Hmode. cbn [rbind].
    rewrite Ha. cbn [rbind]. rewrite Hp. cbn [rbind].
    destruct provider as [| | | |s| |]; try reflexivity.
    destruct (String.eqb_spec s "openai") as [->|H1]; [congruence|].
    destruct (String.eqb_spec s "anthropic") as [->|H2]; [congruence|].
    repeat match goal with
    | |- context [match ?x with _ => _ end] =>
        match type of x with
        | string => destruct x
        | ascii => destruct x
        | bool => destruct x
        end
    end; try reflexivity; congruence.
  - intros models mode Hm Hmode Hno Hnl. unfold create_llm_client.
    rewrite Hm. cbn [rbind]. rewrite Hmode. cbn [rbind].
    destruct mode as [| | | |s| |]; try reflexivity.
    repeat match goal with
    | |- context [match ?x with _ => _ end] =>
        match type of x with
        | string => destruct x
        | ascii => destruct x
        | bool => destruct x
        end
    end; try reflexivity; congruence.
Qed.
End Clients.

End ClientExtras.

(** ** Writing to the store *)

Module MongoExtras.
Import Py Model MongoWrites.
Local Open Scope string_scope.

Lemma mongo_clean_cleaned (doc : bson) : cleaned (mongo_clean doc).
Proof.
  revert doc. fix IH 1. intros [ | | | | |l|d|y m dd|dt|r]; cbn; try exact I.
  - induction l as [|x l IHl]; cbn; [exact I|]. split; [apply IH|exact IHl].
  - induction d as [|[k v] d IHd]; cbn; [exact I|]. split; [apply IH|exact IHd].
  - repeat split.
  - repeat split.
Qed.

Lemma mongo_clean_fixes_cleaned (doc : bson) : cleaned doc -> mongo_clean doc = doc.
Proof.
  revert doc. fix IH 1. intros [ | | | | |l|d|y m dd|dt|r]; cbn; try reflexivity.
  - intros H. f_equal. induction l as [|x l IHl]; cbn in *; [reflexivity|].
    destruct H as [Hx Hl]. rewrite (IH x Hx), (IHl Hl). reflexivity.
  - intros H. f_equal. induction d as [|[k v] d IHd]; cbn in *; [reflexivity|].
    destruct H as [Hv Hd]. rewrite (IH v Hv), (IHd Hd). reflexivity.
  - contradiction.
  - intros (H1 & H2 & H3 & H4). destruct dt; cbn in *. subst. reflexivity.
Qed.

(** X18: [mongo_clean] leaves no date in a document and puts every datetime
    at midnight of its day, at any depth of lists and dictionaries: a
    [datetime] loses its time of day, because a [datetime] is also a [date].
    It keeps the keys of a dictionary and the length of a list, changes
    nothing in a document that is already clean, and is idempotent. *)
Theorem mongo_clean_idempotent (doc : bson) :
  cleaned (mongo_clean doc)
  /\ mongo_clean (mongo_clean doc) = mongo_clean doc
  /\ (cleaned doc -> mongo_clean doc = doc)
  /\ (forall dt, mongo_clean (BDatetime dt)
                 = BDatetime (midnight (year dt) (month dt) (day dt)))
  /\ (forall d, exists d',
        mongo_clean (BDict d) = BDict d' /\ map fst d' = map fst d)
  /\ (forall l, exists l',
        mongo_clean (BList l) = BList l' /\ List.length l' = List.length l).
Proof.
  split; [apply mongo_clean_cleaned|].
  split; [apply mongo_clean_fixes_cleaned, mongo_clean_cleaned|].
  split; [apply mongo_clean_fixes_cleaned|].
  split; [reflexivity|]. split.
  - intros d. eexists. split; [reflexivity|].
    rewrite map_map. apply map_ext. intros [k v]. reflexivity.
  - intros l. eexists. split; [reflexivity|]. apply length_map.
Qed.

End MongoExtras.

(** ** The interactive loop of the query script *)

Module ScriptExtras.
Import Py Model Tools Agent Shapes QueryScript DispatchFacts LoopFacts HistoryFacts
  LoopExtras Examples.
Local Open Scope string_scope.

Section Script.
Variable PS : Type.
Variable sv : services PS.
Variable cfg : config.
Variable strip : string -> string.
Variable lower : string -> string.

Lemma query_history (user_query : string) (n : Z) (s : state PS) :
  conversation_history (snd (query sv cfg user_query n s)) = conversation_history s.
Proof.
  unfold query.
  match goal with |- context [query_loop sv cfg ?its ?n ?c ?t ?st] =>
    destruct (query_loop_trace sv cfg its n c t st) as (new & _ & _ & _ & Hhist & _)
  end.
  exact Hhist.
Qed.

Lemma chat_keeps (P : message -> Prop) (user_query : string) (n : Z) (s : state PS) :
  (forall summary, P (summary_turn summary)) ->
  (forall r c, r <> "tool" -> P (Turn r c)) ->
  Forall P (conversation_history s) ->
  Forall P (conversation_history (snd (chat sv cfg user_query n s))).
Proof.
  intros Psum Pturn HP.
  destruct (maybe_compress_history sv cfg s) as (s0 & k & Hm & Hsuffix).
  rewrite (@chat_after_compression _ sv cfg user_query n _ _ Hm).
  match goal with |- context [chat_loop sv cfg ?its ?n ?c ?t ?st] =>
    pose proof (chat_loop_history sv cfg its n c t st) as Hh;
    set (p := chat_loop sv cfg its n c t st) in *
  end.
  cbv zeta in Hh. cbn [set_history conversation_history] in Hh.
  assert (H0 : Forall P (conversation_history s0)).
  { destruct Hsuffix as [-> | [summary ->]].
    - apply Forall_skipn, HP.
    - constructor; [apply Psum|apply Forall_skipn, HP]. }
  destruct (fst p); rewrite Hh; repeat (apply Forall_app; split); try exact H0;
    repeat constructor; apply Pturn; discriminate.
Qed.

(** X21: in the single mode of the script the conversation history is never
    changed, whatever lines are typed ("reset" and "history" are then
    questions like any other); and in either mode a history without turns of
    tool exchanges is still without them when the loop ends. *)
Theorem interactive_history (mode : string) (inputs : list string) (s : state PS)
  (printed : list string) :
  let final := snd (fst (interactive sv cfg strip lower mode inputs s printed)) in
  (mode <> "chat" -> conversation_history final = conversation_history s)
  /\ (Forall (fun m => ~ is_tool_exchange m) (conversation_history s) ->
      Forall (fun m => ~ is_tool_exchange m) (conversation_history final)).
Proof.
  cbv zeta. revert s printed.
  induction inputs as [|line rest IH]; intros s printed; cbn [interactive].
  - split; [reflexivity|auto].
  - destruct (is_exit lower (strip line)); [split; [reflexivity|auto]|].
    destruct (String.eqb_spec mode "chat") as [Hm|Hm].
    + rewrite !andb_true_r.
      destruct (String.eqb (lower (strip line)) "reset").
      { destruct (IH (reset_chat s) printed) as [_ IH2].
        split; [congruence|]. intros _. apply IH2. constructor. }
      destruct (String.eqb (lower (strip line)) "history"); [apply IH|].
      destruct (String.eqb (strip line) EmptyString); [apply IH|].
      pose proof (@chat_keeps (fun m => ~ is_tool_exchange m) (strip line) 10 s
                    (fun summary H => H) (fun r c _ H => H)) as Hk.
      destruct (chat sv cfg (strip line) 10 s) as [[res|e|c] s']; cbn [snd] in Hk.
      * destruct (IH s' (printed ++ [answer res])%list) as [_ IH2].
        split; [congruence|]. intros H. apply IH2, Hk, H.
      * destruct (IH s' printed) as [_ IH2].
        split; [congruence|]. intros H. apply IH2, Hk, H.
      * cbn [fst snd]. split; [congruence|exact Hk].
    + rewrite !andb_false_r.
      destruct (String.eqb (strip line) EmptyString); [apply IH|].
      pose proof (query_history (strip line) 10 s) as Hq.
      destruct (query sv cfg (strip line) 10 s) as [[res|e|c] s']; cbn [snd] in Hq.
      * destruct (IH s' (printed ++ [answer res])%list) as [IH1 IH2].
        split; [intros H; rewrite (IH1 H); exact Hq|].
        intros H. apply IH2. rewrite Hq. exact H.
      * destruct (IH s' printed) as [IH1 IH2].
        split; [intros H; rewrite (IH1 H); exact Hq|].
        intros H. apply IH2. rewrite Hq. exact H.
      * cbn [fst snd]. split; [intros _; exact Hq|]. rewrite Hq. auto.
Qed.

Lemma chat_provider_down (e : exception) (user_query : string) (s : state PS) :
  provider_down sv e ->
  fst (chat sv cfg user_query 10 s) = Raise e.
Proof.
  intros Hdown.
  destruct (maybe_compress_returns sv cfg s) as [s0 Hm].
  rewrite (@chat_after_compression _ sv cfg user_query 10 _ _ Hm).
  change (range 10) with (0 :: map Z.of_nat (seq 1 9))%Z.
  cbn [chat_loop]. unfold call_generate_with_tools.
  match goal with |- context [generate_with_tools sv ?m ?t ?ps] =>
    pose proof (Hdown m t ps) as Hr;
    destruct (generate_with_tools sv m t ps) as [r ps']
  end.
  cbn in Hr. subst r. reflexivity.
Qed.

Lemma query_provider_down (e : exception) (user_query : string) (s : state PS) :
  provider_down sv e ->
  fst (query sv cfg user_query 10 s) = log_and_exit e.
Proof.
  intros Hdown. unfold query.
  change (range 10) with (0 :: map Z.of_nat (seq 1 9))%Z.
  cbn [query_loop]. unfold call_generate_with_tools.
  match goal with |- context [generate_with_tools sv ?m ?t ?ps] =>
    pose proof (Hdown m t ps) as Hr;
    destruct (generate_with_tools sv m t ps) as [r ps']
  end.
  cbn in Hr. subst r. cbn [try_except]. unfold log_and_exit.
  destruct (message_attr e); reflexivity.
Qed.

(** X22: with a provider every call of which raises, the two modes of the
    script differ.  In chat mode the exception is caught by the script: the
    loop never ends in a process exit and prints no answer, whatever is
    typed.  In single mode, when the exception carries a [message], the first
    question ends the process with status 1, the lines after it being never
    read; when it carries none, the [AttributeError] of the handler of
    [query] is caught by the script and the loop goes on. *)
Theorem interactive_provider_down (e : exception) :
  provider_down sv e ->
  (forall inputs s printed,
     snd (interactive sv cfg strip lower "chat" inputs s printed) = printed
     /\ forall c,
          fst (fst (interactive sv cfg strip lower "chat" inputs s printed))
          <> ProcessExit c)
  /\ (forall line rest s printed,
        is_question strip lower "single" line ->
        (forall m, message_attr e = Some m ->
           exists s',
             interactive sv cfg strip lower "single" (line :: rest) s printed
             = (ProcessExit 1, s', printed))
        /\ (message_attr e = None ->
            exists s',
              interactive sv cfg strip lower "single" (line :: rest) s printed
              = interactive sv cfg strip lower "single" rest s' printed)).
Proof.
  intros Hdown. split.
  - intros inputs. induction inputs as [|line rest IH]; intros s printed;
      cbn [interactive].
    + split; [reflexivity|discriminate].
    + destruct (is_exit lower (strip line)); [split; [reflexivity|discriminate]|].
      change (String.eqb "chat" "chat") with true. rewrite !andb_true_r.
      destruct (String.eqb (lower (strip line)) "reset"); [apply IH|].
      destruct (String.eqb (lower (strip line)) "history"); [apply IH|].
      destruct (String.eqb (strip line) EmptyString); [apply IH|].
      pose proof (chat_provider_down (strip line) s Hdown) as Hc.
      destruct (chat sv cfg (strip line) 10 s) as [r s']. cbn in Hc. subst r.
      apply IH.
  - intros line rest s printed (Hx & Hr & Hh & Hne).
    cbn [interactive]. rewrite Hx, Hr, Hh.
    destruct (String.eqb_spec (strip line) EmptyString) as [He|_]; [contradiction|].
    change (String.eqb "single" "chat") with false. cbn iota.
    pose proof (query_provider_down (strip line) s Hdown) as Hq.
    destruct (query sv cfg (strip line) 10 s) as [r s']. cbn in Hq. subst r.
    unfold log_and_exit. split.
    + intros m Hm. rewrite Hm. exists s'. reflexivity.
    + intros Hn. rewrite Hn. exists s'. reflexivity.
Qed.
End Script.

(** The script over the provider that cannot be reached: [str.strip] and
    [str.lower] stand as the identity on the lines used, which have no blanks
    and no capitals. *)
Lemma interactive_provider_down_witness :
  (forall inputs s printed,
     snd (interactive down_services (cfg_of 5 "summary") (fun x => x) (fun x => x)
            "chat" inputs s printed) = printed
     /\ forall c,
          fst (fst (interactive down_services (cfg_of 5 "summary") (fun x => x)
                      (fun x => x) "chat" inputs s printed))
          <> ProcessExit c)
  /\ exists s',
       interactive down_services (cfg_of 5 "summary") (fun x => x) (fun x => x)
         "single" ["domanda"; "exit"] (start []) []
       = (ProcessExit 1, s', []).
Proof.
  assert (Hdown : provider_down down_services api_down)
    by (intros messages tools ps; reflexivity).
  destruct (@interactive_provider_down nat down_services (cfg_of 5 "summary")
              (fun x => x) (fun x => x) api_down Hdown) as [Hchat Hsingle].
  split; [exact Hchat|].
  refine (proj1 (Hsingle "domanda" ["exit"] (start []) [] _) "Connection error." eq_refl).
  repeat split. discriminate.
Defined.

End ScriptExtras.

(** ** Runs over the OpenAI client *)

Module OpenAIRunExtras.
Import Py Model Tools Agent Examples ClientExamples.
Local Open Scope string_scope.

(** X23: when the agent runs over [OpenAIClient] and the API call of an
    iteration fails, the client itself leaves the process (status 1 when the
    exception carries a [message]), so [chat] ends in that exit exactly as
    [query] does: over this client a provider failure never reaches the
    caller of [chat] as an exception.  The iteration made one call, and the
    history is as the iteration found it. *)
Theorem openai_failure_ends_both_loops (PS : Type) (sv : services PS)
  (cfg : config)
  (create : list message -> list OpenAIClient.openai_tool -> PS
            -> result OpenAIClient.completion * PS)
  (json_loads : string -> result pyval)
  (i : Z) (rest : list Z) (n : Z) (conversation : list message)
  (tool_results : list tool_record) (s : state PS) (e : exception) (m : string) :
  generate_with_tools sv = OpenAIClient.generate_with_tools create json_loads ->
  fst (create conversation (map OpenAIClient.to_openai_tool _define_tools) (llm s))
  = Fail e ->
  message_attr e = Some m ->
  let s1 := snd (call_generate_with_tools sv conversation s) in
  chat_loop sv cfg (i :: rest) n conversation tool_results s = (SysExit 1, s1)
  /\ query_loop sv cfg (i :: rest) n conversation tool_results s = (SysExit 1, s1)
  /\ calls s1
     = (calls s ++ [CallGenerateWithTools conversation _define_tools (SysExit 1)])%list
  /\ conversation_history s1 = conversation_history s.
Proof.
  intros Hsv Hfail Hm. cbv zeta. cbn [chat_loop query_loop].
  unfold call_generate_with_tools. rewrite Hsv.
  unfold OpenAIClient.generate_with_tools.
  destruct (create conversation (map OpenAIClient.to_openai_tool _define_tools) (llm s))
    as [r ps']. cbn in Hfail. subst r.
  cbn [lift try_except bind]. unfold log_and_exit. rewrite Hm.
  cbn [bind try_except fst snd calls conversation_history].
  repeat split.
Qed.

Lemma openai_failure_ends_both_loops_witness :
  chat_loop openai_down_services (cfg_of 5 "summary") [0%Z] 1
    [Turn "user" "domanda"] [] (start [])
  = (SysExit 1,
     snd (call_generate_with_tools openai_down_services [Turn "user" "domanda"]
            (start []))).
Proof.
  refine (proj1 (@openai_failure_ends_both_loops nat openai_down_services
                   (cfg_of 5 "summary") failing_create no_json
                   0%Z [] 1 [Turn "user" "domanda"] [] (start []) api_down
                   "Connection error." eq_refl eq_refl eq_refl)).
Defined.

End OpenAIRunExtras.
